(** * gemini-image-mcp: the batch runner, the request builder and the dispatcher

    A shallow embedding of [src/batch_generate.py] and
    [src/gemini_image_server.py].  Python exceptions are an error result,
    the effects of the scripts (file system, queue store, standard streams,
    HTTP calls, sub-processes, sleeping) are threaded through an explicit
    state, and everything the scripts obtain from the outside (environment,
    library functions, the remote API) is a field of [World]. *)

From stdpp Require Import base option list strings pretty gmap.

Local Open Scope Z_scope.
Local Open Scope string_scope.
Local Open Scope list_scope.

(** ** Python values *)

Module Py.

(** The result of evaluating an expression that may raise an [Exception];
    [Raise msg] carries [str(e)]. *)
Inductive Result (A : Type) : Type :=
| Ok (a : A)
| Raise (msg : string).
Arguments Ok {A} a.
Arguments Raise {A} msg.

Definition is_ok {A} (r : Result A) : bool :=
  match r with Ok _ => true | Raise _ => false end.

Definition and_then {A B} (r : Result A) (k : A -> Result B) : Result B :=
  match r with
  | Ok a => k a
  | Raise msg => Raise msg
  end.

(** [s.endswith(suffix)] *)
Definition endswith (s suffix : string) : bool :=
  let n := String.length s in
  let k := String.length suffix in
  (k <=? n)%nat && String.eqb (String.substring (n - k) k s) suffix.

(** [s[:n]] *)
Definition take (n : nat) (s : string) : string := String.substring 0 n s.

(** [os.path.join(a, b)] on a POSIX system. *)
Definition path_join (a b : string) : string :=
  if String.prefix "/" b then b
  else if String.eqb a "" || endswith a "/" then a +:+ b
  else a +:+ "/" +:+ b.

(** Truth value of an optional string ([None] and [''] are false). *)
Definition truthy (o : option string) : bool :=
  match o with
  | Some s => negb (String.eqb s "")
  | None => false
  end.

Definition newline : string := String (Ascii.ascii_of_nat 10) EmptyString.

(** [s * n] *)
Fixpoint str_mul (s : string) (n : nat) : string :=
  match n with
  | O => ""
  | S n => s +:+ str_mul s n
  end.

(** JSON documents as [json.loads] returns them. *)
#[warnings="-register-all"]
Inductive JSON : Type :=
| JNull
| JBool (b : bool)
| JInt (n : Z)
| JFloat (literal : string)
| JStr (s : string)
| JArr (items : list JSON)
| JObj (members : list (string * JSON)).

Fixpoint assoc (k : string) (kvs : list (string * JSON)) : option JSON :=
  match kvs with
  | [] => None
  | (k', v) :: kvs => if String.eqb k k' then Some v else assoc k kvs
  end.

(** [d.get(k)] for a table from strings to strings. *)
Fixpoint dict_get (k : string) (d : list (string * string)) : option string :=
  match d with
  | [] => None
  | (k', v) :: d => if String.eqb k k' then Some v else dict_get k d
  end.

(** [k in d] *)
Definition dict_mem (k : string) (d : list (string * string)) : bool :=
  match dict_get k d with Some _ => true | None => false end.

(** [not l] for a list. *)
Definition is_nil {A} (l : list A) : bool :=
  match l with [] => true | _ :: _ => false end.

Definition type_name (v : JSON) : string :=
  match v with
  | JNull => "NoneType"
  | JBool _ => "bool"
  | JInt _ => "int"
  | JFloat _ => "float"
  | JStr _ => "str"
  | JArr _ => "list"
  | JObj _ => "dict"
  end.

(** [v.get(k, default)]: only a dict has the method. *)
Definition get (v : JSON) (k : string) (dflt : JSON) : Result JSON :=
  match v with
  | JObj kvs => Ok (default dflt (assoc k kvs))
  | _ => Raise ("'" +:+ type_name v +:+ "' object has no attribute 'get'")
  end.

(** [v == s] for a string literal [s]. *)
Definition eq_str (v : JSON) (s : string) : bool :=
  match v with
  | JStr t => String.eqb t s
  | _ => false
  end.

End Py.

(** ** The outside world and the effects of the scripts *)

Module Sys.
Import Py.

(** One content part of a [generateContent] request. *)
Inductive Part : Type :=
| InlineData (mimeType data : string)
| Text (text : string).

(** The request body: [contents[0].parts] and [generationConfig.imageConfig]
    ([responseModalities] is the constant [["TEXT", "IMAGE"]]); [imageSize]
    is [None] when the key is left out. *)
Record Payload : Type := mkPayload {
  parts : list Part;
  aspectRatio : string;
  imageSize : option string
}.

(** A part of [data['candidates'][0]['content']['parts']], as far as the
    scripts look at it: whether it has the key ['inlineData'], and then the
    value of [part['inlineData']['data']]. *)
Inductive ResponsePart : Type :=
| WithInlineData (data : string)
| WithoutInlineData.

(** A [requests.Response]: [candidate_parts] is what [response.json()] and
    the walk down to the parts of the first candidate give, or raise. *)
Record Response : Type := mkResponse {
  status_code : Z;
  text : string;
  candidate_parts : Result (list ResponsePart)
}.

(** One generation outcome of the batch runner (an entry of
    [batch_results.json]). *)
Inductive Outcome : Type :=
| Success (filename path resolution aspect_ratio : string)
          (reference_images_used : nat)
| Error (filename error : string).

(** One entry of the prompts file; [None] is an absent key, an absent
    ['reference_images'] is the empty list. *)
Record PromptData : Type := mkPromptData {
  pd_prompt : option string;
  pd_filename : option string;
  pd_aspect_ratio : option string;
  pd_image_size : option string;
  pd_quality : option string;
  pd_reference_images : list string;
  pd_reference_image : option string
}.

(** Observable effects, in the order they happen. *)
Inductive Event : Type :=
| Print (line : string)
| Post (url : string) (payload : Payload)
| Sleep (seconds : Z)
| Subprocess (cmd : list string).

(** [config.json], as far as the runs below read it: a file that has the
    keys [images_dir] and [batch_manager_script]; the delay and the limit
    stand for [CFG.get] with its default. *)
Record Config : Type := mkConfig {
  images_dir : string;
  batch_manager_script : string;
  api_delay_seconds : Z;
  max_reference_images : Z
}.

(** What running the batch manager script gives: the queue store it
    leaves, its exit code, [json.loads] of its standard output, and the
    text it leaves in its queue file when it rewrites it. *)
Record Completed : Type := mkCompleted {
  new_queue : list PromptData;
  returncode : Z;
  stdout_json : Result JSON;
  rewritten : option string
}.

(** Everything the scripts obtain from their environment.  [requests_post]
    answers the [n]-th HTTP call of a run; [open_wb] is the error [open]
    raises for a path opened for writing, if any; [batch_manager] is the
    batch manager script, run with a command line on the queue store, and
    [manager_queue_file] the file it keeps the queue in; [spawn] is the
    error [subprocess.run] raises for a command line whose program cannot
    be started, if any. *)
Record World : Type := mkWorld {
  GEMINI_API_KEY : option string;
  expanduser : string -> string;
  splitext_lower : string -> string;
  b64encode : string -> string;
  b64decode : string -> Result string;
  requests_post : nat -> string -> Payload -> Result Response;
  open_wb : string -> option string;
  strftime_now : string;
  json_dumps : JSON -> string;
  json_load_prompts : string -> Result (list PromptData);
  json_dump_results : list Outcome -> string;
  batch_manager : list string -> list PromptData -> Completed;
  manager_queue_file : string;
  spawn : list string -> option string
}.

(** The mutable state: the files on disk, the live queue store and the
    trace of effects so far. *)
Record State : Type := mkState {
  fs : gmap string string;
  queue : list PromptData;
  trace : list Event
}.

Definition emit (e : Event) (st : State) : State :=
  mkState (fs st) (queue st) (trace st ++ [e]).

Definition set_fs (f : gmap string string -> gmap string string) (st : State) : State :=
  mkState (f (fs st)) (queue st) (trace st).

Definition set_queue (q : list PromptData) (st : State) : State :=
  mkState (fs st) q (trace st).

Arguments emit : simpl never.
Arguments set_fs : simpl never.
Arguments set_queue : simpl never.

Definition is_post (e : Event) : bool :=
  match e with Post _ _ => true | _ => false end.

(** The HTTP calls of a trace. *)
Definition posts (t : list Event) : list Event := List.filter is_post t.

Definition is_subprocess (e : Event) : bool :=
  match e with Subprocess _ => true | _ => false end.

(** The calls of [subprocess.run] in a trace. *)
Definition manager_runs (t : list Event) : list Event :=
  List.filter is_subprocess t.

(** Code that reads and writes the state and may raise. *)
Definition M (A : Type) : Type := State -> Result A * State.

Definition ret {A} (a : A) : M A := fun st => (Ok a, st).

Definition raise {A} (msg : string) : M A := fun st => (Raise msg, st).

Definition bind {A B} (m : M A) (k : A -> M B) : M B :=
  fun st =>
    match m st with
    | (Ok a, st') => k a st'
    | (Raise msg, st') => (Raise msg, st')
    end.

Definition lift {A} (r : Result A) : M A := fun st => (r, st).

(** [try: m  except Exception as e: h(str(e))] *)
Definition try_except {A} (m : M A) (h : string -> M A) : M A :=
  fun st =>
    match m st with
    | (Ok a, st') => (Ok a, st')
    | (Raise msg, st') => h msg st'
    end.

(** [print(line)] *)
Definition print (line : string) : M unit :=
  fun st => (Ok tt, emit (Print line) st).

(** [time.sleep(seconds)]: a negative length is refused. *)
Definition sleep (seconds : Z) : M unit :=
  if Z.ltb seconds 0 then raise "sleep length must be non-negative"
  else fun st => (Ok tt, emit (Sleep seconds) st).

(** [requests.post(url, json=payload, ...)] *)
Definition post (w : World) (url : string) (payload : Payload) : M Response :=
  fun st =>
    (requests_post w (length (posts (trace st))) url payload,
     emit (Post url payload) st).

(** The state the batch manager leaves when it has run: its queue store,
    and its queue file when it rewrote it. *)
Definition settle (w : World) (r : Completed) (st : State) : State :=
  let st := set_queue (new_queue r) st in
  match rewritten r with
  | Some content => set_fs (insert (manager_queue_file w) content) st
  | None => st
  end.

(** [subprocess.run(cmd, capture_output=True, text=True)] of the batch
    manager script; the event records the call, whether the program
    starts or not. *)
Definition subprocess_run (w : World) (cmd : list string) : M Completed :=
  fun st =>
    match spawn w cmd with
    | Some err => (Raise err, emit (Subprocess cmd) st)
    | None =>
        let r := batch_manager w cmd (queue st) in
        (Ok r, settle w r (emit (Subprocess cmd) st))
    end.

(** [with open(path, 'wb') as f: f.write(base64.b64decode(data))]: the file
    is created (or truncated) when it is opened, before the data is
    decoded. *)
Definition write_decoded (w : World) (path data : string) : M unit :=
  fun st =>
    match open_wb w path with
    | Some err => (Raise err, st)
    | None =>
        match b64decode w data with
        | Raise err => (Raise err, set_fs (insert path "") st)
        | Ok bytes => (Ok tt, set_fs (insert path bytes) st)
        end
    end.

(** [os.path.splitext(file_path)[1].lower()] looked up in [mime_map]. *)
Definition mime_map : list (string * string) :=
  [(".png", "image/png"); (".jpg", "image/jpeg"); (".jpeg", "image/jpeg");
   (".webp", "image/webp"); (".gif", "image/gif")].

Definition get_mime_type (w : World) (file_path : string) : string :=
  let ext := splitext_lower w file_path in
  default "image/png" (dict_get ext mime_map).

(** [os.path.exists(os.path.expanduser(p))] in a state. *)
Definition present (w : World) (st : State) (p : string) : Prop :=
  is_Some (fs st !! expanduser w p).

Definition not_found (w : World) (p : string) : string :=
  "Reference image not found: " +:+ expanduser w p.

(** The loop shared by [_encode_reference_images] and
    [encode_reference_images]; [parts] is the list built so far. *)
Fixpoint encode_loop (w : World) (paths : list string) (parts : list Part)
  : M (list Part) :=
  match paths with
  | [] => ret parts
  | p :: paths =>
      let ref_path := expanduser w p in
      fun st =>
        match fs st !! ref_path with
        | None => (Raise ("Reference image not found: " +:+ ref_path), st)
        | Some content =>
            let img_b64 := b64encode w content in
            encode_loop w paths
              (parts ++ [InlineData (get_mime_type w ref_path) img_b64]) st
        end
  end.

(** The parts the loop builds for paths that all exist. *)
Definition encoded (w : World) (st : State) (paths : list string) : list Part :=
  List.map
    (fun p =>
       let ref_path := expanduser w p in
       InlineData (get_mime_type w ref_path)
         (b64encode w (default "" (fs st !! ref_path))))
    paths.

(** The scan of the response parts for the first one with ['inlineData']:
    [None] when there is none ([image_data] stays [None]). *)
Fixpoint first_inline_data (parts : list ResponsePart) : option string :=
  match parts with
  | [] => None
  | WithInlineData data :: _ => Some data
  | WithoutInlineData :: parts => first_inline_data parts
  end.

Definition api_error (r : Response) : string :=
  "API error: " +:+ pretty (status_code r) +:+ " - " +:+ text r.

(** The statements both scripts have from [requests.post] to the check of
    [image_data]: the call, the status check, the scan of the response,
    and the inline data found. *)
Definition request_image (w : World) (url : string) (payload : Payload)
  : M string :=
  bind (post w url payload) (fun response =>
  if negb (Z.eqb (status_code response) 200) then raise (api_error response) else
  bind (lift (candidate_parts response)) (fun data =>
  let image_data := first_inline_data data in
  if negb (truthy image_data) then raise "No image data in API response" else
  ret (default "" image_data))).

Definition size_map : list (string * string) :=
  [("small", "1K"); ("medium", "2K"); ("large", "2K"); ("xlarge", "4K")].

Definition MODELS : list (string * string) :=
  [("pro", "gemini-3-pro-image-preview"); ("fast", "gemini-2.5-flash-image")].

Definition endpoint (model api_key : string) : string :=
  "https://generativelanguage.googleapis.com/v1beta/models/" +:+ model
    +:+ ":generateContent?key=" +:+ api_key.

End Sys.

Declare Scope py_scope.
Delimit Scope py_scope with py.
Notation "'let*' x := m 'in' k" := (Sys.bind m (fun x => k))
  (at level 10, x name, m at level 100, k at level 200) : py_scope.
Notation "'do' m 'then' k" := (Sys.bind m (fun _ => k))
  (at level 10, m at level 100, k at level 200) : py_scope.

Local Open Scope py_scope.

(** ** gemini_image_server.py *)

Module Server.
Import Py Sys.

(** The [reference_images] argument: absent, a single string or a list. *)
Inductive RefArg : Type :=
| RefNone
| RefStr (path : string)
| RefList (paths : list string).

(** Truth value of the argument. *)
Definition ref_truthy (r : RefArg) : bool :=
  match r with
  | RefNone => false
  | RefStr s => negb (String.eqb s "")
  | RefList l => negb (is_nil l)
  end.

Definition MAX_REF_IMAGES (cfg : Config) : Z := max_reference_images cfg.

Definition too_many (n : nat) (limit : Z) : string :=
  "Too many reference images (" +:+ pretty n +:+ "). Maximum is "
    +:+ pretty limit +:+ ".".

Definition _normalize_reference_images (cfg : Config)
    (reference_images : RefArg) (reference_image : option string)
  : Result (list string) :=
  let paths :=
    if ref_truthy reference_images then
      match reference_images with
      | RefStr s => [s]
      | RefList l => l
      | RefNone => []
      end
    else if truthy reference_image then
      match reference_image with Some s => [s] | None => [] end
    else [] in
  if Z.gtb (Z.of_nat (length paths)) (MAX_REF_IMAGES cfg)
  then Raise (too_many (length paths) (MAX_REF_IMAGES cfg))
  else Ok paths.

Definition _encode_reference_images (w : World) (paths : list string)
  : M (list Part) :=
  encode_loop w paths [].

(** The dict [generate_image] returns (its ["success"] is [True]). *)
Record Generated : Type := mkGenerated {
  image_path : string;
  resolution : string;
  g_aspect_ratio : string;
  g_quality : string;
  model : string;
  reference_images_used : nat;
  message : string
}.

(** [quality if quality in MODELS else "pro"] *)
Definition tier (quality : string) : string :=
  if dict_mem quality MODELS then quality else "pro".

(** The references a call works with: [ref_paths]. *)
Definition references (cfg : Config) (quality : string)
    (reference_images : RefArg) (reference_image : option string)
  : Result (list string) :=
  if String.eqb quality "pro"
  then _normalize_reference_images cfg reference_images reference_image
  else Ok [].

(** [os.makedirs(output_dir, exist_ok=True)] is taken to succeed. *)
Definition generate_image (w : World) (cfg : Config)
    (prompt aspect_ratio image_size : string)
    (reference_image : option string) (reference_images : RefArg)
    (quality : string) : M Generated :=
  if negb (truthy (GEMINI_API_KEY w)) then raise "GEMINI_API_KEY not set" else
  let api_key := default "" (GEMINI_API_KEY w) in
  let quality := tier quality in
  let model := default "" (dict_get quality MODELS) in
  let image_size :=
    if String.eqb quality "fast" && String.eqb image_size "large"
    then "small" else image_size in
  let gemini_size := default "2K" (dict_get image_size size_map) in
  let url := endpoint model api_key in
  let* ref_paths := lift (references cfg quality reference_images reference_image) in
  let* parts := _encode_reference_images w ref_paths in
  let parts := parts ++ [Text prompt] in
  let payload :=
    mkPayload parts aspect_ratio
      (if String.eqb quality "pro" then Some gemini_size else None) in
  let* image_data := request_image w url payload in
  let output_dir := images_dir cfg in
  let filename :=
    output_dir +:+ "/gemini_image_" +:+ strftime_now w +:+ ".png" in
  do write_decoded w filename image_data then
  ret (mkGenerated filename gemini_size aspect_ratio quality model
         (length ref_paths)
         ("Image generated successfully (" +:+ quality +:+ " mode): "
            +:+ filename)).

(** The URL and the body of the request [generate_image] sends when its
    references encode to [enc]. *)
Definition url_of (w : World) (quality : string) : string :=
  endpoint (default "" (dict_get (tier quality) MODELS))
    (default "" (GEMINI_API_KEY w)).

Definition resolution_of (quality image_size : string) : string :=
  let image_size :=
    if String.eqb (tier quality) "fast" && String.eqb image_size "large"
    then "small" else image_size in
  default "2K" (dict_get image_size size_map).

Definition payload_of (prompt aspect_ratio image_size quality : string)
    (enc : list Part) : Payload :=
  mkPayload (enc ++ [Text prompt]) aspect_ratio
    (if String.eqb (tier quality) "pro"
     then Some (resolution_of quality image_size) else None).

(** [x or d] for strings. *)
Definition or_else (x d : string) : string :=
  if String.eqb x "" then d else x.

Definition add_to_batch (w : World) (cfg : Config)
    (prompt : string) (filename : option string)
    (aspect_ratio image_size description : string)
    (reference_image : option string) (reference_images : RefArg)
    (quality : string) : M JSON :=
  let quality := tier quality in
  let* ref_paths := lift (references cfg quality reference_images reference_image) in
  let image_size :=
    if String.eqb quality "fast" && String.eqb image_size "large"
    then "small" else image_size in
  let cmd := ["python3"; batch_manager_script cfg; "add"; prompt] in
  let cmd := cmd ++ [if truthy filename then default "" filename else ""] in
  let cmd := cmd ++ [or_else aspect_ratio "16:9"] in
  let cmd := cmd ++ [or_else image_size "large"] in
  let cmd :=
    cmd ++ [if is_nil ref_paths then "[]"
            else json_dumps w (JArr (JStr <$> ref_paths))] in
  let cmd := cmd ++ [quality] in
  let* result := subprocess_run w cmd in
  lift (stdout_json result).

(** *** The MCP dispatcher *)

(** The operations [handle_tool_call] routes to. *)
Inductive Tool : Type :=
| generate_image_tool
| add_to_batch_tool
| remove_from_batch_tool
| view_batch_queue_tool
| run_batch_tool
| convert_to_webp_tool
| get_generated_webp_images_tool
| upload_to_wordpress_tool.

(** What the dispatcher needs from its host: [run_tool n t args] is the
    call of operation [t] with the positional arguments [args] while the
    [n]-th message is served, which returns a result or raises;
    [dumps] is [json.dumps], [repr] is the text an f-string gives for a
    value that is not a string, [description] and [inputSchema] give the
    catalog entry of an operation. *)
Record Host : Type := mkHost {
  run_tool : nat -> Tool -> list JSON -> Result JSON;
  dumps : JSON -> string;
  repr : JSON -> string;
  description : string -> string;
  inputSchema : string -> JSON
}.

(** The [f"{v}"] of a JSON value. *)
Definition str (h : Host) (v : JSON) : string :=
  match v with
  | JStr s => s
  | JNull => "None"
  | JBool true => "True"
  | JBool false => "False"
  | JInt n => pretty n
  | _ => repr h v
  end.

(** Standard output (one JSON message per line) and standard error. *)
Record Console : Type := mkConsole {
  stdout : list JSON;
  stderr : list string
}.

Definition send_message (message : JSON) (c : Console) : Console :=
  mkConsole (stdout c ++ [message]) (stderr c).

Definition write_stderr (s : string) (c : Console) : Console :=
  mkConsole (stdout c) (stderr c ++ [s]).

(** A line of standard input: [json.loads] raises on it or returns a
    value.  The end of the list is the end of the input. *)
Inductive Line : Type :=
| Malformed (err : string)
| Parsed (v : JSON).

(** [read_message()]: [Ok None] at the end of the input and for a line
    that holds the JSON value [null] (Python's [None]). *)
Definition read_message (stdin : list Line) : Result (option JSON) * list Line :=
  match stdin with
  | [] => (Ok None, [])
  | Malformed err :: rest => (Raise err, rest)
  | Parsed JNull :: rest => (Ok None, rest)
  | Parsed v :: rest => (Ok (Some v), rest)
  end.

(** Whether a line holds the JSON value [null]. *)
Definition line_eq_dec (line : Line) :
  {line = Parsed JNull} + {line <> Parsed JNull}.
Proof.
  destruct line as [err|v]; [right; discriminate|].
  destruct v; try (right; discriminate). left; reflexivity.
Defined.

Definition handle_initialize (request_id : JSON) (c : Console) : Console :=
  send_message
    (JObj [("jsonrpc", JStr "2.0"); ("id", request_id);
           ("result",
            JObj [("protocolVersion", JStr "2024-11-05");
                  ("capabilities", JObj [("tools", JObj [])]);
                  ("serverInfo",
                   JObj [("name", JStr "gemini-image-generator");
                         ("version", JStr "3.1.0")])])]) c.

(** The names of the operations in the catalog, in the order listed. *)
Definition catalog : list string :=
  ["get_generated_webp_images"; "generate_image"; "add_to_batch";
   "remove_from_batch"; "view_batch_queue"; "run_batch"; "convert_to_webp";
   "upload_to_wordpress"].

Definition handle_tools_list (h : Host) (request_id : JSON) (c : Console)
  : Console :=
  send_message
    (JObj [("jsonrpc", JStr "2.0"); ("id", request_id);
           ("result",
            JObj [("tools",
                   JArr ((fun name =>
                            JObj [("name", JStr name);
                                  ("description", JStr (description h name));
                                  ("inputSchema", inputSchema h name)])
                           <$> catalog))])])
    c.

(** The branch [handle_tool_call] takes for a name: the operation and the
    argument keys it reads, each with its default. *)
Definition route (tool_name : JSON) : option (Tool * list (string * JSON)) :=
  if eq_str tool_name "generate_image" then
    Some (generate_image_tool,
          [("prompt", JNull); ("aspect_ratio", JStr "1:1");
           ("image_size", JStr "large"); ("reference_image", JNull);
           ("reference_images", JNull); ("quality", JStr "pro")])
  else if eq_str tool_name "add_to_batch" then
    Some (add_to_batch_tool,
          [("prompt", JNull); ("filename", JNull);
           ("aspect_ratio", JStr "16:9"); ("image_size", JStr "large");
           ("description", JStr ""); ("reference_image", JNull);
           ("reference_images", JNull); ("quality", JStr "pro")])
  else if eq_str tool_name "remove_from_batch" then
    Some (remove_from_batch_tool, [("identifier", JNull)])
  else if eq_str tool_name "view_batch_queue" then
    Some (view_batch_queue_tool, [])
  else if eq_str tool_name "run_batch" then
    Some (run_batch_tool, [])
  else if eq_str tool_name "convert_to_webp" then
    Some (convert_to_webp_tool, [("quality", JInt 85); ("force", JBool false)])
  else if eq_str tool_name "get_generated_webp_images" then
    Some (get_generated_webp_images_tool,
          [("directory", JStr "batch"); ("limit", JInt 10)])
  else if eq_str tool_name "upload_to_wordpress" then
    Some (upload_to_wordpress_tool,
          [("wp_url", JNull); ("wp_user", JNull); ("wp_password", JNull);
           ("directory", JStr "batch"); ("limit", JInt 10)])
  else None.

(** The [arguments.get(key, default)] calls of a branch, left to right. *)
Fixpoint get_all (arguments : JSON) (keys : list (string * JSON))
  : Result (list JSON) :=
  match keys with
  | [] => Ok []
  | (k, d) :: keys =>
      and_then (get arguments k d) (fun v =>
      and_then (get_all arguments keys) (fun vs => Ok (v :: vs)))
  end.

(** The body of the [try] of [handle_tool_call]: the result to report. *)
Definition invoke (h : Host) (n : nat) (tool_name arguments : JSON)
  : Result JSON :=
  match route tool_name with
  | Some (t, keys) =>
      and_then (get_all arguments keys) (fun args => run_tool h n t args)
  | None => Raise ("Unknown tool: " +:+ str h tool_name)
  end.

(** The error response of [handle_tool_call]. *)
Definition error_response (request_id : JSON) (e : string) : JSON :=
  JObj [("jsonrpc", JStr "2.0"); ("id", request_id);
        ("error", JObj [("code", JInt (-32000)); ("message", JStr e)])].

Definition handle_tool_call (h : Host) (n : nat)
    (request_id tool_name arguments : JSON) (c : Console) : Console :=
  let response :=
    match invoke h n tool_name arguments with
    | Ok result =>
        JObj [("jsonrpc", JStr "2.0"); ("id", request_id);
              ("result",
               JObj [("content",
                      JArr [JObj [("type", JStr "text");
                                  ("text", JStr (dumps h result))]])])]
    | Raise e => error_response request_id e
    end in
  send_message response c.

(** The four methods the loop of [main] tests for. *)
Definition recognized (method : JSON) : bool :=
  eq_str method "initialize" || eq_str method "tools/list"
  || eq_str method "tools/call" || eq_str method "notifications/initialized".

(** The body of the [try] in the loop of [main], after the message was
    read and found not to be [None]. *)
Definition serve (h : Host) (n : nat) (message : JSON) (c : Console)
  : Result Console :=
  and_then (get message "method" JNull) (fun method =>
  and_then (get message "id" JNull) (fun request_id =>
  if eq_str method "initialize" then Ok (handle_initialize request_id c)
  else if eq_str method "tools/list" then Ok (handle_tools_list h request_id c)
  else if eq_str method "tools/call" then
    and_then (get message "params" (JObj [])) (fun params =>
    and_then (get params "name" JNull) (fun name =>
    and_then (get params "arguments" (JObj [])) (fun arguments =>
    Ok (handle_tool_call h n request_id name arguments c))))
  else if eq_str method "notifications/initialized" then Ok c
  else Ok c)).

Definition report (e : string) (c : Console) : Console :=
  write_stderr ("Error: " +:+ e +:+ newline) c.

(** The [while True] loop of [main]; [n] counts the lines read.  It
    returns the console and the part of the input it did not read. *)
Fixpoint main_loop (h : Host) (n : nat) (stdin : list Line) (c : Console)
  : Console * list Line :=
  match stdin with
  | [] => (c, [])
  | line :: rest =>
      match read_message (line :: rest) with
      | (Raise e, _) => main_loop h (S n) rest (report e c)
      | (Ok None, _) => (c, rest)
      | (Ok (Some message), _) =>
          match serve h n message c with
          | Ok c' => main_loop h (S n) rest c'
          | Raise e => main_loop h (S n) rest (report e c)
          end
      end
  end.

Definition banner : string :=
  "Gemini Image MCP Server v3.1 - Pro/Fast Quality Tiers" +:+ newline.

Definition main (h : Host) (stdin : list Line) : Console * list Line :=
  main_loop h 0 stdin (write_stderr banner (mkConsole [] [])).

End Server.

(** ** The queue store *)

Module QueueStore.
Import Py Sys.

(** The value of a string of decimal digits. *)
Fixpoint digits (s : string) (acc : nat) : option nat :=
  match s with
  | EmptyString => Some acc
  | String c s =>
      match Ascii.is_nat c with
      | Some d => digits s (10 * acc + d)%nat
      | None => None
      end
  end.

Definition parse_index (identifier : string) : option nat :=
  match identifier with
  | EmptyString => None
  | _ => digits identifier 0
  end.

Definition has_filename (identifier : string) (pd : PromptData) : bool :=
  match pd_filename pd with
  | Some f => String.eqb f identifier
  | None => false
  end.

(** Removes the first entry whose filename is [identifier]. *)
Fixpoint remove_first (identifier : string) (q : list PromptData)
  : option (list PromptData) :=
  match q with
  | [] => None
  | pd :: q =>
      if has_filename identifier pd then Some q
      else cons pd <$> remove_first identifier q
  end.

(** Modelled from the spec: the batch manager script that owns the queue
    file is not among the sources; this is its [remove(identifier)] as the
    specification of the queue store words it: an identifier that parses
    as a non-negative integer within the current bounds removes by
    position, any other removes the first entry whose filename matches,
    and no match is a reported failure that leaves the queue as it is.
    The second component is the exit code. *)
Definition remove (identifier : string) (q : list PromptData)
  : list PromptData * Z :=
  match parse_index identifier with
  | Some i =>
      if (i <? length q)%nat then (delete i q, 0)
      else match remove_first identifier q with
           | Some q' => (q', 0)
           | None => (q, 1)
           end
  | None =>
      match remove_first identifier q with
      | Some q' => (q', 0)
      | None => (q, 1)
      end
  end.

(** Modelled from the spec: the batch manager script run with a command
    line.  Only [remove] is modelled, any other command leaves the queue
    as it is.  Every operation of the queue store is a load, mutate,
    persist cycle on its file, so a removal that succeeds rewrites the
    queue file: [dump] gives its text. *)
Definition script (dump : list PromptData -> string) (cmd : list string)
    (q : list PromptData) : Completed :=
  match cmd with
  | [_; _; "remove"; identifier] =>
      mkCompleted (fst (remove identifier q)) (snd (remove identifier q))
        (Ok JNull)
        (if Z.eqb (snd (remove identifier q)) 0
         then Some (dump (fst (remove identifier q))) else None)
  | _ => mkCompleted q 0 (Ok JNull) None
  end.

(** An entry stored under a filename that does not read as an index. *)
Definition plain_name (pd : PromptData) : Prop :=
  exists f, pd_filename pd = Some f /\ parse_index f = None.

(** A world whose batch manager answers a [remove] command as above. *)
Definition manages (w : World) : Prop :=
  forall script identifier q,
    new_queue (batch_manager w ["python3"; script; "remove"; identifier] q)
    = fst (remove identifier q).

End QueueStore.

(** ** batch_generate.py *)

Module Batch.
Import Py Sys.

Definition remove_from_queue (w : World) (cfg : Config) (filename : string)
  : M unit :=
  let cmd := ["python3"; batch_manager_script cfg; "remove"; filename] in
  let* result := subprocess_run w cmd in
  if Z.eqb (returncode result) 0
  then print ("  Removed from queue: " +:+ filename)
  else print ("  Warning: Could not remove from queue: " +:+ filename).

Definition encode_reference_images (w : World) (ref_list : list string)
  : M (list Part) :=
  encode_loop w ref_list [].

(** The values the loop body assigns before its [try]. *)
Record Job : Type := mkJob {
  filename : string;
  queue_filename : string;
  aspect_ratio : string;
  image_size : string;
  quality : string;
  model : string;
  reference_images : list string;
  gemini_size : string
}.

Definition resolve (i : nat) (prompt_data : PromptData) : Job :=
  let filename :=
    default ("image_" +:+ pretty i +:+ ".png") (pd_filename prompt_data) in
  let queue_filename := filename in
  let filename :=
    if negb (endswith filename ".png") then filename +:+ ".png" else filename in
  let aspect_ratio := default "1:1" (pd_aspect_ratio prompt_data) in
  let image_size := default "large" (pd_image_size prompt_data) in
  let quality := default "pro" (pd_quality prompt_data) in
  let quality := if negb (dict_mem quality MODELS) then "pro" else quality in
  let model := default "" (dict_get quality MODELS) in
  let reference_images :=
    if String.eqb quality "pro" then
      let reference_images := pd_reference_images prompt_data in
      if is_nil reference_images then
        let single := pd_reference_image prompt_data in
        if truthy single then [default "" single] else reference_images
      else reference_images
    else [] in
  let gemini_size := default "2K" (dict_get image_size size_map) in
  mkJob filename queue_filename aspect_ratio image_size quality model
    reference_images gemini_size.

(** The body of the [try] of the loop. *)
Definition attempt (w : World) (cfg : Config) (api_key output_dir : string)
    (j : Job) (prompt : string) : M Outcome :=
  let* parts := encode_reference_images w (reference_images j) in
  let parts := parts ++ [Text prompt] in
  let url := endpoint (model j) api_key in
  let payload :=
    mkPayload parts (aspect_ratio j)
      (if String.eqb (quality j) "pro" then Some (gemini_size j) else None) in
  let* image_data := request_image w url payload in
  let output_path := path_join output_dir (filename j) in
  do write_decoded w output_path image_data then
  let result :=
    Success (filename j) output_path (gemini_size j) (aspect_ratio j)
      (length (reference_images j)) in
  do print ("Saved to: " +:+ output_path) then
  do remove_from_queue w cfg (queue_filename j) then
  ret result.

(** The [except Exception as e] of the loop. *)
Definition on_error (j : Job) (e : string) : M Outcome :=
  do print ("Error: " +:+ e) then
  ret (Error (filename j) e).

(** The [print]s of the loop body before its [try]; the second one slices
    the prompt. *)
Definition headline (n i : nat) (j : Job) : string :=
  newline +:+ "[" +:+ pretty i +:+ "/" +:+ pretty n +:+ "] Generating: "
    +:+ filename j +:+ " [" +:+ quality j +:+ "]".

Definition announce (j : Job) (prompt : string) : M unit :=
  do print ("Prompt: " +:+ take 80 prompt +:+ "...") then
  do print ("Model: " +:+ model j +:+ " | Resolution: " +:+ gemini_size j
              +:+ " | Aspect Ratio: " +:+ aspect_ratio j) then
  if is_nil (reference_images j) then ret tt
  else print ("Reference images: " +:+ pretty (length (reference_images j))).

(** One turn of the loop up to [results.append(result)]: the outcome to
    append.  A prompt that is [None] raises in the second [print], outside
    the [try]. *)
Definition process_entry (w : World) (cfg : Config)
    (api_key output_dir : string) (n i : nat) (prompt_data : PromptData)
  : M Outcome :=
  let j := resolve i prompt_data in
  do print (headline n i j) then
  match pd_prompt prompt_data with
  | None => raise "'NoneType' object is not subscriptable"
  | Some prompt =>
      do announce j prompt then
      try_except (attempt w cfg api_key output_dir j prompt) (on_error j)
  end.

(** The command line that removes [name] from the queue. *)
Definition remove_cmd (cfg : Config) (name : string) : list string :=
  ["python3"; batch_manager_script cfg; "remove"; name].

(** The request the [try] sends for a job whose references encode to
    [enc]. *)
Definition payload_of (j : Job) (enc : list Part) (prompt : string) : Payload :=
  mkPayload (enc ++ [Text prompt]) (aspect_ratio j)
    (if String.eqb (quality j) "pro" then Some (gemini_size j) else None).

Definition request_of (api_key : string) (j : Job) (enc : list Part)
    (prompt : string) : Event :=
  Post (endpoint (model j) api_key) (payload_of j enc prompt).

(** The state in which the [try] of the loop body starts. *)
Definition before_try (n i : nat) (prompt_data : PromptData)
    (prompt : string) (st : State) : State :=
  let j := resolve i prompt_data in
  snd (announce j prompt (emit (Print (headline n i j)) st)).

(** An entry with a prompt, as the queue store holds them. *)
Definition has_prompt (prompt_data : PromptData) : Prop :=
  is_Some (pd_prompt prompt_data).

Definition outcome_filename (r : Outcome) : string :=
  match r with
  | Success f _ _ _ _ => f
  | Error f _ => f
  end.

(** The entries not yet generated with success among the processed
    [entries], given their outcomes in the same order. *)
Fixpoint not_yet_succeeded (entries : list PromptData) (results : list Outcome)
  : list PromptData :=
  match entries, results with
  | pd :: entries, Error _ _ :: results => pd :: not_yet_succeeded entries results
  | _ :: entries, Success _ _ _ _ _ :: results => not_yet_succeeded entries results
  | _, _ => []
  end.

(** [if i < len(prompts): print(...); time.sleep(delay)] *)
Definition pause (cfg : Config) (n i : nat) : M unit :=
  if (i <? n)%nat then
    do print ("Waiting " +:+ pretty (api_delay_seconds cfg) +:+ " seconds...") then
    sleep (api_delay_seconds cfg)
  else ret tt.

(** The [for i, prompt_data in enumerate(prompts, 1)] loop; [n] is
    [len(prompts)], [results] the list built so far. *)
Fixpoint batch_loop (w : World) (cfg : Config) (api_key output_dir : string)
    (n i : nat) (prompts : list PromptData) (results : list Outcome)
  : M (list Outcome) :=
  match prompts with
  | [] => ret results
  | prompt_data :: prompts =>
      let* result := process_entry w cfg api_key output_dir n i prompt_data in
      let results := results ++ [result] in
      do pause cfg n i then
      batch_loop w cfg api_key output_dir n (S i) prompts results
  end.

Definition is_success (r : Outcome) : bool :=
  match r with Success _ _ _ _ _ => true | Error _ _ => false end.

Definition is_error (r : Outcome) : bool :=
  match r with Success _ _ _ _ _ => false | Error _ _ => true end.

(** [with open(prompts_file, 'r') as f: data = json.load(f)] and
    [data.get('prompts', [])] *)
Definition load_prompts (w : World) (prompts_file : string)
  : M (list PromptData) :=
  fun st =>
    match fs st !! prompts_file with
    | None =>
        (Raise ("[Errno 2] No such file or directory: '" +:+ prompts_file
                  +:+ "'"), st)
    | Some content => (json_load_prompts w content, st)
    end.

(** [with open(results_file, 'w') as f: json.dump(results, f, indent=2)] *)
Definition dump_results (w : World) (results_file : string)
    (results : list Outcome) : M unit :=
  fun st =>
    match open_wb w results_file with
    | Some err => (Raise err, st)
    | None => (Ok tt, set_fs (insert results_file (json_dump_results w results)) st)
    end.

(** How a call of [generate_images_batch] ends when it does not raise:
    at one of its two early [return]s, or after the loop, with the list
    [results] it built. *)
Inductive Run : Type :=
| NoApiKey
| NoPrompts
| Finished (results : list Outcome).

Definition rule : string := str_mul "=" 60.

Definition generate_images_batch (w : World) (cfg : Config)
    (prompts_file output_dir : string) : M Run :=
  if negb (truthy (GEMINI_API_KEY w)) then
    do print "Error: GEMINI_API_KEY environment variable not set" then
    ret NoApiKey
  else
  let api_key := default "" (GEMINI_API_KEY w) in
  let* prompts := load_prompts w prompts_file in
  if is_nil prompts then
    do print "No prompts found in file" then
    ret NoPrompts
  else
  let n := length prompts in
  do print ("Generating " +:+ pretty n +:+ " images...") then
  let* results := batch_loop w cfg api_key output_dir n 1 prompts [] in
  let results_file := path_join output_dir "batch_results.json" in
  do dump_results w results_file results then
  do print (newline +:+ rule) then
  do print "Batch complete!" then
  do print ("Total: " +:+ pretty n +:+ " images") then
  do print ("Success: " +:+ pretty (length (List.filter is_success results))) then
  do print ("Failed: " +:+ pretty (length (List.filter is_error results))) then
  do print ("Results saved to: " +:+ results_file) then
  do print rule then
  ret (Finished results).

End Batch.

(** ** Concrete worlds, used to run the scripts on explicit inputs *)

Module Sample.
Import Py Sys.

Definition cfg : Config := mkConfig "/img" "/opt/batch_manager.py" 3 14.

Definition image : Response :=
  mkResponse 200 "" (Ok [WithoutInlineData; WithInlineData "aGk="]).

(** The text of a queue file that holds [q]: the stored filenames. *)
Definition dump_queue (q : list PromptData) : string :=
  "[" +:+ String.concat "," (List.map (fun pd => default "" (pd_filename pd)) q)
    +:+ "]".

(** A world with the API key [key] in which the API answers every call
    with [reply], every file can be written, every program starts, and
    the prompts file holds [prompts]; the batch manager is the queue store
    of the specification, kept in [/img/batch_queue.json]. *)
Definition world (key : option string) (reply : Response)
    (prompts : list PromptData) : World :=
  mkWorld key id (fun _ => ".png") id Ok (fun _ _ _ => Ok reply)
    (fun _ => None) "20260101_120000" (fun _ => "[...]")
    (fun _ => Ok prompts) (fun _ => "[results]") (QueueStore.script dump_queue)
    "/img/batch_queue.json" (fun _ => None).

Definition entry (prompt name : string) (tier : option string)
    (refs : list string) : PromptData :=
  mkPromptData (Some prompt) (Some name) None None tier refs None.

(** A state with the files [files], the queue [q] and no effect yet. *)
Definition state (files : list (string * string)) (q : list PromptData)
  : State :=
  mkState (list_to_map files) q [].

(** A pro-tier entry whose reference image does not exist. *)
Definition broken : PromptData :=
  entry "a cat" "cat" None ["/missing.png"].

(** A pro-tier entry without references. *)
Definition plain : PromptData :=
  entry "a red circle" "circle.png" None [].

(** Two entries stored under the same filename; the first one cannot be
    generated. *)
Definition twin_broken : PromptData :=
  entry "a cat" "x.png" None ["/missing.png"].

Definition twin : PromptData :=
  entry "a dog" "x.png" None [].

(** A reply in the 2xx range that is not 200, with an image in it. *)
Definition created : Response :=
  mkResponse 201 "Created" (Ok [WithInlineData "aGk="]).

(** A reply outside the 2xx range. *)
Definition overloaded : Response :=
  mkResponse 503 "try later" (Raise "not JSON").

(** A fast-tier entry that leaves the image size at its default. *)
Definition quick : PromptData :=
  mkPromptData (Some "a fox") (Some "fox.png") None None (Some "fast") [] None.

(** The same entry with the size spelled out. *)
Definition quick_large : PromptData :=
  mkPromptData (Some "a fox") (Some "fox.png") None (Some "large") (Some "fast")
    [] None.

(** A fast-tier entry that names a reference image that does not exist. *)
Definition quick_broken : PromptData :=
  mkPromptData (Some "a fox") (Some "fox.png") None None (Some "fast")
    ["/missing.png"] None.

(** A host whose operations all give [answer]. *)
Definition host (answer : Result JSON) : Server.Host :=
  Server.mkHost (fun _ _ _ => answer) (fun _ => "{}") (fun _ => "<value>")
    (fun _ => "") (fun _ => JObj []).

(** An invocation of an operation that is not in the catalog. *)
Definition call_paint : JSON :=
  JObj [("jsonrpc", JStr "2.0"); ("id", JInt 7); ("method", JStr "tools/call");
        ("params", JObj [("name", JStr "paint"); ("arguments", JObj [])])].

(** A request with a method the dispatcher does not know. *)
Definition ping : JSON :=
  JObj [("jsonrpc", JStr "2.0"); ("id", JInt 8); ("method", JStr "ping")].

(** An entry stored without a filename. *)
Definition quick_unnamed : PromptData :=
  mkPromptData (Some "a fox") None None None (Some "fast") [] None.

(** An entry that has no prompt. *)
Definition promptless : PromptData :=
  mkPromptData None (Some "void.png") None None None [] None.

(** An entry whose quality is none of the two tiers. *)
Definition turbo : PromptData :=
  mkPromptData (Some "a fox") (Some "fox.png") None None (Some "turbo") [] None.

(** A world like [world] whose decoder refuses every text. *)
Definition undecodable (key : option string) (reply : Response)
    (prompts : list PromptData) : World :=
  mkWorld key id (fun _ => ".png") id (fun _ => Raise "Incorrect padding")
    (fun _ _ _ => Ok reply) (fun _ => None) "20260101_120000" (fun _ => "[...]")
    (fun _ => Ok prompts) (fun _ => "[results]") (QueueStore.script dump_queue)
    "/img/batch_queue.json" (fun _ => None).

(** The request for the catalog. *)
Definition list_tools : JSON :=
  JObj [("jsonrpc", JStr "2.0"); ("id", JStr "req-1"); ("method", JStr "tools/list")].

(** An invocation of [convert_to_webp] that only gives the quality. *)
Definition call_convert : JSON :=
  JObj [("jsonrpc", JStr "2.0"); ("id", JInt 9); ("method", JStr "tools/call");
        ("params", JObj [("name", JStr "convert_to_webp");
                         ("arguments", JObj [("quality", JInt 60)])])].

(** A host that answers every operation with its arguments. *)
Definition echo : Server.Host :=
  Server.mkHost (fun _ _ args => Ok (JArr args)) (fun _ => "{}") (fun _ => "<value>")
    (fun _ => "") (fun _ => JObj []).

(** A configuration with a negative delay. *)
Definition hasty : Config := mkConfig "/img" "/opt/batch_manager.py" (-1) 14.

Definition fifteen : list string :=
  List.map (fun i : nat => "/refs/" +:+ pretty i +:+ ".png") (seq 0 15).

(** A pro-tier entry with fifteen reference images, and a disk that has
    them all. *)
Definition crowded : PromptData :=
  entry "a crowd" "crowd.png" None fifteen.

Definition fifteen_files : list (string * string) :=
  List.map (fun p => (p, "png")) fifteen.

End Sample.

(** ** The other operations of the server, and the entry point of the batch
    script *)

Module Ops.
Import Py Sys.

(** A finished sub-process: [returncode], [stdout] and [stderr]. *)
Record Process : Type := mkProcess {
  exit_code : Z;
  out : string;
  err : string
}.

(** A program run with a command line: what it does to the state and how
    it ends. *)
Definition Shell : Type := list string -> State -> Process * State.

(** [subprocess.run(cmd, capture_output=True, text=True)]: it raises when
    the program cannot be started. *)
Definition run (w : World) (sh : Shell) (cmd : list string) : M Process :=
  fun st =>
    match spawn w cmd with
    | Some err => (Raise err, emit (Subprocess cmd) st)
    | None =>
        let (p, st') := sh cmd (emit (Subprocess cmd) st) in
        (Ok p, st')
    end.

(** The paths of the configuration the operations below use; the two
    scripts are keys the configuration file may leave out, [queue_file]
    and [batch_dir] are set by [load_config]. *)
Record Paths : Type := mkPaths {
  batch_generate_script : option string;
  webp_convert_script : option string;
  queue_file : string;
  batch_dir : string
}.

(** [CFG[key]] for a key that may be missing. *)
Definition configured (key : string) (value : option string) : Result string :=
  match value with
  | Some v => Ok v
  | None => Raise ("'" +:+ key +:+ "'")
  end.

(** The dict [run_batch] and [convert_to_webp] return for a process. *)
Definition report_of (p : Process) : JSON :=
  JObj [("success", JBool (Z.eqb (exit_code p) 0));
        ("output", JStr (out p));
        ("error", if negb (Z.eqb (exit_code p) 0) then JStr (err p) else JNull)].

Definition run_batch (w : World) (paths : Paths) (sh : Shell) : M JSON :=
  if negb (truthy (GEMINI_API_KEY w)) then
    ret (JObj [("success", JBool false); ("error", JStr "GEMINI_API_KEY not set")])
  else
  let* script :=
    lift (configured "batch_generate_script" (batch_generate_script paths)) in
  let cmd := ["python3"; script; queue_file paths; batch_dir paths] in
  let* result := run w sh cmd in
  ret (report_of result).

Definition convert_to_webp (w : World) (cfg : Config) (paths : Paths)
    (sh : Shell) (quality : Z) (force : bool) : M JSON :=
  let* script :=
    lift (configured "webp_convert_script" (webp_convert_script paths)) in
  let cmd :=
    ["uv"; "run"; script; images_dir cfg; "--batch"; "--recursive"; "--quality";
     pretty quality] in
  let cmd := if force then cmd ++ ["--force"] else cmd in
  let* result := run w sh cmd in
  ret (report_of result).

Definition remove_from_batch (w : World) (cfg : Config) (h : Server.Host)
    (identifier : JSON) : M JSON :=
  let cmd :=
    ["python3"; Sys.batch_manager_script cfg; "remove"; Server.str h identifier] in
  let* result := subprocess_run w cmd in
  lift (stdout_json result).

Definition view_batch_queue (w : World) (cfg : Config) : M JSON :=
  let cmd := ["python3"; Sys.batch_manager_script cfg; "view"] in
  let* result := subprocess_run w cmd in
  lift (stdout_json result).

(** [l[:limit]] for an integer [limit]. *)
Definition upto {A} (limit : Z) (l : list A) : list A :=
  if Z.leb 0 limit then firstn (Z.to_nat limit) l
  else firstn (length l - Z.to_nat (- limit)) l.

(** What the WordPress site answers to an upload: the status, the body,
    and the fields [upload_to_wordpress] reads from the decoded body, or
    the exception reading them raises. *)
Record Media : Type := mkMedia {
  media_id : JSON;
  source_url : JSON;
  title : JSON
}.

Record Answer : Type := mkAnswer {
  answer_status : Z;
  answer_text : string;
  answer_media : Result Media
}.

(** The WordPress side: [newest_webp dir] lists the names of the [*.webp]
    files of [dir], the most recently changed first; [upload url user
    password path] opens [path] and posts it, and raises when either
    fails. *)
Record Site : Type := mkSite {
  newest_webp : string -> list string;
  upload : string -> string -> string -> string -> Result Answer
}.

(** One entry of [uploaded] or [failed]. *)
Inductive Report : Type :=
| Uploaded (filename : string) (media : Media)
| Failed (filename : string) (error : string).

Definition is_uploaded (r : Report) : bool :=
  match r with Uploaded _ _ => true | Failed _ _ => false end.

Definition is_failed (r : Report) : bool :=
  match r with Uploaded _ _ => false | Failed _ _ => true end.

Definition report_name (r : Report) : string :=
  match r with Uploaded f _ => f | Failed f _ => f end.

(** The body of the loop of [upload_to_wordpress] for one file. *)
Definition upload_one (site : Site) (wp_url wp_user wp_password batch_dir : string)
    (filename : string) : Report :=
  match upload site (wp_url +:+ "/wp-json/wp/v2/media") wp_user wp_password
          (path_join batch_dir filename) with
  | Raise e => Failed filename e
  | Ok response =>
      if Z.eqb (answer_status response) 201 then
        match answer_media response with
        | Ok media => Uploaded filename media
        | Raise e => Failed filename e
        end
      else
        Failed filename
          ("HTTP " +:+ pretty (answer_status response) +:+ ": "
             +:+ answer_text response)
  end.

(** The dict [upload_to_wordpress] returns. *)
Record Uploads : Type := mkUploads {
  success : bool;
  uploaded : list Report;
  failed : list Report;
  total : nat
}.

Definition upload_to_wordpress (cfg : Config) (site : Site)
    (wp_url wp_user wp_password directory : string) (limit : Z) : Uploads :=
  let batch_dir := path_join (images_dir cfg) directory in
  let image_files := upto limit (newest_webp site batch_dir) in
  let reports :=
    List.map (upload_one site wp_url wp_user wp_password batch_dir) image_files in
  let uploaded := List.filter is_uploaded reports in
  let failed := List.filter is_failed reports in
  mkUploads (is_nil failed) uploaded failed (length uploaded + length failed).

(** One entry of the list [get_generated_webp_images] returns. *)
Record Image : Type := mkImage {
  image_name : string;
  image_base64 : string;
  image_file : string;
  image_size : nat
}.

(** The loop of [get_generated_webp_images]: a file that cannot be read
    raises out of it. *)
Fixpoint read_images (w : World) (batch_dir : string) (names : list string)
    (images : list Image) : M (list Image) :=
  match names with
  | [] => ret images
  | name :: names =>
      let img_path := path_join batch_dir name in
      fun st =>
        match fs st !! img_path with
        | None =>
            (Raise ("[Errno 2] No such file or directory: '" +:+ img_path +:+ "'"), st)
        | Some content =>
            read_images w batch_dir names
              (images ++ [mkImage name (b64encode w content) img_path
                            (String.length content)]) st
        end
  end.

Definition get_generated_webp_images (w : World) (cfg : Config) (site : Site)
    (directory : string) (limit : Z) : M (list Image * nat) :=
  let batch_dir := path_join (images_dir cfg) directory in
  let image_files := upto limit (newest_webp site batch_dir) in
  let* images := read_images w batch_dir image_files [] in
  ret (images, length images).

(** [load_config] of the server on the object the configuration file
    holds: [cfg[key] = value]. *)
Fixpoint dict_set (k : string) (v : JSON) (d : list (string * JSON))
  : list (string * JSON) :=
  match d with
  | [] => [(k, v)]
  | (k', v') :: d => if String.eqb k k' then (k, v) :: d else (k', v') :: dict_set k v d
  end.

(** [os.path.expanduser(v)] and [os.path.join(a, b)] on values: both
    raise on anything but strings. *)
Definition expand_value (w : World) (v : JSON) : Result JSON :=
  match v with
  | JStr s => Ok (JStr (expanduser w s))
  | _ => Raise ("expected str, bytes or os.PathLike object, not " +:+ type_name v)
  end.

Definition join_values (a b : JSON) : Result JSON :=
  match a, b with
  | JStr a, JStr b => Ok (JStr (path_join a b))
  | JStr _, _ =>
      Raise ("join() argument must be str, bytes, or os.PathLike object, not '"
               +:+ type_name b +:+ "'")
  | _, _ => Raise ("expected str, bytes or os.PathLike object, not " +:+ type_name a)
  end.

(** The loop over the path keys. *)
Fixpoint expand_keys (w : World) (keys : list string) (cfg : list (string * JSON))
  : Result (list (string * JSON)) :=
  match keys with
  | [] => Ok cfg
  | key :: keys =>
      match assoc key cfg with
      | Some v =>
          and_then (expand_value w v) (fun v' =>
          expand_keys w keys (dict_set key v' cfg))
      | None => expand_keys w keys cfg
      end
  end.

(** [cfg[key]] *)
Definition item (key : string) (cfg : list (string * JSON)) : Result JSON :=
  match assoc key cfg with
  | Some v => Ok v
  | None => Raise ("'" +:+ key +:+ "'")
  end.

Definition server_path_keys : list string :=
  ["images_dir"; "batch_manager_script"; "batch_generate_script";
   "webp_convert_script"].

Definition batch_path_keys : list string :=
  ["images_dir"; "batch_manager_script"].

(** [load_config] of [gemini_image_server.py]. *)
Definition load_config (w : World) (file : list (string * JSON))
  : Result (list (string * JSON)) :=
  and_then (expand_keys w server_path_keys file) (fun cfg =>
  and_then (item "images_dir" cfg) (fun images_dir =>
  and_then (join_values images_dir (default (JStr "batch") (assoc "batch_subdir" cfg)))
    (fun batch_dir =>
  let cfg := dict_set "batch_dir" batch_dir cfg in
  and_then (item "images_dir" cfg) (fun images_dir =>
  and_then
    (join_values images_dir
       (default (JStr "batch_queue.json") (assoc "queue_filename" cfg)))
    (fun queue_file =>
  Ok (dict_set "queue_file" queue_file cfg)))))).

(** [load_config] of [batch_generate.py]. *)
Definition batch_load_config (w : World) (file : list (string * JSON))
  : Result (list (string * JSON)) :=
  expand_keys w batch_path_keys file.

(** The output directory the batch script takes when it is given none:
    [os.path.join(CFG["images_dir"], CFG.get("batch_subdir", "batch"))]. *)
Definition default_output_dir (cfg : list (string * JSON)) : Result JSON :=
  and_then (item "images_dir" cfg) (fun images_dir =>
  join_values images_dir (default (JStr "batch") (assoc "batch_subdir" cfg))).

(** The [__main__] block of [batch_generate.py], given [sys.argv] and the
    output directory to take by default; the result is the exit status of
    the script: 1 after the usage message and when the call raises (the
    interpreter prints the traceback), 0 otherwise.  [os.makedirs] is taken
    to succeed. *)
Definition main (w : World) (cfg : Config) (default_dir : string)
    (argv : list string) : M Z :=
  match argv with
  | _ :: prompts_file :: rest =>
      let output_dir := match rest with d :: _ => d | [] => default_dir end in
      fun st =>
        match Batch.generate_images_batch w cfg prompts_file output_dir st with
        | (Ok _, st') => (Ok 0, st')
        | (Raise _, st') => (Ok 1, st')
        end
  | _ =>
      do print "Usage: python3 batch_generate.py <prompts.json> [output_dir]" then
      ret 1
  end.

(** What a process printed: the lines of the [Print] events. *)
Fixpoint printed (t : list Event) : string :=
  match t with
  | [] => ""
  | Print line :: t => line +:+ newline +:+ printed t
  | _ :: t => printed t
  end.

(** The batch script as a program: [python3 <script> <args>] runs [main]
    on [<script> <args>]. *)
Definition batch_script (w : World) (cfg : Config) (default_dir : string)
    (traceback : string) : Shell :=
  fun cmd st =>
    match main w cfg default_dir (tail cmd) st with
    | (Ok code, st') =>
        (mkProcess code (printed (drop (length (trace st)) (trace st')))
           (if Z.eqb code 0 then "" else traceback), st')
    | (Raise e, st') => (mkProcess 1 "" e, st')
    end.

End Ops.

(** ** Observations on a run *)

Module Observe.
Import Py Sys.

Definition is_sleep (e : Event) : bool :=
  match e with Sleep _ => true | _ => false end.

(** The pauses of a trace. *)
Definition sleeps (t : list Event) : list Event := List.filter is_sleep t.

(** The names under which the entries that succeeded are stored, in the
    order of the entries; [i] is the number of the first entry. *)
Fixpoint succeeded_names (i : nat) (entries : list PromptData)
    (results : list Outcome) : list string :=
  match entries, results with
  | pd :: entries, Success _ _ _ _ _ :: results =>
      Batch.queue_filename (Batch.resolve i pd)
        :: succeeded_names (S i) entries results
  | _ :: entries, Error _ _ :: results => succeeded_names (S i) entries results
  | _, _ => []
  end.

(** The paths the loop writes images to for [entries], numbered from [i]. *)
Definition output_paths (output_dir : string) (i : nat)
    (entries : list PromptData) : list string :=
  imap (fun k pd => path_join output_dir (Batch.filename (Batch.resolve (i + k) pd)))
    entries.

(** The value of a member of a JSON object, [JNull] for anything else. *)
Definition member (k : string) (v : JSON) : JSON :=
  match v with
  | JObj kvs => default JNull (assoc k kvs)
  | _ => JNull
  end.

(** The names in the answer to [tools/list]. *)
Definition tool_names (response : JSON) : list JSON :=
  match member "tools" (member "result" response) with
  | JArr items => List.map (member "name") items
  | _ => []
  end.

(** The arguments a branch of [handle_tool_call] passes on when
    [arguments] is the object with the members [kvs]. *)
Definition passed (kvs : list (string * JSON)) (keys : list (string * JSON))
  : list JSON :=
  List.map (fun kd => default (snd kd) (assoc (fst kd) kvs)) keys.

Definition is_object (v : JSON) : bool :=
  match v with JObj _ => true | _ => false end.

(** *** The outcomes of a run, told from the environment

    The second account of the loop of the batch runner, by the steps the
    specification of the Batch Runner lists for an entry: validate the
    references, call the API, decode and persist the image, remove the
    entry from the queue store.  It says what the outcome of each entry is
    from the environment alone, without the effects the script performs on
    the way. *)

(** What the outcome of an entry depends on and what an entry changes:
    the files, the queue store and the number of requests sent so far. *)
Record Ledger : Type := mkLedger {
  files : gmap string string;
  entries : list PromptData;
  sent : nat
}.

Definition ledger (st : State) : Ledger :=
  mkLedger (fs st) (queue st) (length (posts (trace st))).

(** The first of the paths that does not exist. *)
Fixpoint first_missing (w : World) (files : gmap string string)
    (paths : list string) : option string :=
  match paths with
  | [] => None
  | p :: paths =>
      match files !! expanduser w p with
      | Some _ => first_missing w files paths
      | None => Some p
      end
  end.

(** The inline parts of paths that all exist. *)
Definition parts_of (w : World) (files : gmap string string)
    (paths : list string) : list Part :=
  List.map
    (fun p =>
       InlineData (get_mime_type w (expanduser w p))
         (b64encode w (default "" (files !! expanduser w p))))
    paths.

(** The outcome of the entry numbered [i], and the ledger after it. *)
Definition turn (w : World) (cfg : Config) (api_key output_dir : string)
    (i : nat) (prompt_data : PromptData) (l : Ledger) : Outcome * Ledger :=
  let j := Batch.resolve i prompt_data in
  let prompt := default "" (pd_prompt prompt_data) in
  let refs := Batch.reference_images j in
  let output_path := path_join output_dir (Batch.filename j) in
  let failed (e : string) (l' : Ledger) := (Error (Batch.filename j) e, l') in
  match first_missing w (files l) refs with
  | Some p => failed ("Reference image not found: " +:+ expanduser w p) l
  | None =>
      let asked := mkLedger (files l) (entries l) (S (sent l)) in
      match requests_post w (sent l) (endpoint (Batch.model j) api_key)
              (Batch.payload_of j (parts_of w (files l) refs) prompt) with
      | Raise e => failed e asked
      | Ok r =>
          if negb (Z.eqb (status_code r) 200) then failed (api_error r) asked else
          match candidate_parts r with
          | Raise e => failed e asked
          | Ok parts =>
              if negb (truthy (first_inline_data parts))
              then failed "No image data in API response" asked else
              match open_wb w output_path with
              | Some e => failed e asked
              | None =>
                  match b64decode w (default "" (first_inline_data parts)) with
                  | Raise e =>
                      failed e
                        (mkLedger (<[output_path := ""]> (files l)) (entries l)
                           (S (sent l)))
                  | Ok bytes =>
                      let saved := <[output_path := bytes]> (files l) in
                      let cmd := Batch.remove_cmd cfg (Batch.queue_filename j) in
                      match spawn w cmd with
                      | Some e => failed e (mkLedger saved (entries l) (S (sent l)))
                      | None =>
                          let done := batch_manager w cmd (entries l) in
                          (Success (Batch.filename j) output_path
                             (Batch.gemini_size j) (Batch.aspect_ratio j)
                             (length refs),
                           mkLedger
                             (match rewritten done with
                              | Some content =>
                                  <[manager_queue_file w := content]> saved
                              | None => saved
                              end)
                             (new_queue done) (S (sent l)))
                      end
                  end
              end
          end
      end
  end.

(** The outcomes of the entries [prompts], numbered from [i], in their
    order, and the ledger after the last. *)
Fixpoint outcomes (w : World) (cfg : Config) (api_key output_dir : string)
    (i : nat) (prompts : list PromptData) (l : Ledger) : list Outcome * Ledger :=
  match prompts with
  | [] => ([], l)
  | prompt_data :: prompts =>
      let t := turn w cfg api_key output_dir i prompt_data l in
      let rest := outcomes w cfg api_key output_dir (S i) prompts (snd t) in
      (fst t :: fst rest, snd rest)
  end.

End Observe.

(** ** Sample inputs for the other operations *)

Module Cases.
Import Py Sys.

(** The paths of the sample configuration. *)
Definition paths : Ops.Paths :=
  Ops.mkPaths (Some "/opt/batch_generate.py") (Some "/opt/convert.py")
    "/img/batch_queue.json" "/img/batch".

(** A WordPress site with the files [names], the newest first, that
    answers every upload with [answer]. *)
Definition site (names : list string) (answer : Result Ops.Answer) : Ops.Site :=
  Ops.mkSite (fun _ => names) (fun _ _ _ _ => answer).

Definition accepted : Ops.Answer :=
  Ops.mkAnswer 201 "" (Ok (Ops.mkMedia (JInt 5) (JStr "https://x/y.webp") (JStr "y"))).

Definition plain_ok : Ops.Answer :=
  Ops.mkAnswer 200 "OK" (Ok (Ops.mkMedia (JInt 5) (JStr "https://x/y.webp") (JStr "y"))).

End Cases.

(** * Properties *)

Import Py Sys.

(** ** The effect primitives *)

Section Effects.
Context (w : World).

Lemma posts_snoc t e :
  posts (t ++ [e]) = posts t ++ (if is_post e then [e] else []).
Proof.
  unfold posts. rewrite List.filter_app; simpl.
  destruct (is_post e); reflexivity.
Qed.

Lemma manager_runs_snoc t e :
  manager_runs (t ++ [e])
  = manager_runs t ++ (if is_subprocess e then [e] else []).
Proof.
  unfold manager_runs. rewrite List.filter_app; simpl.
  destruct (is_subprocess e); reflexivity.
Qed.

Lemma print_run line st : print line st = (Ok tt, emit (Print line) st).
Proof. reflexivity. Qed.

Lemma bind_ok {A B} (m : M A) (k : A -> M B) st a st' :
  m st = (Ok a, st') -> bind m k st = k a st'.
Proof. intros H; unfold bind; rewrite H; reflexivity. Qed.

Lemma bind_raise {A B} (m : M A) (k : A -> M B) st e st' :
  m st = (Raise e, st') -> bind m k st = (Raise e, st').
Proof. intros H; unfold bind; rewrite H; reflexivity. Qed.

(** *** The reference image encoder *)

Local Abbreviation present := (present w).
Local Abbreviation not_found := (not_found w).

Lemma encode_loop_state paths : forall parts st,
  snd (encode_loop w paths parts st) = st.
Proof.
  induction paths as [|p paths IH]; intros parts st; simpl; [reflexivity|].
  destruct (fs st !! expanduser w p); [apply IH | reflexivity].
Qed.

Lemma encode_loop_present paths : forall parts st,
  Forall (present st) paths ->
  encode_loop w paths parts st = (Ok (parts ++ encoded w st paths), st).
Proof.
  induction paths as [|p paths IH]; intros parts st Hall; simpl.
  - rewrite app_nil_r. reflexivity.
  - inversion Hall as [|? ? [content Hp] Hrest]; subst.
    rewrite Hp. rewrite (IH _ st Hrest), <- app_assoc. reflexivity.
Qed.

Lemma encoded_fs st st' paths :
  fs st' = fs st -> encoded w st' paths = encoded w st paths.
Proof. intros H. unfold encoded. rewrite H. reflexivity. Qed.

Lemma present_fs st st' p : fs st' = fs st -> present st p -> present st' p.
Proof. intros H. unfold Sys.present. rewrite H. auto. Qed.

Lemma encode_loop_missing pre p post : forall parts st,
  Forall (present st) pre ->
  fs st !! expanduser w p = None ->
  encode_loop w (pre ++ p :: post) parts st = (Raise (not_found p), st).
Proof.
  induction pre as [|q pre IH]; intros parts st Hall Hp; simpl.
  - rewrite Hp. reflexivity.
  - inversion Hall as [|? ? [content Hq] Hrest]; subst.
    rewrite Hq. apply IH; assumption.
Qed.

(** *** The call of the API *)

Lemma request_image_state url payload st :
  snd (request_image w url payload st) = emit (Post url payload) st.
Proof.
  unfold request_image, bind, post, lift, raise, ret.
  destruct (requests_post w _ url payload) as [r|e]; simpl; [|reflexivity].
  destruct (negb _); simpl; [reflexivity|].
  destruct (candidate_parts r); simpl; [|reflexivity].
  destruct (negb _); reflexivity.
Qed.

Lemma request_image_not_200 url payload st r :
  requests_post w (length (posts (trace st))) url payload = Ok r ->
  status_code r <> 200 ->
  request_image w url payload st = (Raise (api_error r), emit (Post url payload) st).
Proof.
  intros Hr Hs. unfold request_image, bind, post. rewrite Hr.
  destruct (Z.eqb_spec (status_code r) 200) as [|_]; [contradiction|].
  reflexivity.
Qed.

Lemma request_image_200 url payload st r data image_data :
  requests_post w (length (posts (trace st))) url payload = Ok r ->
  status_code r = 200 ->
  candidate_parts r = Ok data ->
  first_inline_data data = Some image_data ->
  image_data <> "" ->
  request_image w url payload st = (Ok image_data, emit (Post url payload) st).
Proof.
  intros Hr Hs Hd Hi Hne. unfold request_image, bind, post, lift. rewrite Hr.
  rewrite Hs; simpl. rewrite Hd, Hi; simpl.
  destruct (String.eqb_spec image_data ""); [contradiction|reflexivity].
Qed.

Lemma request_image_no_data url payload st r data :
  requests_post w (length (posts (trace st))) url payload = Ok r ->
  status_code r = 200 ->
  candidate_parts r = Ok data ->
  truthy (first_inline_data data) = false ->
  request_image w url payload st
  = (Raise "No image data in API response", emit (Post url payload) st).
Proof.
  intros Hr Hs Hd Hi. unfold request_image, bind, post, lift. rewrite Hr.
  rewrite Hs; simpl. rewrite Hd, Hi; reflexivity.
Qed.

(** *** Writing the image *)

Lemma write_decoded_trace path data st :
  trace (snd (write_decoded w path data st)) = trace st
  /\ queue (snd (write_decoded w path data st)) = queue st.
Proof.
  unfold write_decoded.
  destruct (open_wb w path); [split; reflexivity|].
  destruct (b64decode w data); split; reflexivity.
Qed.

Lemma write_decoded_ok path data st st' :
  write_decoded w path data st = (Ok tt, st') ->
  exists bytes,
    b64decode w data = Ok bytes /\ open_wb w path = None
    /\ st' = set_fs (insert path bytes) st.
Proof.
  unfold write_decoded.
  destruct (open_wb w path); [discriminate|].
  destruct (b64decode w data) as [bytes|]; [|discriminate].
  intros [= <-]. exists bytes. auto.
Qed.

(** What a successful encoding and a successful request tell. *)
Lemma encode_loop_ok paths : forall parts st enc st',
  encode_loop w paths parts st = (Ok enc, st') ->
  st' = st /\ Forall (present st) paths /\ enc = parts ++ encoded w st paths.
Proof.
  induction paths as [|p paths IH]; intros parts st enc st' Hrun; simpl in Hrun.
  - injection Hrun as <- <-. rewrite app_nil_r. auto.
  - destruct (fs st !! expanduser w p) as [content|] eqn:Hp; [|discriminate].
    apply IH in Hrun as (-> & Hall & ->).
    split; [reflexivity|]. split.
    + constructor; [eexists; exact Hp | exact Hall].
    + rewrite <- app_assoc. cbn [encoded List.map app]. rewrite Hp. reflexivity.
Qed.

Lemma request_image_ok url payload st data s1 :
  request_image w url payload st = (Ok data, s1) ->
  exists r parts,
    requests_post w (length (posts (trace st))) url payload = Ok r
    /\ status_code r = 200
    /\ candidate_parts r = Ok parts
    /\ first_inline_data parts = Some data
    /\ data <> ""
    /\ s1 = emit (Post url payload) st.
Proof.
  unfold request_image, bind, post, lift, raise, ret.
  destruct (requests_post w _ url payload) as [r|e] eqn:Hr; [|discriminate].
  destruct (Z.eqb_spec (status_code r) 200) as [Hs|Hs]; cbn [negb]; [|discriminate].
  destruct (candidate_parts r) as [parts|e] eqn:Hparts; [|discriminate].
  destruct (first_inline_data parts) as [d|] eqn:Hd; cbn [truthy]; [|discriminate].
  destruct (String.eqb_spec d ""); cbn [negb]; [discriminate|].
  cbn [default from_option id]. intros [= <- <-]. exists r, parts.
  repeat split; try assumption; reflexivity.
Qed.

End Effects.

(** ** The loop body of the batch runner *)

Section BatchStep.
Context (w : World) (cfg : Config) (api_key output_dir : string).

Local Abbreviation attempt := (Batch.attempt w cfg api_key output_dir).
Local Abbreviation process_entry := (Batch.process_entry w cfg api_key output_dir).
Local Abbreviation batch_loop := (Batch.batch_loop w cfg api_key output_dir).

Local Abbreviation remove_cmd := (Batch.remove_cmd cfg).
Local Abbreviation request_of := (Batch.request_of api_key).
Local Abbreviation before_try := Batch.before_try.

(** What a finished run of the batch manager leaves. *)
Lemma settle_frame r st :
  queue (settle w r st) = new_queue r
  /\ trace (settle w r st) = trace st
  /\ fs (settle w r st)
     = match rewritten r with
       | Some content => <[manager_queue_file w := content]> (fs st)
       | None => fs st
       end.
Proof. unfold settle. cbv zeta. destruct (rewritten r); repeat split; reflexivity. Qed.

Lemma remove_from_queue_run name st :
  spawn w (remove_cmd name) = None ->
  exists line,
    Batch.remove_from_queue w cfg name st
    = (Ok tt,
       emit (Print line)
         (settle w (batch_manager w (remove_cmd name) (queue st))
            (emit (Subprocess (remove_cmd name)) st))).
Proof.
  unfold Batch.remove_cmd. intros Hspawn.
  unfold Batch.remove_from_queue, bind, subprocess_run. rewrite Hspawn.
  destruct (Z.eqb _ 0); eexists; reflexivity.
Qed.

(** When the batch manager cannot be started the removal raises. *)
Lemma remove_from_queue_stuck name st e :
  spawn w (remove_cmd name) = Some e ->
  Batch.remove_from_queue w cfg name st
  = (Raise e, emit (Subprocess (remove_cmd name)) st).
Proof.
  unfold Batch.remove_cmd. intros Hspawn.
  unfold Batch.remove_from_queue, bind, subprocess_run. rewrite Hspawn.
  reflexivity.
Qed.

(** However the removal ends, it sends nothing and touches no file but
    the queue file of the batch manager. *)
Lemma remove_from_queue_frame name st :
  let st' := snd (Batch.remove_from_queue w cfg name st) in
  posts (trace st') = posts (trace st)
  /\ (forall p, p <> manager_queue_file w -> fs st' !! p = fs st !! p).
Proof.
  cbv zeta. destruct (spawn w (remove_cmd name)) as [err|] eqn:Hspawn.
  - rewrite (remove_from_queue_stuck _ _ _ Hspawn). cbn [snd].
    unfold emit. cbn [trace fs]. rewrite posts_snoc. cbn [is_post].
    rewrite app_nil_r. auto.
  - destruct (remove_from_queue_run name st Hspawn) as [line ->]. cbn [snd].
    unfold settle, emit, set_fs, set_queue. cbv zeta.
    destruct (rewritten _); cbn [trace fs]; rewrite !posts_snoc; cbn [is_post];
      rewrite !app_nil_r; (split; [reflexivity|]); intros p Hp;
      [apply lookup_insert_ne; congruence | reflexivity].
Qed.

(** A raising attempt leaves the queue store as it was and sends at most
    one request; the batch manager is called only when the image was
    written and the manager then could not be started. *)
Lemma attempt_raise j prompt st e st' :
  attempt j prompt st = (Raise e, st') ->
  queue st' = queue st
  /\ (spawn w (remove_cmd (Batch.queue_filename j)) = None ->
      manager_runs (trace st') = manager_runs (trace st))
  /\ (posts (trace st') = posts (trace st)
      \/ exists enc, posts (trace st') = posts (trace st) ++ [request_of j enc prompt]).
Proof.
  unfold Batch.attempt, Batch.encode_reference_images, bind.
  pose proof (encode_loop_state w (Batch.reference_images j) [] st) as Hst.
  destruct (encode_loop w (Batch.reference_images j) [] st) as [[enc|e0] s0];
    simpl in Hst; subst s0.
  2:{ intros [= <- <-]. auto. }
  match goal with |- context [request_image w ?u ?p st] =>
    pose proof (request_image_state w u p st) as Hrq;
    destruct (request_image w u p st) as [[data|e1] s1] end;
    simpl in Hrq; subst s1.
  2:{ intros [= <- <-]. unfold emit. cbn [trace queue].
      rewrite manager_runs_snoc, posts_snoc. cbn [is_subprocess is_post].
      rewrite app_nil_r. split; [reflexivity|]. split; [reflexivity|].
      right. exists enc. reflexivity. }
  match goal with |- context [write_decoded w ?p ?d ?s] =>
    destruct (write_decoded_trace w p d s) as [Ht Hq];
    destruct (write_decoded w p d s) as [[[]|e2] s2] end; cbn [snd] in Ht, Hq;
    unfold emit in Ht, Hq; cbn [trace queue] in Ht, Hq.
  2:{ intros [= <- <-]. rewrite Hq, Ht.
      rewrite manager_runs_snoc, posts_snoc. cbn [is_subprocess is_post].
      rewrite app_nil_r. split; [reflexivity|]. split; [reflexivity|].
      right. exists enc. reflexivity. }
  unfold print.
  destruct (spawn w (remove_cmd (Batch.queue_filename j))) as [err|] eqn:Hspawn.
  - rewrite (remove_from_queue_stuck _ _ _ Hspawn). intros [= <- <-].
    unfold emit. cbn [trace queue]. rewrite !posts_snoc, Ht, posts_snoc.
    cbn [is_post]. rewrite !app_nil_r.
    split; [exact Hq|]. split; [discriminate|].
    right. exists enc. reflexivity.
  - destruct (remove_from_queue_run (Batch.queue_filename j)
                (emit (Print ("Saved to: " +:+ path_join output_dir (Batch.filename j))) s2)
                Hspawn) as [line Hrm].
    rewrite Hrm. discriminate.
Qed.

(** A successful attempt: what it received, wrote, sent and removed. *)
Lemma attempt_ok j prompt st o st' :
  attempt j prompt st = (Ok o, st') ->
  exists r parts data bytes,
    let output_path := path_join output_dir (Batch.filename j) in
    let done :=
      batch_manager w (remove_cmd (Batch.queue_filename j)) (queue st) in
    Forall (present w st) (Batch.reference_images j)
    /\ requests_post w (length (posts (trace st)))
         (endpoint (Batch.model j) api_key)
         (Batch.payload_of j (encoded w st (Batch.reference_images j)) prompt)
       = Ok r
    /\ status_code r = 200
    /\ candidate_parts r = Ok parts
    /\ first_inline_data parts = Some data
    /\ b64decode w data = Ok bytes
    /\ open_wb w output_path = None
    /\ spawn w (remove_cmd (Batch.queue_filename j)) = None
    /\ o = Success (Batch.filename j) output_path (Batch.gemini_size j)
             (Batch.aspect_ratio j) (length (Batch.reference_images j))
    /\ fs st'
       = match rewritten done with
         | Some content =>
             <[manager_queue_file w := content]> (<[output_path := bytes]> (fs st))
         | None => <[output_path := bytes]> (fs st)
         end
    /\ queue st' = new_queue done
    /\ posts (trace st')
       = posts (trace st)
           ++ [request_of j (encoded w st (Batch.reference_images j)) prompt]
    /\ manager_runs (trace st')
       = manager_runs (trace st) ++ [Subprocess (remove_cmd (Batch.queue_filename j))].
Proof.
  unfold Batch.attempt, Batch.encode_reference_images, bind.
  destruct (encode_loop w (Batch.reference_images j) [] st) as [[enc|e0] s0] eqn:Henc;
    [|discriminate].
  apply encode_loop_ok in Henc as (-> & Hpresent & ->). cbn [app].
  match goal with |- context [request_image w ?u ?p st] =>
    destruct (request_image w u p st) as [[data|e1] s1] eqn:Hrq end; [|discriminate].
  apply request_image_ok in Hrq as (r & parts & Hr & Hs & Hparts & Hdata & _ & ->).
  match goal with |- context [write_decoded w ?p ?d ?s] =>
    destruct (write_decoded w p d s) as [[[]|e2] s2] eqn:Hw end; [|discriminate].
  apply write_decoded_ok in Hw as (bytes & Hdec & Hopen & ->).
  unfold print.
  destruct (spawn w (remove_cmd (Batch.queue_filename j))) as [err|] eqn:Hspawn.
  { rewrite (remove_from_queue_stuck _ _ _ Hspawn). discriminate. }
  match goal with |- context [Batch.remove_from_queue w cfg ?name ?s] =>
    destruct (remove_from_queue_run name s Hspawn) as [line Hrm] end.
  rewrite Hrm. intros [= <- <-]. exists r, parts, data, bytes. cbv zeta.
  unfold settle, emit, set_fs, set_queue. cbv zeta.
  destruct (rewritten _); cbn [fs queue trace];
    repeat rewrite ?manager_runs_snoc, ?posts_snoc; cbn [is_subprocess is_post];
    rewrite !app_nil_r; repeat split; auto.
Qed.

(** The prints before the [try] touch neither files, queue, requests nor
    the manager. *)
Lemma before_try_frame n i pd prompt st :
  fs (before_try n i pd prompt st) = fs st
  /\ queue (before_try n i pd prompt st) = queue st
  /\ posts (trace (before_try n i pd prompt st)) = posts (trace st)
  /\ manager_runs (trace (before_try n i pd prompt st)) = manager_runs (trace st).
Proof.
  unfold Batch.before_try, Batch.announce, bind, print, ret.
  destruct (is_nil _); simpl;
    repeat rewrite ?manager_runs_snoc, ?posts_snoc; simpl;
    rewrite ?app_nil_r; auto.
Qed.

Lemma process_entry_run n i pd prompt st :
  pd_prompt pd = Some prompt ->
  process_entry n i pd st
  = try_except (attempt (Batch.resolve i pd) prompt)
      (Batch.on_error (Batch.resolve i pd)) (before_try n i pd prompt st).
Proof.
  intros Hp. unfold Batch.process_entry, Batch.before_try. rewrite Hp.
  unfold bind at 1. unfold print at 1.
  unfold bind at 1.
  assert (Hann : fst (Batch.announce (Batch.resolve i pd) prompt
                   (emit (Print (Batch.headline n i (Batch.resolve i pd))) st)) = Ok tt).
  { unfold Batch.announce, bind, print, ret. destruct (is_nil _); reflexivity. }
  destruct (Batch.announce _ _ _) as [[[]|e] s]; simpl in Hann; [reflexivity|discriminate].
Qed.

(** Without a prompt the turn raises before its [try]. *)
Lemma process_entry_promptless n i pd st :
  pd_prompt pd = None ->
  process_entry n i pd st
  = (Raise "'NoneType' object is not subscriptable",
     emit (Print (Batch.headline n i (Batch.resolve i pd))) st).
Proof.
  intros Hp. unfold Batch.process_entry. rewrite Hp. reflexivity.
Qed.

(** With a prompt the loop body always yields an outcome. *)
Lemma process_entry_total n i pd st :
  Batch.has_prompt pd ->
  exists o st', process_entry n i pd st = (Ok o, st')
                /\ Batch.outcome_filename o = Batch.filename (Batch.resolve i pd).
Proof.
  intros [prompt Hp]. rewrite (process_entry_run n i pd prompt st Hp).
  unfold try_except.
  destruct (attempt _ prompt _) as [[o|e] s1] eqn:Ha.
  - exists o, s1. split; [reflexivity|].
    apply attempt_ok in Ha
      as (r & parts & data & bytes & _ & _ & _ & _ & _ & _ & _ & _ & -> & _).
    reflexivity.
  - eexists _, _. unfold Batch.on_error, bind, print, ret. split; reflexivity.
Qed.

(** The pause changes neither files, queue, requests nor the manager,
    whether the sleep is accepted or not. *)
Lemma pause_frame n i st :
  let st' := snd (Batch.pause cfg n i st) in
  fs st' = fs st /\ queue st' = queue st
  /\ posts (trace st') = posts (trace st)
  /\ manager_runs (trace st') = manager_runs (trace st).
Proof.
  cbv zeta. unfold Batch.pause, bind, print, sleep, raise, ret.
  destruct (i <? n)%nat; [|auto].
  destruct (Z.ltb (api_delay_seconds cfg) 0); cbn [snd]; unfold emit;
    cbn [fs queue trace];
    repeat rewrite ?manager_runs_snoc, ?posts_snoc; cbn [is_subprocess is_post];
    rewrite ?app_nil_r; auto.
Qed.

(** With a delay that is not negative the pause returns. *)
Lemma pause_run n i st :
  0 <= api_delay_seconds cfg ->
  exists st', Batch.pause cfg n i st = (Ok tt, st')
  /\ fs st' = fs st /\ queue st' = queue st
  /\ posts (trace st') = posts (trace st)
  /\ manager_runs (trace st') = manager_runs (trace st).
Proof.
  intros Hdelay. pose proof (pause_frame n i st) as Hframe. cbv zeta in Hframe.
  assert (Hok : fst (Batch.pause cfg n i st) = Ok tt).
  { unfold Batch.pause, bind, print, sleep, ret.
    destruct (i <? n)%nat; [|reflexivity].
    destruct (Z.ltb_spec (api_delay_seconds cfg) 0); [lia | reflexivity]. }
  destruct (Batch.pause cfg n i st) as [res s1]. cbn [fst snd] in *. subst res.
  exists s1. split; [reflexivity | exact Hframe].
Qed.

(** A negative delay makes the pause after an entry that is not the last
    raise. *)
Lemma pause_refused n i st :
  api_delay_seconds cfg < 0 ->
  (i < n)%nat ->
  Batch.pause cfg n i st
  = (Raise "sleep length must be non-negative",
     emit (Print ("Waiting " +:+ pretty (api_delay_seconds cfg) +:+ " seconds...")) st).
Proof.
  intros Hdelay Hi. unfold Batch.pause, bind, print, sleep, raise.
  destruct (Nat.ltb_spec i n); [|lia].
  destruct (Z.ltb_spec (api_delay_seconds cfg) 0); [reflexivity | lia].
Qed.

(** The loop never raises over entries that have a prompt when the delay
    is not negative, and appends one outcome per entry, in order. *)
Lemma batch_loop_total n prompts : forall i results st,
  0 <= api_delay_seconds cfg ->
  Forall Batch.has_prompt prompts ->
  exists more st',
    batch_loop n i prompts results st = (Ok (results ++ more), st')
    /\ List.map Batch.outcome_filename more
       = imap (fun k pd => Batch.filename (Batch.resolve (i + k) pd)) prompts.
Proof.
  induction prompts as [|pd prompts IH]; intros i results st Hdelay Hall.
  - exists [], st. simpl. rewrite app_nil_r. split; reflexivity.
  - inversion Hall as [|? ? Hpd Hrest]; subst.
    destruct (process_entry_total n i pd st Hpd) as (o & s1 & Ho & Hname).
    destruct (pause_run n i s1 Hdelay) as (s2 & Hpause & _).
    destruct (IH (S i) (results ++ [o]) s2 Hdelay Hrest)
      as (more & s3 & Hloop & Hnames).
    exists (o :: more), s3. split.
    + cbn [Batch.batch_loop]. rewrite (bind_ok _ _ _ _ _ Ho).
      rewrite (bind_ok _ _ _ _ _ Hpause). rewrite Hloop, <- app_assoc. reflexivity.
    + cbn [List.map imap]. rewrite Hname, Hnames, Nat.add_0_r. f_equal.
      apply imap_ext. intros k x _. simpl. rewrite Nat.add_succ_r. reflexivity.
Qed.

(** What one turn of the loop does to the queue store, however it
    ends. *)
Lemma process_entry_queue n i pd st :
  let run := process_entry n i pd st in
  match fst run with
  | Ok (Success _ _ _ _ _) =>
      queue (snd run)
      = new_queue (batch_manager w
                     (remove_cmd (Batch.queue_filename (Batch.resolve i pd)))
                     (queue st))
  | _ => queue (snd run) = queue st
  end.
Proof.
  cbv zeta. destruct (pd_prompt pd) as [prompt|] eqn:Hp.
  2:{ rewrite (process_entry_promptless n i pd st Hp). reflexivity. }
  rewrite (process_entry_run n i pd prompt st Hp).
  destruct (before_try_frame n i pd prompt st) as (_ & Hq0 & _).
  unfold try_except.
  destruct (attempt _ prompt _) as [[o|e] s1] eqn:Ha.
  - apply attempt_ok in Ha
      as (r & parts & data & bytes & _ & _ & _ & _ & _ & _ & _ & _ & -> & _ & Hq & _).
    cbn [fst snd]. rewrite Hq, Hq0. reflexivity.
  - apply attempt_raise in Ha as (Hq & _).
    unfold Batch.on_error, bind, print, ret. cbn [fst snd].
    unfold emit. cbn [queue]. congruence.
Qed.

End BatchStep.

(** ** The queue store under the batch runner *)

Section QueueInvariant.
Context (w : World) (cfg : Config) (api_key output_dir : string).
Hypothesis Hstore : QueueStore.manages w.

Lemma remove_first_skip f kept : forall q,
  Forall (fun pd => pd_filename pd <> Some f) kept ->
  QueueStore.remove_first f (kept ++ q)
  = app kept <$> QueueStore.remove_first f q.
Proof.
  induction kept as [|x kept IH]; intros q Hk; simpl.
  - destruct (QueueStore.remove_first f q); reflexivity.
  - inversion Hk as [|? ? Hx Hrest]; subst.
    unfold QueueStore.has_filename at 1.
    destruct (pd_filename x) as [g|] eqn:Hg.
    + destruct (String.eqb_spec g f) as [->|_]; [congruence|].
      rewrite (IH q Hrest). destruct (QueueStore.remove_first f q); reflexivity.
    + rewrite (IH q Hrest). destruct (QueueStore.remove_first f q); reflexivity.
Qed.

(** Removing by a filename that is no index and is stored once takes out
    exactly the entry stored under it. *)
Lemma remove_own_entry f kept pd rest :
  pd_filename pd = Some f ->
  QueueStore.parse_index f = None ->
  NoDup (pd_filename <$> (kept ++ pd :: rest)) ->
  QueueStore.remove f (kept ++ pd :: rest) = (kept ++ rest, 0).
Proof.
  intros Hf Hidx Hnd. unfold QueueStore.remove. rewrite Hidx.
  rewrite remove_first_skip.
  - simpl. unfold QueueStore.has_filename. rewrite Hf, String.eqb_refl. reflexivity.
  - rewrite fmap_app in Hnd. apply NoDup_app in Hnd as (_ & Hdisj & _).
    apply Forall_forall. intros x Hx Heq.
    apply (Hdisj (Some f)).
    + rewrite <- Heq. apply list_elem_of_fmap_2. exact Hx.
    + simpl. rewrite Hf. left.
Qed.

Lemma not_yet_succeeded_nil entries : Batch.not_yet_succeeded entries [] = [].
Proof. destruct entries; reflexivity. Qed.

(** The loop invariant, wherever the loop stops: the queue holds the
    entries kept so far, the failed ones among the entries handled, the
    entries not handled, and whatever follows.  [outs] are the outcomes of
    the entries handled. *)
Lemma batch_loop_queue n todo : forall i results kept later st,
  Forall QueueStore.plain_name todo ->
  NoDup (pd_filename <$> (kept ++ todo ++ later)) ->
  queue st = kept ++ todo ++ later ->
  let run := Batch.batch_loop w cfg api_key output_dir n i todo results st in
  exists outs,
    (length outs <= length todo)%nat
    /\ queue (snd run)
       = kept ++ Batch.not_yet_succeeded todo outs ++ drop (length outs) todo ++ later
    /\ (forall all, fst run = Ok all ->
          all = results ++ outs /\ length outs = length todo).
Proof.
  induction todo as [|pd todo IH]; intros i results kept later st Hn Hnd Hq; cbv zeta.
  - exists []. simpl. rewrite app_nil_r. split; [lia|]. split; [exact Hq|].
    intros all [= <-]. auto.
  - inversion Hn as [|? ? (f & Hf & Hidx) Hnrest]; subst.
    pose proof (process_entry_queue w cfg api_key output_dir n i pd st) as Hq1.
    cbv zeta in Hq1. cbn [Batch.batch_loop]. unfold bind.
    destruct (Batch.process_entry w cfg api_key output_dir n i pd st)
      as [[o|e] s1]; cbn [fst snd] in Hq1.
    2:{ exists []. cbn [fst snd]. simpl.
        split; [lia|]. split; [rewrite Hq1, Hq; reflexivity | discriminate]. }
    pose proof (pause_frame cfg n i s1) as (_ & Hq2 & _).
    assert (Hq2' : queue (snd (Batch.pause cfg n i s1))
                   = kept ++ Batch.not_yet_succeeded [pd] [o] ++ todo ++ later).
    { rewrite Hq2. destruct o as [? ? ? ? ?|? ?]; cbn [Batch.not_yet_succeeded app].
      - rewrite Hq1, Hq. unfold Batch.remove_cmd. rewrite Hstore.
        unfold Batch.resolve; cbn [Batch.queue_filename]. rewrite Hf.
        cbn [default from_option id].
        change (kept ++ (pd :: todo) ++ later) with (kept ++ pd :: todo ++ later).
        rewrite (remove_own_entry f kept pd (todo ++ later) Hf Hidx Hnd). reflexivity.
      - rewrite Hq1, Hq. reflexivity. }
    destruct (Batch.pause cfg n i s1) as [[[]|e] s2]; cbn [snd] in Hq2'.
    2:{ exists [o]. cbn [fst snd]. simpl.
        split; [lia|]. split; [|discriminate].
        rewrite Hq2'. destruct o; simpl; rewrite not_yet_succeeded_nil; reflexivity. }
    destruct o as [fn path res ar used|fn err].
    + destruct (IH (S i) (results ++ [Success fn path res ar used]) kept later s2
                  Hnrest) as (outs & Hlen & Hq3 & Hall).
      * rewrite fmap_app in Hnd |- *. simpl in Hnd.
        apply NoDup_app in Hnd as (Hk & Hdisj & Hr).
        apply NoDup_cons in Hr as (_ & Hr).
        apply NoDup_app. split; [exact Hk|]. split; [|exact Hr].
        intros x Hx Hin. apply (Hdisj x Hx). right. exact Hin.
      * exact Hq2'.
      * cbv zeta in Hq3, Hall. exists (Success fn path res ar used :: outs).
        cbn [length drop Batch.not_yet_succeeded].
        split; [lia|]. split; [exact Hq3|].
        intros all Hrun. destruct (Hall all Hrun) as [-> Hl].
        rewrite <- app_assoc. split; [reflexivity | congruence].
    + destruct (IH (S i) (results ++ [Error fn err]) (kept ++ [pd]) later s2
                  Hnrest) as (outs & Hlen & Hq3 & Hall).
      * rewrite <- app_assoc. exact Hnd.
      * rewrite Hq2', <- app_assoc. reflexivity.
      * cbv zeta in Hq3, Hall. exists (Error fn err :: outs).
        cbn [length drop Batch.not_yet_succeeded].
        split; [lia|]. split; [rewrite Hq3, <- app_assoc; reflexivity|].
        intros all Hrun. destruct (Hall all Hrun) as [-> Hl].
        rewrite <- app_assoc. split; [reflexivity | congruence].
Qed.

End QueueInvariant.

(** ** The batch runner *)

(** A failure inside the [try] of the loop body, whatever it is and with
    whatever message [e]: the queue store is left as it was, the outcome
    of the entry is the error outcome carrying [e], and the loop goes on
    to its pause and the next entry with this outcome appended. *)
Lemma a_failure_in_the_try_is_recorded
    (w : World) (cfg : Config) (api_key output_dir : string) (n i : nat)
    (prompt_data : PromptData) (prompt : string) (rest : list PromptData)
    (results : list Outcome) (st : State) (e : string) (st1 : State) :
  pd_prompt prompt_data = Some prompt ->
  Batch.attempt w cfg api_key output_dir (Batch.resolve i prompt_data) prompt
    (Batch.before_try n i prompt_data prompt st) = (Raise e, st1) ->
  let failure := Error (Batch.filename (Batch.resolve i prompt_data)) e in
  let st2 := emit (Print ("Error: " +:+ e)) st1 in
  queue st2 = queue st
  /\ Batch.process_entry w cfg api_key output_dir n i prompt_data st
     = (Ok failure, st2)
  /\ Batch.batch_loop w cfg api_key output_dir n i (prompt_data :: rest) results st
     = bind (Batch.pause cfg n i)
         (fun _ => Batch.batch_loop w cfg api_key output_dir n (S i) rest
                     (results ++ [failure])) st2.
Proof.
  intros Hp Ha failure st2.
  destruct (attempt_raise w cfg api_key output_dir _ _ _ _ _ Ha) as (Hq & _).
  destruct (before_try_frame n i prompt_data prompt st) as (_ & Hq0 & _).
  assert (Hstep : Batch.process_entry w cfg api_key output_dir n i prompt_data st
                  = (Ok failure, st2)).
  { rewrite (process_entry_run w cfg api_key output_dir n i _ _ st Hp).
    unfold try_except. rewrite Ha. reflexivity. }
  split; [subst st2; unfold emit; cbn [queue]; congruence|].
  split; [exact Hstep|].
  cbn [Batch.batch_loop]. rewrite (bind_ok _ _ _ _ _ Hstep). reflexivity.
Qed.

(** C1.  An entry without a prompt ends the loop of the batch runner:
    the [print] that slices the prompt stands before the [try], so the
    turn of such an entry raises, the loop raises with it, no outcome is
    appended for the entry and the entries after it are not attempted.  A
    run whose first entry has no prompt raises having sent no request,
    called no batch manager and written no file, the summary included. *)
Theorem a_promptless_entry_ends_the_batch_loop
    (w : World) (cfg : Config) (api_key output_dir : string) (n i : nat)
    (prompt_data : PromptData) (rest : list PromptData)
    (results : list Outcome) (st : State) :
  pd_prompt prompt_data = None ->
  let abort := "'NoneType' object is not subscriptable" in
  let st1 := emit (Print (Batch.headline n i (Batch.resolve i prompt_data))) st in
  Batch.process_entry w cfg api_key output_dir n i prompt_data st = (Raise abort, st1)
  /\ Batch.batch_loop w cfg api_key output_dir n i (prompt_data :: rest) results st
     = (Raise abort, st1)
  /\ (forall prompts_file content,
        truthy (GEMINI_API_KEY w) = true ->
        fs st !! prompts_file = Some content ->
        json_load_prompts w content = Ok (prompt_data :: rest) ->
        let run := Batch.generate_images_batch w cfg prompts_file output_dir st in
        fst run = Raise abort
        /\ fs (snd run) = fs st
        /\ queue (snd run) = queue st
        /\ posts (trace (snd run)) = posts (trace st)
        /\ manager_runs (trace (snd run)) = manager_runs (trace st)).
Proof.
  intros Hp abort st1.
  pose proof (fun n i st =>
                process_entry_promptless w cfg api_key output_dir n i prompt_data st Hp)
    as Hstep.
  split; [apply Hstep|].
  split.
  { cbn [Batch.batch_loop]. apply bind_raise. apply Hstep. }
  intros prompts_file content Hkey Hfile Hload. cbv zeta.
  assert (Hrun : Batch.generate_images_batch w cfg prompts_file output_dir st
                 = (Raise abort,
                    emit (Print (Batch.headline (S (length rest)) 1
                                   (Batch.resolve 1 prompt_data)))
                      (emit (Print ("Generating " +:+ pretty (S (length rest))
                                      +:+ " images...")) st))).
  { unfold Batch.generate_images_batch. rewrite Hkey. cbn [negb].
    unfold bind at 1. unfold Batch.load_prompts at 1. rewrite Hfile, Hload.
    cbn [is_nil]. unfold bind at 1. unfold print at 1. unfold bind at 1.
    cbn [Batch.batch_loop length]. unfold bind at 1.
    rewrite process_entry_promptless by exact Hp. reflexivity. }
  rewrite Hrun. cbn [fst snd]. unfold emit. cbn [fs queue trace].
  rewrite !posts_snoc, !manager_runs_snoc. cbn [is_post is_subprocess].
  rewrite !app_nil_r. auto.
Qed.

Lemma a_promptless_entry_ends_the_batch_loop_witness :
  let entries := [Sample.promptless; Sample.plain] in
  let w := Sample.world (Some "k") Sample.image entries in
  let st := Sample.state [("/queue.json", "{}")] entries in
  let run := Batch.generate_images_batch w Sample.cfg "/queue.json" "/out" st in
  pd_prompt Sample.promptless = None
  /\ fst run = Raise "'NoneType' object is not subscriptable"
  /\ posts (trace (snd run)) = []
  /\ fs (snd run) !! "/out/batch_results.json" = None
  /\ queue (snd run) = entries.
Proof.
  intros entries w st run. split; [reflexivity|].
  destruct (proj2 (proj2 (a_promptless_entry_ends_the_batch_loop w Sample.cfg "k"
                            "/out" 2 1 Sample.promptless [Sample.plain] [] st
                            eq_refl))
              "/queue.json" "{}" eq_refl eq_refl eq_refl)
    as (Hres & Hfs & Hq & Hposts & _).
  fold run in Hres, Hfs, Hq, Hposts.
  rewrite Hres, Hfs, Hq, Hposts. repeat split; reflexivity.
Defined.




(** ** The single-shot generator of the server *)

Section ServerCall.
Context (w : World) (cfg : Config).

Lemma tier_cases quality :
  (Server.tier quality = "pro" /\ quality <> "fast")
  \/ (Server.tier quality = "fast" /\ quality = "fast").
Proof.
  unfold Server.tier, dict_mem, MODELS; simpl.
  destruct (String.eqb_spec quality "pro") as [->|Hpro]; simpl.
  - left. split; [reflexivity | discriminate].
  - destruct (String.eqb_spec quality "fast") as [->|Hfast]; simpl.
    + right. split; reflexivity.
    + left. split; [reflexivity | assumption].
Qed.

(** The request [generate_image] sends when its references encode to
    [enc]. *)
Lemma generate_image_request prompt aspect_ratio image_size reference_image
    reference_images quality st ref_paths enc :
  truthy (GEMINI_API_KEY w) = true ->
  Server.references cfg (Server.tier quality) reference_images reference_image
  = Ok ref_paths ->
  encode_loop w ref_paths [] st = (Ok enc, st) ->
  let q := Server.tier quality in
  let size :=
    if String.eqb q "fast" && String.eqb image_size "large"
    then "small" else image_size in
  let gemini_size := default "2K" (dict_get size size_map) in
  let model := default "" (dict_get q MODELS) in
  let url := endpoint model (default "" (GEMINI_API_KEY w)) in
  let payload :=
    mkPayload (enc ++ [Text prompt]) aspect_ratio
      (if String.eqb q "pro" then Some gemini_size else None) in
  let filename :=
    images_dir cfg +:+ "/gemini_image_" +:+ strftime_now w +:+ ".png" in
  Server.generate_image w cfg prompt aspect_ratio image_size reference_image
    reference_images quality st
  = bind (request_image w url payload)
      (fun image_data =>
         bind (write_decoded w filename image_data)
           (fun _ =>
              ret (Server.mkGenerated filename gemini_size aspect_ratio q model
                     (length ref_paths)
                     ("Image generated successfully (" +:+ q +:+ " mode): "
                        +:+ filename)))) st.
Proof.
  intros Hkey Hrefs Henc.
  unfold Server.generate_image, Server._encode_reference_images, bind, lift.
  rewrite Hkey, Hrefs. cbn [negb]. cbv zeta. rewrite Henc. reflexivity.
Qed.

(** A call that fails before the request leaves the state as it is. *)
Lemma generate_image_no_key prompt aspect_ratio image_size reference_image
    reference_images quality st :
  truthy (GEMINI_API_KEY w) = false ->
  Server.generate_image w cfg prompt aspect_ratio image_size reference_image
    reference_images quality st = (Raise "GEMINI_API_KEY not set", st).
Proof. intros Hkey. unfold Server.generate_image. rewrite Hkey. reflexivity. Qed.

Lemma generate_image_bad_references prompt aspect_ratio image_size
    reference_image reference_images quality st e :
  truthy (GEMINI_API_KEY w) = true ->
  Server.references cfg (Server.tier quality) reference_images reference_image
  = Raise e ->
  Server.generate_image w cfg prompt aspect_ratio image_size reference_image
    reference_images quality st = (Raise e, st).
Proof.
  intros Hkey Hrefs. unfold Server.generate_image, bind, lift.
  rewrite Hkey, Hrefs. reflexivity.
Qed.

Lemma generate_image_bad_encoding prompt aspect_ratio image_size
    reference_image reference_images quality st ref_paths e :
  truthy (GEMINI_API_KEY w) = true ->
  Server.references cfg (Server.tier quality) reference_images reference_image
  = Ok ref_paths ->
  encode_loop w ref_paths [] st = (Raise e, st) ->
  Server.generate_image w cfg prompt aspect_ratio image_size reference_image
    reference_images quality st = (Raise e, st).
Proof.
  intros Hkey Hrefs Henc.
  unfold Server.generate_image, Server._encode_reference_images, bind, lift.
  rewrite Hkey, Hrefs. cbn [negb]. cbv zeta. rewrite Henc. reflexivity.
Qed.

(** What the rest of the call does once the request is sent. *)
Lemma after_request url payload (k : string -> Server.Generated) filename st :
  let run :=
    bind (request_image w url payload)
      (fun image_data =>
         bind (write_decoded w filename image_data)
           (fun _ => ret (k image_data))) st in
  posts (trace (snd run)) = posts (trace st) ++ [Post url payload]
  /\ queue (snd run) = queue st
  /\ (forall e, fst (request_image w url payload st) = Raise e -> fst run = Raise e)
  /\ (forall g, fst run = Ok g -> exists image_data, g = k image_data).
Proof.
  cbv zeta. unfold bind.
  pose proof (request_image_state w url payload st) as Hst.
  destruct (request_image w url payload st) as [[data|e] s1]; simpl in Hst; subst s1.
  - destruct (write_decoded_trace w filename data (emit (Post url payload) st))
      as [Ht Hq].
    destruct (write_decoded w filename data (emit (Post url payload) st))
      as [[[]|e] s2]; simpl in Ht, Hq |- *; rewrite Ht, Hq, posts_snoc; simpl.
    + repeat split; try discriminate. intros g [= <-]. exists data. reflexivity.
    + repeat split; discriminate.
  - simpl. rewrite posts_snoc. simpl. repeat split; try discriminate.
    intros e' [= <-]. reflexivity.
Qed.

End ServerCall.

(** ** Requests of the batch runner *)

Section BatchRequests.
Context (w : World) (cfg : Config) (api_key output_dir : string).

(** An attempt whose references cannot be encoded stops there. *)
Lemma attempt_before_call j prompt st e :
  encode_loop w (Batch.reference_images j) [] st = (Raise e, st) ->
  Batch.attempt w cfg api_key output_dir j prompt st = (Raise e, st).
Proof.
  intros Henc. unfold Batch.attempt, Batch.encode_reference_images, bind.
  rewrite Henc. reflexivity.
Qed.

(** The rest of an attempt, from the request on. *)
Lemma attempt_request j prompt st enc :
  encode_loop w (Batch.reference_images j) [] st = (Ok enc, st) ->
  let url := endpoint (Batch.model j) api_key in
  let payload :=
    mkPayload (enc ++ [Text prompt]) (Batch.aspect_ratio j)
      (if String.eqb (Batch.quality j) "pro" then Some (Batch.gemini_size j)
       else None) in
  let run := Batch.attempt w cfg api_key output_dir j prompt st in
  posts (trace (snd run)) = posts (trace st) ++ [Post url payload]
  /\ (forall e, fst (request_image w url payload st) = Raise e -> fst run = Raise e).
Proof.
  intros Henc. cbv zeta.
  unfold Batch.attempt, Batch.encode_reference_images, bind. rewrite Henc.
  match goal with |- context [request_image w ?u ?p st] =>
    pose proof (request_image_state w u p st) as Hst;
    destruct (request_image w u p st) as [[data|e] s1] end; simpl in Hst; subst s1.
  - match goal with |- context [write_decoded w ?p ?d ?s] =>
      destruct (write_decoded_trace w p d s) as [Ht Hq];
      destruct (write_decoded w p d s) as [[[]|e2] s2] end; simpl in Ht, Hq.
    + unfold print.
      match goal with |- context [Batch.remove_from_queue w cfg ?name ?s] =>
        destruct (remove_from_queue_frame w cfg name s) as [Hp _];
        destruct (Batch.remove_from_queue w cfg name s) as [[[]|e3] s3] end;
        unfold ret; cbn [fst snd] in Hp |- *; rewrite Hp; unfold emit; cbn [trace];
        rewrite posts_snoc, Ht, posts_snoc; cbn [is_post]; rewrite !app_nil_r;
        (split; [reflexivity | discriminate]).
    + simpl. rewrite Ht, posts_snoc. simpl. split; [reflexivity | discriminate].
  - simpl. rewrite posts_snoc. simpl. split; [reflexivity|]. intros e' [= <-]. reflexivity.
Qed.

(** What [process_entry] sends is what its attempt sends. *)
Lemma process_entry_posts n i pd prompt st :
  pd_prompt pd = Some prompt ->
  posts (trace (snd (Batch.process_entry w cfg api_key output_dir n i pd st)))
  = posts (trace (snd (Batch.attempt w cfg api_key output_dir (Batch.resolve i pd)
                         prompt (Batch.before_try n i pd prompt st)))).
Proof.
  intros Hp. rewrite (process_entry_run w cfg api_key output_dir n i pd prompt st Hp).
  unfold try_except.
  destruct (Batch.attempt _ _ _ _ _ _ _) as [[o|e] s1]; [reflexivity|].
  unfold Batch.on_error, bind, print, ret. simpl. rewrite posts_snoc. simpl.
  apply app_nil_r.
Qed.

(** The outcome of [process_entry] from the result of its attempt. *)
Lemma process_entry_outcome n i pd prompt st :
  pd_prompt pd = Some prompt ->
  fst (Batch.process_entry w cfg api_key output_dir n i pd st)
  = match fst (Batch.attempt w cfg api_key output_dir (Batch.resolve i pd) prompt
                 (Batch.before_try n i pd prompt st)) with
    | Ok o => Ok o
    | Raise e => Ok (Error (Batch.filename (Batch.resolve i pd)) e)
    end.
Proof.
  intros Hp. rewrite (process_entry_run w cfg api_key output_dir n i pd prompt st Hp).
  unfold try_except.
  destruct (Batch.attempt _ _ _ _ _ _ _) as [[o|e] s1]; reflexivity.
Qed.

(** The failures of an attempt whose references all exist: each one makes
    the [try] raise, with the message of its cause. *)
Lemma listed_failures_raise j prompt st :
  Forall (present w st) (Batch.reference_images j) ->
  let url := endpoint (Batch.model j) api_key in
  let payload :=
    Batch.payload_of j (encoded w st (Batch.reference_images j)) prompt in
  let reply := requests_post w (length (posts (trace st))) url payload in
  let output_path := path_join output_dir (Batch.filename j) in
  let failed e := fst (Batch.attempt w cfg api_key output_dir j prompt st) = Raise e in
  (forall e, reply = Raise e -> failed e)
  /\ (forall r, reply = Ok r -> status_code r <> 200 -> failed (api_error r))
  /\ (forall r e,
        reply = Ok r -> status_code r = 200 -> candidate_parts r = Raise e ->
        failed e)
  /\ (forall r data,
        reply = Ok r -> status_code r = 200 -> candidate_parts r = Ok data ->
        truthy (first_inline_data data) = false ->
        failed "No image data in API response")
  /\ (forall r data e,
        reply = Ok r -> status_code r = 200 -> candidate_parts r = Ok data ->
        truthy (first_inline_data data) = true ->
        open_wb w output_path = Some e ->
        failed e)
  /\ (forall r data e,
        reply = Ok r -> status_code r = 200 -> candidate_parts r = Ok data ->
        truthy (first_inline_data data) = true ->
        open_wb w output_path = None ->
        b64decode w (default "" (first_inline_data data)) = Raise e ->
        failed e).
Proof.
  intros Hpresent url payload reply output_path failed. subst failed.
  unfold Batch.attempt, Batch.encode_reference_images.
  rewrite (bind_ok _ _ _ _ _ (encode_loop_present w _ [] st Hpresent)).
  cbn [app]. fold (Batch.payload_of j (encoded w st (Batch.reference_images j)) prompt).
  fold url payload.
  unfold request_image, bind, post, lift, raise, ret, write_decoded.
  fold reply. fold output_path.
  repeat split.
  - intros e ->. reflexivity.
  - intros r -> Hs. destruct (Z.eqb_spec (status_code r) 200); [contradiction|].
    reflexivity.
  - intros r e -> Hs Hparts. rewrite Hs, Hparts. reflexivity.
  - intros r data -> Hs Hparts Hdata. rewrite Hs, Hparts. simpl. rewrite Hdata.
    reflexivity.
  - intros r data e -> Hs Hparts Hdata Hopen. rewrite Hs, Hparts. simpl.
    rewrite Hdata. simpl. rewrite Hopen. reflexivity.
  - intros r data e -> Hs Hparts Hdata Hopen Hdec. rewrite Hs, Hparts. simpl.
    rewrite Hdata. simpl. rewrite Hopen, Hdec. reflexivity.
Qed.

End BatchRequests.

(** ** Quality tiers *)

(** C3.  With [quality = "fast"], whatever [reference_images] and
    [reference_image] are, the one request a call with a credential sends
    has the prompt text as its only content part (and no [imageSize]), and
    a success reports zero reference images used; the same holds for a
    queue entry of the batch runner whose quality is [fast]. *)
Theorem fast_tier_sends_the_prompt_alone
    (w : World) (cfg : Config) (st : State) (prompt : string) :
  truthy (GEMINI_API_KEY w) = true ->
  (forall aspect_ratio image_size reference_image reference_images,
     let run :=
       Server.generate_image w cfg prompt aspect_ratio image_size
         reference_image reference_images "fast" st in
     posts (trace (snd run))
     = posts (trace st)
         ++ [Post (endpoint "gemini-2.5-flash-image" (default "" (GEMINI_API_KEY w)))
               (mkPayload [Text prompt] aspect_ratio None)]
     /\ forall g, fst run = Ok g -> Server.reference_images_used g = 0%nat)
  /\ (forall api_key output_dir n i prompt_data,
        pd_prompt prompt_data = Some prompt ->
        pd_quality prompt_data = Some "fast" ->
        let run := Batch.process_entry w cfg api_key output_dir n i prompt_data st in
        posts (trace (snd run))
        = posts (trace st)
            ++ [Post (endpoint "gemini-2.5-flash-image" api_key)
                  (mkPayload [Text prompt]
                     (default "1:1" (pd_aspect_ratio prompt_data)) None)]
        /\ forall f p r a used,
             fst run = Ok (Success f p r a used) -> used = 0%nat).
Proof.
  intros Hkey. split.
  - intros aspect_ratio image_size reference_image reference_images run.
    subst run.
    rewrite (generate_image_request w cfg prompt aspect_ratio image_size
               reference_image reference_images "fast" st [] [] Hkey
               eq_refl eq_refl).
    match goal with |- context [bind (request_image w ?u ?p) (fun d => bind (write_decoded w ?f d) (fun _ => ret (@?k d)))] =>
      destruct (after_request w u p k f st) as (Hposts & _ & _ & Hok) end.
    split; [exact Hposts|].
    intros g Hg. destruct (Hok g Hg) as [data ->]. reflexivity.
  - intros api_key output_dir n i pd Hp Hq run. subst run.
    destruct (before_try_frame n i pd prompt st) as (_ & _ & Hposts0 & _).
    assert (Hrefs : Batch.reference_images (Batch.resolve i pd) = []).
    { unfold Batch.resolve; simpl. rewrite Hq. reflexivity. }
    assert (Henc : encode_loop w (Batch.reference_images (Batch.resolve i pd)) []
                     (Batch.before_try n i pd prompt st)
                   = (Ok [], Batch.before_try n i pd prompt st)).
    { rewrite Hrefs. reflexivity. }
    destruct (attempt_request w cfg api_key output_dir _ prompt _ _ Henc) as [Hposts _].
    split.
    + rewrite (process_entry_posts w cfg api_key output_dir n i pd prompt st Hp).
      rewrite Hposts, Hposts0. unfold Batch.resolve; simpl. rewrite Hq. reflexivity.
    + intros f p r a used Hrun.
      rewrite (process_entry_outcome w cfg api_key output_dir n i pd prompt st Hp) in Hrun.
      destruct (Batch.attempt _ _ _ _ _ _ _) as [[o|e] s1] eqn:Ha; simpl in Hrun;
        [|discriminate].
      apply attempt_ok in Ha
        as (r0 & parts0 & data0 & bytes0 & _ & _ & _ & _ & _ & _ & _ & _ & Ho & _).
      rewrite Hrefs in Ho. simpl in Ho. congruence.
Qed.

Lemma fast_tier_sends_the_prompt_alone_witness :
  let w := Sample.world (Some "k") Sample.image [] in
  truthy (GEMINI_API_KEY w) = true
  /\ posts (trace (snd (Server.generate_image w Sample.cfg "a fox" "1:1" "large"
                          None (Server.RefList ["/a.png"; "/b.png"]) "fast"
                          (Sample.state [("/a.png", "A"); ("/b.png", "B")] []))))
     = [Post (endpoint "gemini-2.5-flash-image" "k")
          (mkPayload [Text "a fox"] "1:1" None)].
Proof.
  intros w. split; [reflexivity|].
  exact (proj1 (proj1 (fast_tier_sends_the_prompt_alone w Sample.cfg
                         (Sample.state [("/a.png", "A"); ("/b.png", "B")] [])
                         "a fox" eq_refl)
                  "1:1" "large" None (Server.RefList ["/a.png"; "/b.png"]))).
Defined.

(** ** The limit on reference images *)

Lemma references_too_many cfg quality paths reference_image :
  Server.tier quality = "pro" ->
  0 <= max_reference_images cfg ->
  Z.of_nat (length paths) > max_reference_images cfg ->
  Server.references cfg (Server.tier quality) (Server.RefList paths) reference_image
  = Raise (Server.too_many (length paths) (max_reference_images cfg)).
Proof.
  intros Htier Hmax Hlen. rewrite Htier.
  unfold Server.references, Server._normalize_reference_images,
    Server.MAX_REF_IMAGES; simpl.
  destruct paths as [|p paths]; [simpl in Hlen; lia|]. simpl is_nil. simpl negb.
  cbv iota.
  destruct (Z.gtb_spec (Z.of_nat (length (p :: paths))) (max_reference_images cfg));
    [reflexivity | lia].
Qed.

(** C4, as amended.  A call of [generate_image] or [add_to_batch] that
    resolves to the pro tier with a list of more reference images than the
    configured limit (which is not negative) fails with the error that names
    the count and the limit, and leaves the state as it was: no request is
    sent and the batch manager is not run.  ([generate_image] checks the
    credential first.) *)
Theorem too_many_references_are_refused_on_the_pro_tier
    (w : World) (cfg : Config) (quality : string) (paths : list string)
    (reference_image : option string) (st : State) :
  Server.tier quality = "pro" ->
  0 <= max_reference_images cfg ->
  Z.of_nat (length paths) > max_reference_images cfg ->
  let refused := Server.too_many (length paths) (max_reference_images cfg) in
  Server._normalize_reference_images cfg (Server.RefList paths) reference_image
  = Raise refused
  /\ (forall prompt aspect_ratio image_size,
        snd (Server.generate_image w cfg prompt aspect_ratio image_size
               reference_image (Server.RefList paths) quality st) = st
        /\ (truthy (GEMINI_API_KEY w) = true ->
            fst (Server.generate_image w cfg prompt aspect_ratio image_size
                   reference_image (Server.RefList paths) quality st)
            = Raise refused))
  /\ (forall prompt filename aspect_ratio image_size description,
        Server.add_to_batch w cfg prompt filename aspect_ratio image_size
          description reference_image (Server.RefList paths) quality st
        = (Raise refused, st)).
Proof.
  intros Htier Hmax Hlen refused.
  pose proof (references_too_many cfg quality paths reference_image Htier Hmax Hlen)
    as Hrefs.
  split.
  { rewrite Htier in Hrefs. exact Hrefs. }
  split.
  - intros prompt aspect_ratio image_size.
    destruct (truthy (GEMINI_API_KEY w)) eqn:Hkey.
    + rewrite (generate_image_bad_references w cfg prompt aspect_ratio image_size
                 reference_image (Server.RefList paths) quality st _ Hkey Hrefs).
      split; [reflexivity | intros _; reflexivity].
    + rewrite (generate_image_no_key w cfg prompt aspect_ratio image_size
                 reference_image (Server.RefList paths) quality st Hkey).
      split; [reflexivity | discriminate].
  - intros prompt filename aspect_ratio image_size description.
    unfold Server.add_to_batch, bind, lift. rewrite Hrefs. reflexivity.
Qed.

Lemma too_many_references_are_refused_on_the_pro_tier_witness :
  let w := Sample.world (Some "k") Sample.image [] in
  let st := Sample.state Sample.fifteen_files [] in
  (Server.tier "pro" = "pro"
   /\ 0 <= max_reference_images Sample.cfg
   /\ Z.of_nat (length Sample.fifteen) > max_reference_images Sample.cfg)
  /\ Server.generate_image w Sample.cfg "a crowd" "1:1" "large" None
       (Server.RefList Sample.fifteen) "pro" st
     = (Raise "Too many reference images (15). Maximum is 14.", st).
Proof.
  intros w st.
  split; [split; [reflexivity | split; [vm_compute; discriminate | reflexivity]]|].
  destruct (too_many_references_are_refused_on_the_pro_tier w Sample.cfg "pro"
              Sample.fifteen None st eq_refl ltac:(vm_compute; discriminate) eq_refl)
    as (_ & Hcall & _).
  destruct (Hcall "a crowd" "1:1" "large") as [Hst Hres].
  rewrite (surjective_pairing (Server.generate_image _ _ _ _ _ _ _ _ _)).
  rewrite Hst, (Hres eq_refl). reflexivity.
Defined.

(** C4 as stated fails twice: on the fast tier the references are dropped
    before they are counted, and the batch runner does not count them at
    all; both calls go out to the API. *)
Lemma reference_limit_is_not_checked_on_fast_or_in_the_batch :
  let w := Sample.world (Some "k") Sample.image [] in
  let st := Sample.state Sample.fifteen_files [Sample.crowded] in
  let call :=
    Server.generate_image w Sample.cfg "a crowd" "1:1" "large" None
      (Server.RefList Sample.fifteen) "fast" st in
  let turn := Batch.process_entry w Sample.cfg "k" "/out" 1 1 Sample.crowded st in
  Z.of_nat (length Sample.fifteen) > max_reference_images Sample.cfg
  /\ is_ok (fst call) = true
  /\ length (posts (trace (snd call))) = 1%nat
  /\ fst turn = Ok (Success "crowd.png" "/out/crowd.png" "2K" "1:1" 15)
  /\ length (posts (trace (snd turn))) = 1%nat.
Proof.
  vm_compute. repeat split; reflexivity.
Qed.

(** ** The status of the response *)

Section Status.
Context (w : World) (cfg : Config).

Lemma generate_image_sends prompt aspect_ratio image_size reference_image
    reference_images quality st ref_paths e s1 :
  truthy (GEMINI_API_KEY w) = true ->
  Server.references cfg (Server.tier quality) reference_images reference_image
  = Ok ref_paths ->
  Forall (present w st) ref_paths ->
  request_image w (Server.url_of w quality)
    (Server.payload_of prompt aspect_ratio image_size quality
       (encoded w st ref_paths)) st = (Raise e, s1) ->
  Server.generate_image w cfg prompt aspect_ratio image_size reference_image
    reference_images quality st = (Raise e, s1).
Proof.
  intros Hkey Hrefs Hpresent Hreq.
  rewrite (generate_image_request w cfg prompt aspect_ratio image_size
             reference_image reference_images quality st ref_paths
             (encoded w st ref_paths) Hkey Hrefs
             (encode_loop_present w ref_paths [] st Hpresent)).
  apply bind_raise. exact Hreq.
Qed.

Lemma attempt_failed_request api_key output_dir j prompt st e s1 :
  Forall (present w st) (Batch.reference_images j) ->
  request_image w (endpoint (Batch.model j) api_key)
    (Batch.payload_of j (encoded w st (Batch.reference_images j)) prompt) st
  = (Raise e, s1) ->
  Batch.attempt w cfg api_key output_dir j prompt st = (Raise e, s1).
Proof.
  intros Hpresent Hreq.
  unfold Batch.attempt, Batch.encode_reference_images.
  rewrite (bind_ok _ _ _ _ _ (encode_loop_present w _ [] st Hpresent)).
  apply bind_raise. exact Hreq.
Qed.

Lemma request_image_when_200 url payload st r :
  requests_post w (length (posts (trace st))) url payload = Ok r ->
  status_code r = 200 ->
  fst (request_image w url payload st)
  = match candidate_parts r with
    | Raise e => Raise e
    | Ok data =>
        if truthy (first_inline_data data)
        then Ok (default "" (first_inline_data data))
        else Raise "No image data in API response"
    end.
Proof.
  intros Hr Hs. unfold request_image, bind, post, lift, raise, ret.
  rewrite Hr, Hs. simpl.
  destruct (candidate_parts r) as [data|e]; simpl; [|reflexivity].
  destruct (truthy (first_inline_data data)); reflexivity.
Qed.

End Status.

(** C5, as amended.  When the API answers the request of a call with a
    status other than 200, the call fails with the message
    ["API error: <status> - <body>"], and the request stays the only one:
    [generate_image] raises that message having done nothing but the one
    POST; in the batch runner the entry gets the error outcome with that
    message, one request has been sent and the queue is as before.  A
    response with status 200 does not fail this way: what the call gives is
    then decided by the body of the response. *)
Theorem a_status_other_than_200_fails_the_call
    (w : World) (cfg : Config) (st : State) (url : string) (payload : Payload)
    (r : Response) :
  requests_post w (length (posts (trace st))) url payload = Ok r ->
  (status_code r <> 200 ->
   request_image w url payload st = (Raise (api_error r), emit (Post url payload) st)
   /\ (forall prompt aspect_ratio image_size reference_image reference_images
              quality ref_paths,
         truthy (GEMINI_API_KEY w) = true ->
         Server.references cfg (Server.tier quality) reference_images reference_image
         = Ok ref_paths ->
         Forall (present w st) ref_paths ->
         url = Server.url_of w quality ->
         payload = Server.payload_of prompt aspect_ratio image_size quality
                     (encoded w st ref_paths) ->
         Server.generate_image w cfg prompt aspect_ratio image_size
           reference_image reference_images quality st
         = (Raise (api_error r), emit (Post url payload) st))
   /\ (forall api_key output_dir n i prompt_data prompt,
         pd_prompt prompt_data = Some prompt ->
         let j := Batch.resolve i prompt_data in
         Forall (present w st) (Batch.reference_images j) ->
         url = endpoint (Batch.model j) api_key ->
         payload = Batch.payload_of j (encoded w st (Batch.reference_images j)) prompt ->
         let run := Batch.process_entry w cfg api_key output_dir n i prompt_data st in
         fst run = Ok (Error (Batch.filename j) (api_error r))
         /\ posts (trace (snd run)) = posts (trace st) ++ [Post url payload]
         /\ queue (snd run) = queue st))
  /\ (status_code r = 200 ->
      fst (request_image w url payload st)
      = match candidate_parts r with
        | Raise e => Raise e
        | Ok data =>
            if truthy (first_inline_data data)
            then Ok (default "" (first_inline_data data))
            else Raise "No image data in API response"
        end).
Proof.
  intros Hr. split.
  - intros Hs.
    pose proof (request_image_not_200 w url payload st r Hr Hs) as Hreq.
    split; [exact Hreq|]. split.
    + intros prompt aspect_ratio image_size reference_image reference_images
        quality ref_paths Hkey Hrefs Hpresent -> ->.
      apply (generate_image_sends w cfg _ _ _ _ _ _ st ref_paths _ _ Hkey Hrefs
               Hpresent Hreq).
    + intros api_key output_dir n i pd prompt Hp j Hpresent Hurl Hpayload run.
      destruct (before_try_frame n i pd prompt st) as (Hfs & Hq & Hposts & _).
      set (s0 := Batch.before_try n i pd prompt st) in *.
      assert (Hreq0 : request_image w url payload s0
                      = (Raise (api_error r), emit (Post url payload) s0)).
      { apply request_image_not_200; [rewrite Hposts; exact Hr | exact Hs]. }
      assert (Ha : Batch.attempt w cfg api_key output_dir j prompt s0
                   = (Raise (api_error r), emit (Post url payload) s0)).
      { apply attempt_failed_request.
        - eapply Forall_impl; [exact Hpresent|].
          intros p. apply present_fs. exact Hfs.
        - rewrite (encoded_fs w st s0 _ Hfs), <- Hurl, <- Hpayload. exact Hreq0. }
      subst run.
      rewrite (process_entry_run w cfg api_key output_dir n i pd prompt st Hp).
      fold s0. fold j. unfold try_except. rewrite Ha.
      unfold Batch.on_error, bind, print, ret. simpl.
      rewrite !posts_snoc. simpl. rewrite app_nil_r, Hposts, Hq. auto.
  - intros Hs. apply request_image_when_200; assumption.
Qed.

Lemma a_status_other_than_200_fails_the_call_witness :
  let w := Sample.world (Some "k") Sample.overloaded [] in
  let st := Sample.state [] [] in
  let url := Server.url_of w "pro" in
  let payload := Server.payload_of "a red circle" "1:1" "large" "pro" [] in
  (requests_post w (length (posts (trace st))) url payload = Ok Sample.overloaded
   /\ status_code Sample.overloaded <> 200)
  /\ Server.generate_image w Sample.cfg "a red circle" "1:1" "large" None
       Server.RefNone "pro" st
     = (Raise "API error: 503 - try later", emit (Post url payload) st).
Proof.
  intros w st url payload.
  split; [split; [reflexivity | vm_compute; discriminate]|].
  exact (proj1 (proj2 (proj1 (a_status_other_than_200_fails_the_call w Sample.cfg st
                                url payload Sample.overloaded eq_refl)
                         ltac:(vm_compute; discriminate)))
           "a red circle" "1:1" "large" None Server.RefNone "pro" []
           eq_refl eq_refl ltac:(constructor) eq_refl eq_refl).
Defined.

(** C5 as stated fails on a status in the 2xx range other than 200: the
    response, image and all, is turned into the same hard failure. *)
Lemma a_201_response_is_a_failure :
  let w := Sample.world (Some "k") Sample.created [] in
  let st := Sample.state [] [Sample.plain] in
  200 <= status_code Sample.created < 300
  /\ fst (Server.generate_image w Sample.cfg "a red circle" "1:1" "large" None
            Server.RefNone "pro" st)
     = Raise "API error: 201 - Created"
  /\ fst (Batch.process_entry w Sample.cfg "k" "/out" 1 1 Sample.plain st)
     = Ok (Error "circle.png" "API error: 201 - Created").
Proof.
  vm_compute. repeat split; discriminate.
Qed.

(** ** Size classes *)

Lemma generate_image_ok w cfg prompt aspect_ratio image_size reference_image
    reference_images quality st g st' :
  Server.generate_image w cfg prompt aspect_ratio image_size reference_image
    reference_images quality st = (Ok g, st') ->
  exists ref_paths,
    Server.references cfg (Server.tier quality) reference_images reference_image
    = Ok ref_paths
    /\ Server.resolution g = Server.resolution_of quality image_size
    /\ Server.g_quality g = Server.tier quality
    /\ Server.reference_images_used g = length ref_paths.
Proof.
  intros Hrun.
  destruct (truthy (GEMINI_API_KEY w)) eqn:Hkey.
  2:{ rewrite generate_image_no_key in Hrun by exact Hkey. discriminate. }
  destruct (Server.references cfg (Server.tier quality) reference_images
              reference_image) as [ref_paths|e] eqn:Hrefs.
  2:{ rewrite (generate_image_bad_references w cfg _ _ _ _ _ _ st e Hkey Hrefs) in Hrun.
      discriminate. }
  pose proof (encode_loop_state w ref_paths [] st) as Hst.
  destruct (encode_loop w ref_paths [] st) as [[enc|e] s0] eqn:Henc;
    simpl in Hst; subst s0.
  2:{ rewrite (generate_image_bad_encoding w cfg _ _ _ _ _ _ st ref_paths e Hkey
                 Hrefs Henc) in Hrun. discriminate. }
  rewrite (generate_image_request w cfg prompt aspect_ratio image_size
             reference_image reference_images quality st ref_paths enc Hkey
             Hrefs Henc) in Hrun.
  match type of Hrun with
  | bind (request_image w ?u ?p) (fun d => bind (write_decoded w ?f d) (fun _ => ret (@?k d))) st = _ =>
      destruct (after_request w u p k f st) as (_ & _ & _ & Hok)
  end.
  rewrite Hrun in Hok. destruct (Hok g eq_refl) as [data ->].
  exists ref_paths. repeat split; reflexivity.
Qed.

(** C6, as amended.  [generate_image] reports the resolution
    [resolution_of quality image_size]: with [quality = "fast"] and
    [image_size = "large"] the size is first replaced by ["small"], which
    gives ["1K"], and [add_to_batch] hands ["small"] to the batch manager
    for such a request; on the pro tier the size is never replaced and is
    looked up in the fixed table (small 1K, medium 2K, large 2K, xlarge 4K,
    anything else 2K), in [generate_image] and in the batch runner alike. *)
Theorem fast_large_becomes_small_and_pro_uses_the_table :
  (forall w cfg prompt aspect_ratio image_size reference_image reference_images
          quality st g st',
     Server.generate_image w cfg prompt aspect_ratio image_size reference_image
       reference_images quality st = (Ok g, st') ->
     Server.resolution g = Server.resolution_of quality image_size)
  /\ Server.resolution_of "fast" "large"
     = default "2K" (dict_get "small" size_map)
  /\ Server.resolution_of "fast" "large" = "1K"
  /\ (forall w cfg prompt filename aspect_ratio description reference_image
             reference_images st,
        manager_runs
          (trace (snd (Server.add_to_batch w cfg prompt filename aspect_ratio
                         "large" description reference_image reference_images
                         "fast" st)))
        = manager_runs (trace st)
            ++ [Subprocess
                  ["python3"; batch_manager_script cfg; "add"; prompt;
                   (if truthy filename then default "" filename else "");
                   Server.or_else aspect_ratio "16:9"; "small"; "[]"; "fast"]])
  /\ (forall quality image_size,
        Server.tier quality = "pro" ->
        Server.resolution_of quality image_size
        = default "2K" (dict_get image_size size_map))
  /\ (forall i prompt_data,
        Batch.quality (Batch.resolve i prompt_data) = "pro" ->
        Batch.gemini_size (Batch.resolve i prompt_data)
        = default "2K" (dict_get (default "large" (pd_image_size prompt_data)) size_map))
  /\ (dict_get "small" size_map = Some "1K"
      /\ dict_get "medium" size_map = Some "2K"
      /\ dict_get "large" size_map = Some "2K"
      /\ dict_get "xlarge" size_map = Some "4K").
Proof.
  split.
  { intros w cfg prompt aspect_ratio image_size reference_image reference_images
      quality st g st' Hrun.
    apply generate_image_ok in Hrun as (ref_paths & _ & Hres & _). exact Hres. }
  split; [reflexivity|]. split; [reflexivity|].
  split.
  { intros w cfg prompt filename aspect_ratio description reference_image
      reference_images st.
    unfold Server.add_to_batch, bind, lift, subprocess_run. simpl.
    destruct (spawn w _); [|unfold settle; cbv zeta; destruct (rewritten _)];
      cbn [snd]; unfold emit, set_fs, set_queue; cbn [trace];
      rewrite manager_runs_snoc; reflexivity. }
  split.
  { intros quality image_size Htier. unfold Server.resolution_of.
    rewrite Htier. reflexivity. }
  split; [|repeat split; reflexivity].
  intros i prompt_data _. reflexivity.
Qed.

Lemma fast_large_becomes_small_and_pro_uses_the_table_witness :
  let w := Sample.world (Some "k") Sample.image [] in
  Server.resolution_of "pro" "xlarge" = "4K"
  /\ forall g st',
       Server.generate_image w Sample.cfg "a fox" "1:1" "large" None
         Server.RefNone "fast" (Sample.state [] []) = (Ok g, st') ->
       Server.resolution g = "1K".
Proof.
  intros w.
  destruct fast_large_becomes_small_and_pro_uses_the_table
    as (Hcall & _ & Hfast & _ & Hpro & _).
  split.
  - rewrite (Hpro "pro" "xlarge" eq_refl). reflexivity.
  - intros g st' Hrun. rewrite (Hcall _ _ _ _ _ _ _ _ _ _ _ Hrun). exact Hfast.
Defined.

(** C6 as stated fails in the batch runner, which looks the size of a
    fast-tier entry up as it is: ["large"], given or left to default,
    resolves to ["2K"], and that is the resolution the outcome reports. *)
Lemma batch_runner_resolves_fast_large_to_2K :
  let w := Sample.world (Some "k") Sample.image [] in
  let st := Sample.state [] [Sample.quick] in
  Batch.quality (Batch.resolve 1 Sample.quick) = "fast"
  /\ Batch.image_size (Batch.resolve 1 Sample.quick) = "large"
  /\ Batch.gemini_size (Batch.resolve 1 Sample.quick) = "2K"
  /\ Batch.gemini_size (Batch.resolve 1 Sample.quick_large) = "2K"
  /\ fst (Batch.process_entry w Sample.cfg "k" "/out" 1 1 Sample.quick st)
     = Ok (Success "fox.png" "/out/fox.png" "2K" "1:1" 0)
  /\ Batch.gemini_size (Batch.resolve 1 Sample.quick) <> "1K".
Proof.
  vm_compute. repeat split; discriminate.
Qed.

(** ** Missing reference images *)

(** C7, as amended.  When the references a call works with (the ones of a
    pro-tier request) contain a path that does not exist after
    [expanduser], the encoder raises ["Reference image not found: <path>"]
    for the first such path, with the expanded path in the message.
    [generate_image], with a credential, fails with that message and leaves
    the state as it was, so no request has been sent; in the batch runner
    the entry gets the error outcome with that message, no request is sent
    and the queue is as before. *)
Theorem missing_reference_fails_before_any_request
    (w : World) (cfg : Config) (st : State) (pre : list string) (p : string)
    (post : list string) :
  Forall (present w st) pre ->
  fs st !! expanduser w p = None ->
  let paths := pre ++ p :: post in
  let missing := "Reference image not found: " +:+ expanduser w p in
  Server._encode_reference_images w paths st = (Raise missing, st)
  /\ Batch.encode_reference_images w paths st = (Raise missing, st)
  /\ (forall prompt aspect_ratio image_size reference_image reference_images quality,
        truthy (GEMINI_API_KEY w) = true ->
        Server.references cfg (Server.tier quality) reference_images reference_image
        = Ok paths ->
        Server.generate_image w cfg prompt aspect_ratio image_size reference_image
          reference_images quality st = (Raise missing, st))
  /\ (forall api_key output_dir n i prompt_data prompt,
        pd_prompt prompt_data = Some prompt ->
        Batch.reference_images (Batch.resolve i prompt_data) = paths ->
        let run := Batch.process_entry w cfg api_key output_dir n i prompt_data st in
        fst run = Ok (Error (Batch.filename (Batch.resolve i prompt_data)) missing)
        /\ posts (trace (snd run)) = posts (trace st)
        /\ queue (snd run) = queue st).
Proof.
  intros Hpre Hp paths missing.
  pose proof (encode_loop_missing w pre p post [] st Hpre Hp) as Henc.
  split; [exact Henc|]. split; [exact Henc|]. split.
  - intros prompt aspect_ratio image_size reference_image reference_images quality
      Hkey Hrefs.
    apply (generate_image_bad_encoding w cfg _ _ _ _ _ _ st paths _ Hkey Hrefs Henc).
  - intros api_key output_dir n i pd prompt Hprompt Hrefs run.
    destruct (before_try_frame n i pd prompt st) as (Hfs & Hq & Hposts & _).
    set (s0 := Batch.before_try n i pd prompt st) in *.
    assert (Henc0 : encode_loop w (Batch.reference_images (Batch.resolve i pd)) [] s0
                    = (Raise missing, s0)).
    { rewrite Hrefs. apply encode_loop_missing.
      - eapply Forall_impl; [exact Hpre|]. intros q. apply present_fs. exact Hfs.
      - rewrite Hfs. exact Hp. }
    pose proof (attempt_before_call w cfg api_key output_dir _ prompt s0 _ Henc0) as Ha.
    subst run.
    rewrite (process_entry_run w cfg api_key output_dir n i pd prompt st Hprompt).
    fold s0. unfold try_except. rewrite Ha.
    unfold Batch.on_error, bind, print, ret. simpl.
    rewrite posts_snoc. simpl. rewrite app_nil_r. auto.
Qed.

Lemma missing_reference_fails_before_any_request_witness :
  let w := Sample.world (Some "k") Sample.image [] in
  let st := Sample.state [("/a.png", "A")] [] in
  (Forall (present w st) ["/a.png"] /\ fs st !! expanduser w "/missing.png" = None)
  /\ Server.generate_image w Sample.cfg "a cat" "1:1" "large" None
       (Server.RefList ["/a.png"; "/missing.png"; "/b.png"]) "pro" st
     = (Raise "Reference image not found: /missing.png", st).
Proof.
  intros w st.
  assert (Ha : Forall (present w st) ["/a.png"]).
  { repeat constructor. vm_compute. eexists. reflexivity. }
  split; [split; [exact Ha | reflexivity]|].
  exact (proj1 (proj2 (proj2 (missing_reference_fails_before_any_request w Sample.cfg
                                st ["/a.png"] "/missing.png" ["/b.png"] Ha eq_refl)))
           "a cat" "1:1" "large" None
           (Server.RefList ["/a.png"; "/missing.png"; "/b.png"]) "pro"
           eq_refl eq_refl).
Defined.

(** C7 as stated fails on the fast tier: the references of the request are
    dropped without a look at the disk, the request goes out, and the call
    succeeds although the path it names does not exist. *)
Lemma fast_tier_ignores_a_missing_reference :
  let w := Sample.world (Some "k") Sample.image [] in
  let st := Sample.state [] [Sample.quick_broken] in
  let call :=
    Server.generate_image w Sample.cfg "a fox" "1:1" "large" None
      (Server.RefList ["/missing.png"]) "fast" st in
  let turn := Batch.process_entry w Sample.cfg "k" "/out" 1 1 Sample.quick_broken st in
  fs st !! expanduser w "/missing.png" = None
  /\ is_ok (fst call) = true
  /\ length (posts (trace (snd call))) = 1%nat
  /\ fst turn = Ok (Success "fox.png" "/out/fox.png" "2K" "1:1" 0)
  /\ length (posts (trace (snd turn))) = 1%nat.
Proof.
  vm_compute. repeat split; reflexivity.
Qed.

(** ** The outcomes of a run *)

Section Outcomes.
Context (w : World) (cfg : Config) (api_key output_dir : string).

Local Abbreviation turn := (Observe.turn w cfg api_key output_dir).
Local Abbreviation outcomes := (Observe.outcomes w cfg api_key output_dir).

(** The encoder stops at the first path that does not exist. *)
Lemma encode_loop_told paths : forall parts st,
  encode_loop w paths parts st
  = match Observe.first_missing w (fs st) paths with
    | Some p => (Raise (not_found w p), st)
    | None => (Ok (parts ++ Observe.parts_of w (fs st) paths), st)
    end.
Proof.
  induction paths as [|p paths IH]; intros parts st; simpl.
  - rewrite app_nil_r. reflexivity.
  - destruct (fs st !! expanduser w p) as [content|] eqn:Hp; [|reflexivity].
    rewrite IH. destruct (Observe.first_missing w (fs st) paths); [reflexivity|].
    rewrite <- app_assoc. reflexivity.
Qed.

Lemma ledger_emit_print line st :
  Observe.ledger (emit (Print line) st) = Observe.ledger st.
Proof.
  unfold Observe.ledger, emit. cbn [fs queue trace]. rewrite posts_snoc.
  cbn [is_post]. rewrite app_nil_r. reflexivity.
Qed.

Lemma ledger_before_try n i pd prompt st :
  Observe.ledger (Batch.before_try n i pd prompt st) = Observe.ledger st.
Proof.
  destruct (before_try_frame n i pd prompt st) as (Hfs & Hq & Hposts & _).
  unfold Observe.ledger. rewrite Hfs, Hq, Hposts. reflexivity.
Qed.

Ltac told :=
  cbn [fst snd]; eexists; split; [reflexivity|];
  unfold emit, set_fs, set_queue; cbn [fs queue trace];
  repeat rewrite ?posts_snoc, ?length_app; cbn [is_post length];
  rewrite ?app_nil_r; try reflexivity; f_equal; lia.

(** The [try] of the loop body and its [except], from the ledger of the
    state they start in. *)
Lemma attempt_told i pd prompt st :
  pd_prompt pd = Some prompt ->
  let j := Batch.resolve i pd in
  exists st',
    try_except (Batch.attempt w cfg api_key output_dir j prompt)
      (Batch.on_error j) st
    = (Ok (fst (turn i pd (Observe.ledger st))), st')
    /\ Observe.ledger st' = snd (turn i pd (Observe.ledger st)).
Proof.
  intros Hp j.
  unfold Observe.turn, Observe.ledger.
  cbn [Observe.files Observe.entries Observe.sent].
  rewrite Hp. cbn [default from_option id]. fold j.
  unfold try_except, Batch.attempt, Batch.encode_reference_images, Batch.on_error,
    Batch.remove_from_queue, Batch.payload_of, Batch.remove_cmd.
  unfold bind at 1. rewrite encode_loop_told.
  destruct (Observe.first_missing w (fs st) (Batch.reference_images j)) as [p|].
  { unfold bind, print, ret. told. }
  cbn [app].
  unfold request_image, post, write_decoded, subprocess_run, settle, bind, lift,
    raise, ret, print.
  destruct (requests_post w _ _ _) as [r|e]; [|told].
  destruct (negb (Z.eqb (status_code r) 200)); [told|].
  destruct (candidate_parts r) as [parts|e]; [|told].
  destruct (negb (truthy (first_inline_data parts))); [told|].
  destruct (open_wb w _) as [e|]; [told|].
  destruct (b64decode w _) as [bytes|e]; [|told].
  destruct (spawn w _) as [e|]; [told|].
  unfold emit, set_fs, set_queue. cbn [queue]. cbv zeta.
  destruct (rewritten _); destruct (Z.eqb _ 0); told.
Qed.

(** One turn of the loop over an entry that has a prompt. *)
Lemma process_entry_told n i pd st :
  Batch.has_prompt pd ->
  exists st',
    Batch.process_entry w cfg api_key output_dir n i pd st
    = (Ok (fst (turn i pd (Observe.ledger st))), st')
    /\ Observe.ledger st' = snd (turn i pd (Observe.ledger st)).
Proof.
  intros [prompt Hp].
  rewrite (process_entry_run w cfg api_key output_dir n i pd prompt st Hp).
  destruct (attempt_told i pd prompt (Batch.before_try n i pd prompt st) Hp)
    as (st' & Hrun & Hled).
  rewrite ledger_before_try in Hrun, Hled.
  exists st'. split; assumption.
Qed.

(** The loop over entries that have a prompt, with a delay that is not
    negative: the outcomes it appends are the ones told. *)
Lemma batch_loop_told n prompts : forall i results st,
  0 <= api_delay_seconds cfg ->
  Forall Batch.has_prompt prompts ->
  exists st',
    Batch.batch_loop w cfg api_key output_dir n i prompts results st
    = (Ok (results ++ fst (outcomes i prompts (Observe.ledger st))), st')
    /\ Observe.ledger st' = snd (outcomes i prompts (Observe.ledger st)).
Proof.
  induction prompts as [|pd prompts IH]; intros i results st Hdelay Hall.
  - exists st. simpl. rewrite app_nil_r. split; reflexivity.
  - inversion Hall as [|? ? Hpd Hrest]; subst.
    destruct (process_entry_told n i pd st Hpd) as (s1 & Hstep & Hled1).
    destruct (pause_run cfg n i s1 Hdelay) as (s2 & Hpause & Hfs & Hq & Hposts & _).
    assert (Hled2 : Observe.ledger s2 = snd (turn i pd (Observe.ledger st))).
    { rewrite <- Hled1. unfold Observe.ledger. rewrite Hfs, Hq, Hposts. reflexivity. }
    destruct (IH (S i) (results ++ [fst (turn i pd (Observe.ledger st))]) s2
                Hdelay Hrest) as (s3 & Hloop & Hled3).
    exists s3. cbn [Batch.batch_loop Observe.outcomes]. cbv zeta. cbn [fst snd].
    rewrite (bind_ok _ _ _ _ _ Hstep), (bind_ok _ _ _ _ _ Hpause), Hloop.
    rewrite Hled2 in *. rewrite <- app_assoc. split; [reflexivity | exact Hled3].
Qed.

End Outcomes.

(** ** The summary of a run *)

Lemma outcomes_split (results : list Outcome) :
  (length (List.filter Batch.is_success results)
   + length (List.filter Batch.is_error results))%nat = length results.
Proof.
  induction results as [|r results IH]; [reflexivity|].
  destruct r; simpl; lia.
Qed.

(** C8.  A run that gets to its loop (a credential is set and the prompts
    file holds at least one entry), over entries that have a prompt and
    with a delay that is not negative, ends the loop with one outcome per
    entry, in the order of the entries, and these are the outcomes told
    from the environment: for each entry in its turn the error of the first
    step that fails (a missing reference image, the request, a status other
    than 200, a response without image data, the output file, the decoding,
    the start of the batch manager) or else the success.  When the summary
    file can be opened it then holds the dump of exactly this list, under
    [batch_results.json] in the output directory, the other files and the
    queue store being as the entries left them, and the last lines printed
    give the number of entries, of successes and of failures, the last two
    adding up to the first. *)
Theorem the_run_writes_its_summary_and_counts
    (w : World) (cfg : Config) (prompts_file output_dir : string) (st : State)
    (content : string) (prompts : list PromptData) :
  truthy (GEMINI_API_KEY w) = true ->
  fs st !! prompts_file = Some content ->
  json_load_prompts w content = Ok prompts ->
  prompts <> [] ->
  Forall Batch.has_prompt prompts ->
  0 <= api_delay_seconds cfg ->
  open_wb w (path_join output_dir "batch_results.json") = None ->
  let told :=
    Observe.outcomes w cfg (default "" (GEMINI_API_KEY w)) output_dir 1 prompts
      (Observe.ledger st) in
  let results := fst told in
  exists st' earlier,
    let results_file := path_join output_dir "batch_results.json" in
    let succeeded := length (List.filter Batch.is_success results) in
    let failed := length (List.filter Batch.is_error results) in
    Batch.generate_images_batch w cfg prompts_file output_dir st
    = (Ok (Batch.Finished results), st')
    /\ List.map Batch.outcome_filename results
       = imap (fun k pd => Batch.filename (Batch.resolve (1 + k) pd)) prompts
    /\ fs st' !! results_file = Some (json_dump_results w results)
    /\ fs st'
       = <[results_file := json_dump_results w results]> (Observe.files (snd told))
    /\ queue st' = Observe.entries (snd told)
    /\ trace st'
       = earlier
           ++ [Print (newline +:+ Batch.rule);
               Print "Batch complete!";
               Print ("Total: " +:+ pretty (length prompts) +:+ " images");
               Print ("Success: " +:+ pretty succeeded);
               Print ("Failed: " +:+ pretty failed);
               Print ("Results saved to: " +:+ results_file);
               Print Batch.rule]
    /\ (succeeded + failed)%nat = length prompts.
Proof.
  intros Hkey Hfile Hload Hne Hprompts Hdelay Hopen told results.
  set (s1 := emit (Print ("Generating " +:+ pretty (length prompts) +:+ " images...")) st).
  destruct (batch_loop_told w cfg (default "" (GEMINI_API_KEY w)) output_dir
              (length prompts) prompts 1 [] s1 Hdelay Hprompts)
    as (s2 & Hloop & Hled).
  subst s1. rewrite ledger_emit_print in Hloop, Hled. fold told in Hloop, Hled.
  fold results in Hloop. cbn [app] in Hloop.
  destruct (batch_loop_total w cfg (default "" (GEMINI_API_KEY w)) output_dir
              (length prompts) prompts 1 []
              (emit (Print ("Generating " +:+ pretty (length prompts) +:+ " images..."))
                 st) Hdelay Hprompts)
    as (results' & s2' & Hloop' & Hnames).
  rewrite Hloop in Hloop'. injection Hloop' as <- <-.
  set (results_file := path_join output_dir "batch_results.json") in *.
  set (s3 := set_fs (insert results_file (json_dump_results w results)) s2).
  eexists. exists (trace s2). cbv zeta.
  split.
  { unfold Batch.generate_images_batch. rewrite Hkey. cbn [negb].
    unfold bind at 1. unfold Batch.load_prompts at 1. rewrite Hfile, Hload.
    destruct prompts as [|pd prompts]; [contradiction|]. cbn [is_nil].
    unfold bind at 1. unfold print at 1. unfold bind at 1.
    rewrite Hloop. unfold bind at 1. unfold Batch.dump_results at 1.
    fold results_file. rewrite Hopen. fold s3.
    unfold bind, print, ret. reflexivity. }
  split; [exact Hnames|].
  split.
  { simpl. apply lookup_insert_eq. }
  split.
  { unfold emit, s3, set_fs. cbn [fs]. rewrite <- Hled. reflexivity. }
  split.
  { unfold emit, s3, set_fs. cbn [queue]. rewrite <- Hled. reflexivity. }
  split.
  { simpl. rewrite <- !app_assoc. reflexivity. }
  rewrite outcomes_split, <- (length_map Batch.outcome_filename), Hnames, length_imap.
  reflexivity.
Qed.

Lemma the_run_writes_its_summary_and_counts_witness :
  let entries := [Sample.broken; Sample.plain] in
  let w := Sample.world (Some "k") Sample.image entries in
  let st := Sample.state [("/queue.json", "{}")] entries in
  let results :=
    [Error "cat.png" "Reference image not found: /missing.png";
     Success "circle.png" "/out/circle.png" "2K" "1:1" 0] in
  (truthy (GEMINI_API_KEY w) = true
   /\ fs st !! "/queue.json" = Some "{}"
   /\ json_load_prompts w "{}" = Ok entries
   /\ 0 <= api_delay_seconds Sample.cfg
   /\ open_wb w (path_join "/out" "batch_results.json") = None)
  /\ exists st',
       Batch.generate_images_batch w Sample.cfg "/queue.json" "/out" st
       = (Ok (Batch.Finished results), st')
       /\ fs st' !! "/out/batch_results.json" = Some (json_dump_results w results)
       /\ queue st' = [Sample.broken].
Proof.
  intros entries w st results.
  split; [repeat split; try reflexivity; discriminate|].
  destruct (the_run_writes_its_summary_and_counts w Sample.cfg "/queue.json" "/out"
              st "{}" entries eq_refl eq_refl eq_refl
              ltac:(discriminate)
              ltac:(repeat constructor; eexists; reflexivity)
              ltac:(discriminate) eq_refl)
    as (st' & earlier & Hrun & _ & Hfile & _ & Hq & _).
  exists st'. split; [exact Hrun|]. split; [exact Hfile | exact Hq].
Defined.

(** ** The dispatcher *)

Section Dispatcher.
Context (h : Server.Host).

(** An operation that is not routed gets the error response that names
    it. *)
Lemma unknown_tool_error_response n request_id tool_name arguments c :
  Server.route tool_name = None ->
  Server.handle_tool_call h n request_id tool_name arguments c
  = Server.send_message
      (Server.error_response request_id
         ("Unknown tool: " +:+ Server.str h tool_name)) c.
Proof.
  intros Hroute. unfold Server.handle_tool_call, Server.invoke.
  rewrite Hroute. reflexivity.
Qed.

(** The names [handle_tool_call] routes are the names of the catalog. *)
Lemma route_catalog name :
  Server.route (JStr name) = None <-> ~ In name Server.catalog.
Proof.
  unfold Server.route, Server.catalog, eq_str. split.
  - intros Hroute Hin. simpl in Hin.
    repeat (destruct Hin as [<-|Hin]; [discriminate Hroute|]). exact Hin.
  - intros Hnot.
    repeat match goal with
    | |- context [String.eqb name ?s] =>
        destruct (String.eqb_spec name s) as [->|_];
        [exfalso; apply Hnot; simpl; tauto|]
    end.
    reflexivity.
Qed.

(** Whatever an operation does, [handle_tool_call] writes one response. *)
Lemma handle_tool_call_responds n request_id tool_name arguments c :
  exists response,
    Server.handle_tool_call h n request_id tool_name arguments c
    = Server.send_message response c.
Proof. unfold Server.handle_tool_call. eexists. reflexivity. Qed.

(** A line that is not the JSON value [null] never ends the loop: the
    loop reads on, whether serving the line raised or not. *)
Lemma main_loop_step n line rest c :
  line <> Server.Parsed JNull ->
  exists c', Server.main_loop h n (line :: rest) c = Server.main_loop h (S n) rest c'.
Proof.
  intros Hline. cbn [Server.main_loop Server.read_message].
  destruct line as [err|v].
  - eexists. reflexivity.
  - destruct v; try contradiction;
      match goal with |- context [Server.serve h n ?m c] =>
        destruct (Server.serve h n m c) end; eexists; reflexivity.
Qed.

(** Without such a line the loop reads its input to the end. *)
Lemma main_loop_reads_to_the_end stdin : forall n c,
  Forall (fun line => line <> Server.Parsed JNull) stdin ->
  snd (Server.main_loop h n stdin c) = [].
Proof.
  induction stdin as [|line rest IH]; intros n c Hall; [reflexivity|].
  inversion Hall as [|? ? Hline Hrest]; subst.
  destruct (main_loop_step n line rest c Hline) as [c' ->].
  apply IH. exact Hrest.
Qed.

End Dispatcher.

(** C9.  A line of input that holds the JSON value [null] ends the read
    loop of the dispatcher although the input is not closed: the request
    after it, an invocation of an operation that is not in the catalog, is
    left unread and gets no response, while the same request on its own
    gets the error response with the code -32000 and the message that
    names the operation. *)
Theorem a_null_line_ends_the_read_loop (h : Server.Host) :
  Server.main h [Server.Parsed JNull; Server.Parsed Sample.call_paint]
  = (Server.mkConsole [] [Server.banner], [Server.Parsed Sample.call_paint])
  /\ Server.main h [Server.Parsed Sample.call_paint]
     = (Server.mkConsole
          [Server.error_response (JInt 7) "Unknown tool: paint"]
          [Server.banner], []).
Proof.
  split; reflexivity.
Qed.

(** C10.  A message that is an object whose method is none of the four
    the loop tests for (or that has no method) changes neither standard
    output nor standard error, and the loop goes on with the next line; a
    message that is no object and not [null] is reported on standard error
    only, and the loop goes on as well. *)
Theorem an_unrecognized_method_gets_no_response
    (h : Server.Host) (n : nat) (message : JSON) (rest : list Server.Line)
    (c : Server.Console) :
  message <> JNull ->
  match message with
  | JObj members => Server.recognized (default JNull (assoc "method" members)) = false
  | _ => True
  end ->
  exists c',
    Server.main_loop h n (Server.Parsed message :: rest) c
    = Server.main_loop h (S n) rest c'
    /\ Server.stdout c' = Server.stdout c
    /\ match message with
       | JObj _ => c' = c
       | _ => exists e, c' = Server.report e c
       end.
Proof.
  intros Hnull Hmethod.
  destruct message as [|b|z|lit|s|items|members]; try contradiction;
    try (eexists; split; [reflexivity|]; split; [reflexivity|];
         eexists; reflexivity).
  exists c. split; [|split; reflexivity].
  cbn [Server.main_loop Server.read_message].
  unfold Server.serve. cbn [get and_then].
  unfold Server.recognized in Hmethod.
  apply orb_false_elim in Hmethod as [Hmethod H4].
  apply orb_false_elim in Hmethod as [Hmethod H3].
  apply orb_false_elim in Hmethod as [H1 H2].
  rewrite H1, H2, H3, H4. reflexivity.
Qed.

Lemma an_unrecognized_method_gets_no_response_witness :
  let h := Sample.host (Ok JNull) in
  let c := Server.mkConsole [] [Server.banner] in
  (Sample.ping <> JNull
   /\ Server.recognized (JStr "ping") = false)
  /\ Server.main_loop h 0 [Server.Parsed Sample.ping; Server.Parsed Sample.call_paint] c
     = Server.main_loop h 1 [Server.Parsed Sample.call_paint] c.
Proof.
  intros h c. split; [split; [discriminate | reflexivity]|].
  destruct (an_unrecognized_method_gets_no_response h 0 Sample.ping
              [Server.Parsed Sample.call_paint] c ltac:(discriminate) eq_refl)
    as (c' & Hloop & _ & ->).
  exact Hloop.
Defined.


(** * Further properties of the two scripts *)

(** ** Strings and paths *)

Lemma length_append (s t : string) :
  String.length (s +:+ t) = (String.length s + String.length t)%nat.
Proof. induction s as [|c s IH]; simpl; [reflexivity | rewrite IH; reflexivity]. Qed.

Lemma substring_all (t : string) : String.substring 0 (String.length t) t = t.
Proof. induction t as [|c t IH]; simpl; [reflexivity | rewrite IH; reflexivity]. Qed.

Lemma substring_suffix (s t : string) :
  String.substring (String.length s) (String.length t) (s +:+ t) = t.
Proof. induction s as [|c s IH]; simpl; [apply substring_all | exact IH]. Qed.

Lemma append_assoc (s t u : string) : (s +:+ t) +:+ u = s +:+ (t +:+ u).
Proof.
  induction s as [|c s IH]; [reflexivity|].
  change (String c ((s +:+ t) +:+ u) = String c (s +:+ (t +:+ u))).
  rewrite IH. reflexivity.
Qed.

Lemma endswith_append (s t : string) : endswith (s +:+ t) t = true.
Proof.
  unfold endswith. rewrite length_append.
  replace (String.length s + String.length t - String.length t)%nat
    with (String.length s) by lia.
  rewrite substring_suffix, String.eqb_refl, andb_true_r.
  apply Nat.leb_le. lia.
Qed.

(** X1.  The filename an entry is written under always ends in [.png]:
    it is the stored name when that ends in [.png] already and the stored
    name with [.png] added otherwise, the stored name being
    [image_<i>.png] for an entry without one; the name the entry is removed
    under is the stored name in both cases. *)
Theorem effective_filename_ends_in_png (i : nat) (prompt_data : PromptData) :
  let j := Batch.resolve i prompt_data in
  let stored := default ("image_" +:+ pretty i +:+ ".png") (pd_filename prompt_data) in
  endswith (Batch.filename j) ".png" = true
  /\ Batch.queue_filename j = stored
  /\ Batch.filename j = (if endswith stored ".png" then stored else stored +:+ ".png")
  /\ (pd_filename prompt_data = None -> Batch.filename j = stored).
Proof.
  cbv zeta. unfold Batch.resolve. cbn [Batch.filename Batch.queue_filename].
  set (stored := default _ (pd_filename prompt_data)).
  destruct (endswith stored ".png") eqn:Hends; cbn [negb].
  - repeat split; auto.
  - split; [apply endswith_append|]. repeat split.
    intros Hnone. exfalso. subst stored. rewrite Hnone in Hends.
    unfold default in Hends. cbn [from_option id] in Hends.
    rewrite <- append_assoc, endswith_append in Hends. discriminate.
Qed.

Lemma effective_filename_ends_in_png_witness :
  pd_filename Sample.quick_unnamed = None
  /\ Batch.filename (Batch.resolve 3 Sample.quick_unnamed) = "image_3.png"
  /\ Batch.filename (Batch.resolve 1 Sample.broken) = "cat.png"
  /\ Batch.queue_filename (Batch.resolve 1 Sample.broken) = "cat".
Proof.
  split; [reflexivity|].
  split.
  - rewrite (proj2 (proj2 (proj2 (effective_filename_ends_in_png 3 Sample.quick_unnamed)))
               eq_refl).
    reflexivity.
  - split; reflexivity.
Defined.

(** ** What a run of the batch does, entry by entry *)

Section RunEffects.
Context (w : World) (cfg : Config) (api_key output_dir : string).

Lemma sleeps_snoc t e :
  Observe.sleeps (t ++ [e])
  = Observe.sleeps t ++ (if Observe.is_sleep e then [e] else []).
Proof.
  unfold Observe.sleeps. rewrite List.filter_app; simpl.
  destruct (Observe.is_sleep e); reflexivity.
Qed.

Lemma write_decoded_frame path data st p :
  p <> path ->
  fs (snd (write_decoded w path data st)) !! p = fs st !! p.
Proof.
  intros Hp. unfold write_decoded.
  destruct (open_wb w path); [reflexivity|].
  destruct (b64decode w data); simpl; apply lookup_insert_ne; congruence.
Qed.

Lemma remove_from_queue_sleeps name st :
  Observe.sleeps (trace (snd (Batch.remove_from_queue w cfg name st)))
  = Observe.sleeps (trace st).
Proof.
  destruct (spawn w (Batch.remove_cmd cfg name)) as [err|] eqn:Hspawn.
  - rewrite (remove_from_queue_stuck w cfg _ _ _ Hspawn). cbn [snd].
    unfold emit. cbn [trace]. rewrite sleeps_snoc. cbn [Observe.is_sleep].
    apply app_nil_r.
  - destruct (remove_from_queue_run w cfg name st Hspawn) as [line ->]. cbn [snd].
    unfold settle, emit, set_fs, set_queue. cbv zeta.
    destruct (rewritten _); cbn [trace]; rewrite !sleeps_snoc;
      cbn [Observe.is_sleep]; rewrite !app_nil_r; reflexivity.
Qed.

(** However an attempt ends: no pause, at most one request, and no file
    touched but its own and the queue file of the batch manager. *)
Lemma attempt_frame j prompt st :
  let run := Batch.attempt w cfg api_key output_dir j prompt st in
  Observe.sleeps (trace (snd run)) = Observe.sleeps (trace st)
  /\ (length (posts (trace (snd run))) <= length (posts (trace st)) + 1)%nat
  /\ (forall p, p <> path_join output_dir (Batch.filename j) ->
                p <> manager_queue_file w ->
                fs (snd run) !! p = fs st !! p).
Proof.
  cbv zeta. unfold Batch.attempt, Batch.encode_reference_images, bind.
  pose proof (encode_loop_state w (Batch.reference_images j) [] st) as Hst.
  destruct (encode_loop w (Batch.reference_images j) [] st) as [[enc|e0] s0];
    simpl in Hst; subst s0.
  2:{ cbn [snd]. repeat split; auto. lia. }
  match goal with |- context [request_image w ?u ?p st] =>
    pose proof (request_image_state w u p st) as Hrq;
    destruct (request_image w u p st) as [[data|e1] s1] end;
    simpl in Hrq; subst s1.
  2:{ cbn [snd]. unfold emit. cbn [trace fs]. rewrite sleeps_snoc, posts_snoc.
      cbn [Observe.is_sleep is_post]. rewrite app_nil_r, length_app. cbn [length].
      repeat split; auto. }
  match goal with |- context [write_decoded w ?p ?d ?s] =>
    destruct (write_decoded_trace w p d s) as [Ht Hq];
    pose proof (fun q => write_decoded_frame p d s q) as Hfs;
    destruct (write_decoded w p d s) as [[[]|e2] s2] end; cbn [snd] in Ht, Hq, Hfs;
    unfold emit in Ht, Hfs; cbn [trace fs] in Ht, Hfs.
  2:{ cbn [snd]. rewrite Ht, sleeps_snoc, posts_snoc.
      cbn [Observe.is_sleep is_post]. rewrite app_nil_r, length_app. cbn [length].
      repeat split; auto. }
  unfold print.
  match goal with |- context [Batch.remove_from_queue w cfg ?name ?s] =>
    destruct (remove_from_queue_frame w cfg name s) as [Hp3 Hf3];
    pose proof (remove_from_queue_sleeps name s) as Hs3;
    destruct (Batch.remove_from_queue w cfg name s) as [[[]|e3] s3] end;
    unfold ret; cbn [snd] in Hp3, Hf3, Hs3 |- *;
    unfold emit in Hp3, Hf3, Hs3; cbn [trace fs] in Hp3, Hf3, Hs3;
    rewrite sleeps_snoc in Hs3; rewrite posts_snoc in Hp3;
    cbn [Observe.is_sleep is_post] in Hs3, Hp3; rewrite app_nil_r in Hs3, Hp3;
    rewrite Hs3, Hp3, Ht, sleeps_snoc, posts_snoc;
    cbn [Observe.is_sleep is_post]; rewrite app_nil_r, length_app; cbn [length];
    (split; [reflexivity|]); (split; [lia|]);
    intros p Hp Hm; rewrite (Hf3 p Hm); apply Hfs; exact Hp.
Qed.

Lemma before_try_sleeps n i pd prompt st :
  Observe.sleeps (trace (Batch.before_try n i pd prompt st))
  = Observe.sleeps (trace st).
Proof.
  unfold Batch.before_try, Batch.announce, bind, print, ret.
  destruct (is_nil _); simpl; repeat rewrite sleeps_snoc; simpl;
    rewrite ?app_nil_r; reflexivity.
Qed.

(** One turn of the loop, however it ends. *)
Lemma process_entry_frame n i pd st :
  let run := Batch.process_entry w cfg api_key output_dir n i pd st in
  Observe.sleeps (trace (snd run)) = Observe.sleeps (trace st)
  /\ (length (posts (trace (snd run))) <= length (posts (trace st)) + 1)%nat
  /\ (forall p, p <> path_join output_dir (Batch.filename (Batch.resolve i pd)) ->
                p <> manager_queue_file w ->
                fs (snd run) !! p = fs st !! p).
Proof.
  cbv zeta. destruct (pd_prompt pd) as [prompt|] eqn:Hp.
  2:{ rewrite (process_entry_promptless w cfg api_key output_dir n i pd st Hp).
      cbn [snd]. unfold emit. cbn [trace fs]. rewrite sleeps_snoc, posts_snoc.
      cbn [Observe.is_sleep is_post]. rewrite !app_nil_r. repeat split; auto. lia. }
  rewrite (process_entry_run w cfg api_key output_dir n i pd prompt st Hp).
  destruct (before_try_frame n i pd prompt st) as (Hfs0 & _ & Hposts0 & _).
  pose proof (before_try_sleeps n i pd prompt st) as Hs0.
  destruct (attempt_frame (Batch.resolve i pd) prompt
              (Batch.before_try n i pd prompt st)) as (Hs & Hposts & Hfs).
  unfold try_except.
  destruct (Batch.attempt _ _ _ _ _ _ _) as [[o|e] s1];
    cbn [fst snd] in Hs, Hposts, Hfs; rewrite Hposts0 in Hposts.
  - cbn [snd]. rewrite Hs, Hs0. repeat split; auto.
    intros p Hne Hm. rewrite (Hfs p Hne Hm), Hfs0. reflexivity.
  - unfold Batch.on_error, bind, print, ret. cbn [snd]. unfold emit.
    cbn [trace fs]. rewrite sleeps_snoc, posts_snoc.
    cbn [Observe.is_sleep is_post]. rewrite !app_nil_r, Hs, Hs0.
    repeat split; auto.
    intros p Hne Hm. rewrite (Hfs p Hne Hm), Hfs0. reflexivity.
Qed.

(** One turn of the loop over an entry with a prompt: when the batch
    manager can be started it is run exactly for a success. *)
Lemma process_entry_effects n i pd st :
  Batch.has_prompt pd ->
  exists o st',
    Batch.process_entry w cfg api_key output_dir n i pd st = (Ok o, st')
    /\ (spawn w (Batch.remove_cmd cfg (Batch.queue_filename (Batch.resolve i pd)))
        = None ->
        manager_runs (trace st')
        = manager_runs (trace st)
            ++ (if Batch.is_success o
                then [Subprocess (Batch.remove_cmd cfg
                                    (Batch.queue_filename (Batch.resolve i pd)))]
                else [])).
Proof.
  intros [prompt Hp].
  rewrite (process_entry_run w cfg api_key output_dir n i pd prompt st Hp).
  destruct (before_try_frame n i pd prompt st) as (_ & _ & _ & Hm0).
  unfold try_except.
  destruct (Batch.attempt _ _ _ _ _ _ _) as [[o|e] s1] eqn:Ha.
  - exists o, s1. split; [reflexivity|]. intros _.
    apply attempt_ok in Ha
      as (r & parts & data & bytes & _ & _ & _ & _ & _ & _ & _ & _ & -> & _ & _ & _ & Hm).
    rewrite Hm, Hm0. reflexivity.
  - eexists _, _. unfold Batch.on_error, bind, print, ret. split; [reflexivity|].
    intros Hspawn. apply attempt_raise in Ha as (_ & Hm & _).
    unfold emit. cbn [trace Batch.is_success]. rewrite manager_runs_snoc.
    cbn [is_subprocess]. rewrite !app_nil_r, (Hm Hspawn), Hm0. reflexivity.
Qed.

Lemma pause_sleeps n i st :
  0 <= api_delay_seconds cfg ->
  Observe.sleeps (trace (snd (Batch.pause cfg n i st)))
  = Observe.sleeps (trace st)
      ++ (if (i <? n)%nat then [Sleep (api_delay_seconds cfg)] else []).
Proof.
  intros Hdelay. unfold Batch.pause, bind, print, sleep, ret.
  destruct (i <? n)%nat; [|cbn [snd]; rewrite app_nil_r; reflexivity].
  destruct (Z.ltb_spec (api_delay_seconds cfg) 0); [lia|].
  cbn [snd]. unfold emit. cbn [trace]. rewrite !sleeps_snoc.
  cbn [Observe.is_sleep]. rewrite app_nil_r. reflexivity.
Qed.

(** The loop, however it ends: at most one request per entry, and no
    file touched but the images of the entries and the queue file of the
    batch manager. *)
Lemma batch_loop_frame n prompts : forall i results st,
  let run := Batch.batch_loop w cfg api_key output_dir n i prompts results st in
  (length (posts (trace (snd run))) <= length (posts (trace st)) + length prompts)%nat
  /\ (forall p, ~ In p (Observe.output_paths output_dir i prompts) ->
                p <> manager_queue_file w ->
                fs (snd run) !! p = fs st !! p).
Proof.
  induction prompts as [|pd prompts IH]; intros i results st; cbv zeta.
  - cbn [Batch.batch_loop ret snd length]. split; [lia | auto].
  - cbn [Batch.batch_loop length]. unfold bind.
    destruct (process_entry_frame n i pd st) as (_ & Hp1 & Hf1).
    assert (Hout : forall p, ~ In p (Observe.output_paths output_dir i (pd :: prompts)) ->
              p <> path_join output_dir (Batch.filename (Batch.resolve i pd))
              /\ ~ In p (Observe.output_paths output_dir (S i) prompts)).
    { intros p Hnot. unfold Observe.output_paths in Hnot |- *. cbn [imap] in Hnot.
      split.
      - intros ->. apply Hnot. left. rewrite Nat.add_0_r. reflexivity.
      - intros Hin. apply Hnot. right.
        erewrite imap_ext; [exact Hin|]. intros k x _. simpl.
        rewrite Nat.add_succ_r. reflexivity. }
    destruct (Batch.process_entry w cfg api_key output_dir n i pd st)
      as [[o|e] s1]; cbn [snd] in Hp1, Hf1.
    2:{ cbn [snd]. split; [lia|]. intros p Hnot Hm.
        apply Hf1; [apply Hout; exact Hnot | exact Hm]. }
    destruct (pause_frame cfg n i s1) as (Hf2 & _ & Hp2 & _).
    destruct (Batch.pause cfg n i s1) as [[[]|e] s2]; cbn [snd] in Hf2, Hp2.
    2:{ cbn [snd]. rewrite Hp2. split; [lia|]. intros p Hnot Hm.
        rewrite Hf2. apply Hf1; [apply Hout; exact Hnot | exact Hm]. }
    destruct (IH (S i) (results ++ [o]) s2) as (Hp3 & Hf3).
    split; [rewrite Hp2 in Hp3; lia|].
    intros p Hnot Hm. destruct (Hout p Hnot) as [Hne Hrest].
    rewrite (Hf3 p Hrest Hm), Hf2. apply Hf1; assumption.
Qed.

(** The loop over entries that have a prompt, with a delay that is not
    negative: it pauses after every entry but the [n]-th, and when the
    batch manager can be started it is run exactly for the successes. *)
Lemma batch_loop_effects n prompts : forall i results st,
  0 <= api_delay_seconds cfg ->
  Forall Batch.has_prompt prompts ->
  exists outs st',
    Batch.batch_loop w cfg api_key output_dir n i prompts results st
    = (Ok (results ++ outs), st')
    /\ length outs = length prompts
    /\ Observe.sleeps (trace st')
       = Observe.sleeps (trace st)
           ++ replicate (Nat.min (length prompts) (n - i))
                (Sleep (api_delay_seconds cfg))
    /\ ((forall cmd, spawn w cmd = None) ->
        manager_runs (trace st')
        = manager_runs (trace st)
            ++ List.map (fun name => Subprocess (Batch.remove_cmd cfg name))
                 (Observe.succeeded_names i prompts outs)).
Proof.
  induction prompts as [|pd prompts IH]; intros i results st Hdelay Hall.
  - exists [], st. simpl. rewrite !app_nil_r. repeat split; auto.
  - inversion Hall as [|? ? Hpd Hrest]; subst.
    destruct (process_entry_effects n i pd st Hpd) as (o & s1 & Ho & Hm1).
    destruct (process_entry_frame n i pd st) as (Hs1 & _).
    rewrite Ho in Hs1. cbn [snd] in Hs1.
    destruct (pause_run cfg n i s1 Hdelay) as (s2 & Hpause & _ & _ & _ & Hm2).
    pose proof (pause_sleeps n i s1 Hdelay) as Hs2. rewrite Hpause in Hs2.
    cbn [snd] in Hs2.
    destruct (IH (S i) (results ++ [o]) s2 Hdelay Hrest)
      as (outs & s3 & Hloop & Hlen & Hs3 & Hm3).
    exists (o :: outs), s3.
    split.
    { cbn [Batch.batch_loop]. rewrite (bind_ok _ _ _ _ _ Ho).
      rewrite (bind_ok _ _ _ _ _ Hpause). rewrite Hloop, <- app_assoc. reflexivity. }
    split; [simpl; congruence|].
    split.
    { rewrite Hs3, Hs2, Hs1, <- app_assoc. f_equal.
      destruct (Nat.ltb_spec i n) as [Hlt|Hge].
      - replace (n - i)%nat with (S (n - S i)) by lia. reflexivity.
      - replace (n - i)%nat with 0%nat by lia.
        replace (n - S i)%nat with 0%nat by lia.
        rewrite !Nat.min_0_r. reflexivity. }
    intros Hspawn. rewrite (Hm3 Hspawn), Hm2, (Hm1 (Hspawn _)), <- app_assoc.
    f_equal. destruct o; reflexivity.
Qed.

(** The loop over a list in two parts is the loop over the first part
    followed by the loop over the second. *)
Lemma batch_loop_app n pre : forall rest i results st,
  Batch.batch_loop w cfg api_key output_dir n i (pre ++ rest) results st
  = bind (Batch.batch_loop w cfg api_key output_dir n i pre results)
      (fun results' =>
         Batch.batch_loop w cfg api_key output_dir n (i + length pre) rest results')
      st.
Proof.
  induction pre as [|pd pre IH]; intros rest i results st.
  - simpl. rewrite Nat.add_0_r. reflexivity.
  - cbn [app Batch.batch_loop length]. unfold bind at 1 3 4.
    destruct (Batch.process_entry w cfg api_key output_dir n i pd st) as [[o|e] s1];
      [|reflexivity].
    unfold bind at 1 2.
    destruct (Batch.pause cfg n i s1) as [[[]|e] s2]; [|reflexivity].
    rewrite IH. replace (S i + length pre)%nat with (i + S (length pre))%nat by lia.
    reflexivity.
Qed.

End RunEffects.

(** ** A whole run *)

(** A run that gets to its loop and can write its summary, with a delay
    that is not negative: the state it ends in, from the state [s2] in
    which the loop ends. *)
Lemma finished_run w cfg prompts_file output_dir st content prompts :
  truthy (GEMINI_API_KEY w) = true ->
  fs st !! prompts_file = Some content ->
  json_load_prompts w content = Ok prompts ->
  prompts <> [] ->
  Forall Batch.has_prompt prompts ->
  0 <= api_delay_seconds cfg ->
  open_wb w (path_join output_dir "batch_results.json") = None ->
  let s1 := emit (Print ("Generating " +:+ pretty (length prompts) +:+ " images...")) st in
  exists results s2 st',
    Batch.batch_loop w cfg (default "" (GEMINI_API_KEY w)) output_dir
      (length prompts) 1 prompts [] s1 = (Ok results, s2)
    /\ Batch.generate_images_batch w cfg prompts_file output_dir st
       = (Ok (Batch.Finished results), st')
    /\ fs st' = <[path_join output_dir "batch_results.json" :=
                    json_dump_results w results]> (fs s2)
    /\ queue st' = queue s2
    /\ posts (trace st') = posts (trace s2)
    /\ manager_runs (trace st') = manager_runs (trace s2)
    /\ Observe.sleeps (trace st') = Observe.sleeps (trace s2).
Proof.
  intros Hkey Hfile Hload Hne Hprompts Hdelay Hopen s1.
  destruct (batch_loop_total w cfg (default "" (GEMINI_API_KEY w)) output_dir
              (length prompts) prompts 1 [] s1 Hdelay Hprompts)
    as (results & s2 & Hloop & _).
  simpl in Hloop.
  exists results, s2. eexists. split; [exact Hloop|].
  split.
  { unfold Batch.generate_images_batch. rewrite Hkey. cbn [negb].
    unfold bind at 1. unfold Batch.load_prompts at 1. rewrite Hfile, Hload.
    destruct prompts as [|pd prompts]; [contradiction|]. cbn [is_nil].
    unfold bind at 1. unfold print at 1. fold s1. unfold bind at 1.
    rewrite Hloop. unfold bind at 1. unfold Batch.dump_results at 1.
    rewrite Hopen. unfold bind, print, ret. reflexivity. }
  unfold emit, set_fs. cbn [fs queue trace].
  repeat rewrite ?posts_snoc, ?manager_runs_snoc, ?sleeps_snoc.
  cbn [is_post is_subprocess Observe.is_sleep]. rewrite !app_nil_r.
  repeat split; reflexivity.
Qed.

(** A run, however it ends: at most one request per entry of the prompts
    file, and no file touched but the images of the entries, the summary
    and the queue file of the batch manager. *)
Lemma run_frame w cfg prompts_file output_dir st content prompts :
  fs st !! prompts_file = Some content ->
  json_load_prompts w content = Ok prompts ->
  let run := Batch.generate_images_batch w cfg prompts_file output_dir st in
  (length (posts (trace (snd run))) <= length (posts (trace st)) + length prompts)%nat
  /\ (forall p, ~ In p (Observe.output_paths output_dir 1 prompts) ->
                p <> path_join output_dir "batch_results.json" ->
                p <> manager_queue_file w ->
                fs (snd run) !! p = fs st !! p).
Proof.
  intros Hfile Hload. cbv zeta.
  destruct (Batch.generate_images_batch w cfg prompts_file output_dir st)
    as [res st'] eqn:Hrun. cbn [snd].
  unfold Batch.generate_images_batch in Hrun.
  destruct (truthy (GEMINI_API_KEY w)); cbn [negb] in Hrun.
  2:{ unfold bind, print, ret in Hrun. injection Hrun as _ <-.
      unfold emit. cbn [trace fs]. rewrite posts_snoc. cbn [is_post].
      rewrite app_nil_r. split; [lia | intros; reflexivity]. }
  unfold bind at 1 in Hrun. unfold Batch.load_prompts at 1 in Hrun.
  rewrite Hfile, Hload in Hrun.
  destruct (is_nil prompts).
  { unfold bind, print, ret in Hrun. injection Hrun as _ <-.
    unfold emit. cbn [trace fs]. rewrite posts_snoc. cbn [is_post].
    rewrite app_nil_r. split; [lia | intros; reflexivity]. }
  unfold bind at 1 in Hrun. unfold print at 1 in Hrun.
  destruct (batch_loop_frame w cfg (default "" (GEMINI_API_KEY w)) output_dir
              (length prompts) prompts 1 []
              (emit (Print ("Generating " +:+ pretty (length prompts) +:+ " images..."))
                 st)) as (Hp & Hf).
  unfold emit at 2 in Hp. unfold emit at 2 in Hf. cbn [trace fs] in Hp, Hf.
  rewrite posts_snoc in Hp. cbn [is_post] in Hp. rewrite app_nil_r in Hp.
  unfold bind at 1 in Hrun.
  destruct (Batch.batch_loop _ _ _ _ _ _ _ _ _) as [[results|e] s2];
    cbn [snd] in Hp, Hf.
  2:{ injection Hrun as _ <-. split; [exact Hp|].
      intros p Hout _ Hm. apply Hf; assumption. }
  unfold Batch.dump_results, bind, print, ret in Hrun.
  destruct (open_wb w _); injection Hrun as _ <-;
    unfold emit, set_fs; cbn [trace fs];
    repeat rewrite posts_snoc; cbn [is_post]; rewrite ?app_nil_r;
    (split; [exact Hp|]); intros p Hout Hsum Hm;
    rewrite ?lookup_insert_ne by congruence; apply Hf; assumption.
Qed.

(** X2.  A run over [n] entries, with a delay that is not negative,
    pauses [n - 1] times, each time for the configured delay: after every
    entry but the last. *)
Theorem a_run_pauses_between_entries_only
    (w : World) (cfg : Config) (prompts_file output_dir : string) (st : State)
    (content : string) (prompts : list PromptData) :
  truthy (GEMINI_API_KEY w) = true ->
  fs st !! prompts_file = Some content ->
  json_load_prompts w content = Ok prompts ->
  prompts <> [] ->
  Forall Batch.has_prompt prompts ->
  0 <= api_delay_seconds cfg ->
  open_wb w (path_join output_dir "batch_results.json") = None ->
  Observe.sleeps
    (trace (snd (Batch.generate_images_batch w cfg prompts_file output_dir st)))
  = Observe.sleeps (trace st)
      ++ replicate (length prompts - 1) (Sleep (api_delay_seconds cfg)).
Proof.
  intros Hkey Hfile Hload Hne Hprompts Hdelay Hopen.
  destruct (finished_run w cfg prompts_file output_dir st content prompts
              Hkey Hfile Hload Hne Hprompts Hdelay Hopen)
    as (results & s2 & st' & Hloop & Hrun & _ & _ & _ & _ & Hs).
  rewrite Hrun. cbn [snd]. rewrite Hs.
  destruct (batch_loop_effects w cfg (default "" (GEMINI_API_KEY w)) output_dir
              (length prompts) prompts 1 []
              (emit (Print ("Generating " +:+ pretty (length prompts) +:+ " images...")) st)
              Hdelay Hprompts)
    as (outs & s2' & Hloop' & _ & Hs2 & _).
  rewrite Hloop in Hloop'. injection Hloop' as _ <-.
  rewrite Hs2. unfold emit. cbn [trace]. rewrite sleeps_snoc. cbn [Observe.is_sleep].
  rewrite app_nil_r. replace (Nat.min (length prompts) (length prompts - 1))
    with (length prompts - 1)%nat by lia.
  reflexivity.
Qed.

(** X3.  A run sends at most one request per entry: nothing is retried
    within a run. *)
Theorem a_run_sends_at_most_one_request_per_entry
    (w : World) (cfg : Config) (prompts_file output_dir : string) (st : State)
    (content : string) (prompts : list PromptData) :
  truthy (GEMINI_API_KEY w) = true ->
  fs st !! prompts_file = Some content ->
  json_load_prompts w content = Ok prompts ->
  prompts <> [] ->
  Forall Batch.has_prompt prompts ->
  open_wb w (path_join output_dir "batch_results.json") = None ->
  (length (posts (trace (snd (Batch.generate_images_batch w cfg prompts_file
                                output_dir st))))
   <= length (posts (trace st)) + length prompts)%nat.
Proof.
  intros _ Hfile Hload _ _ _.
  apply (run_frame w cfg prompts_file output_dir st content prompts Hfile Hload).
Qed.

(** X4.  A run with a delay that is not negative, in an environment in
    which the batch manager can be started, calls the batch manager once
    for each entry that succeeded, in the order of the entries, with
    [remove] and the name the entry is stored under, and not at all for an
    entry that failed. *)
Theorem a_run_removes_exactly_the_succeeded_entries
    (w : World) (cfg : Config) (prompts_file output_dir : string) (st : State)
    (content : string) (prompts : list PromptData) :
  truthy (GEMINI_API_KEY w) = true ->
  fs st !! prompts_file = Some content ->
  json_load_prompts w content = Ok prompts ->
  prompts <> [] ->
  Forall Batch.has_prompt prompts ->
  0 <= api_delay_seconds cfg ->
  (forall cmd, spawn w cmd = None) ->
  open_wb w (path_join output_dir "batch_results.json") = None ->
  exists results st',
    Batch.generate_images_batch w cfg prompts_file output_dir st
    = (Ok (Batch.Finished results), st')
    /\ manager_runs (trace st')
       = manager_runs (trace st)
           ++ List.map
                (fun name =>
                   Subprocess ["python3"; batch_manager_script cfg; "remove"; name])
                (Observe.succeeded_names 1 prompts results).
Proof.
  intros Hkey Hfile Hload Hne Hprompts Hdelay Hspawn Hopen.
  destruct (finished_run w cfg prompts_file output_dir st content prompts
              Hkey Hfile Hload Hne Hprompts Hdelay Hopen)
    as (results & s2 & st' & Hloop & Hrun & _ & _ & _ & Hm & _).
  exists results, st'. split; [exact Hrun|]. rewrite Hm.
  destruct (batch_loop_effects w cfg (default "" (GEMINI_API_KEY w)) output_dir
              (length prompts) prompts 1 []
              (emit (Print ("Generating " +:+ pretty (length prompts) +:+ " images...")) st)
              Hdelay Hprompts)
    as (outs & s2' & Hloop' & _ & _ & Hm2).
  rewrite Hloop in Hloop'. injection Hloop' as <- <-.
  rewrite (Hm2 Hspawn). unfold emit. cbn [trace]. rewrite manager_runs_snoc.
  cbn [is_subprocess]. rewrite app_nil_r. reflexivity.
Qed.

(** X5.  However a run ends, the only files it creates or changes are
    the images of the entries of the prompts file, each at its output
    path, the summary, and the queue file of the batch manager, which the
    manager rewrites as entries are removed: every other path holds after
    the run what it held before (the reference images among them). *)
Theorem a_run_writes_only_its_images_and_its_summary
    (w : World) (cfg : Config) (prompts_file output_dir : string) (st : State)
    (content : string) (prompts : list PromptData) (p : string) :
  fs st !! prompts_file = Some content ->
  json_load_prompts w content = Ok prompts ->
  ~ In p (Observe.output_paths output_dir 1 prompts) ->
  p <> path_join output_dir "batch_results.json" ->
  p <> manager_queue_file w ->
  fs (snd (Batch.generate_images_batch w cfg prompts_file output_dir st)) !! p
  = fs st !! p.
Proof.
  intros Hfile Hload Hout Hsummary Hmanager.
  apply (run_frame w cfg prompts_file output_dir st content prompts Hfile Hload);
    assumption.
Qed.

Lemma a_run_pauses_between_entries_only_witness :
  let entries := [Sample.broken; Sample.plain; Sample.quick] in
  let w := Sample.world (Some "k") Sample.image entries in
  let st := Sample.state [("/queue.json", "{}")] entries in
  (truthy (GEMINI_API_KEY w) = true
   /\ fs st !! "/queue.json" = Some "{}"
   /\ json_load_prompts w "{}" = Ok entries
   /\ 0 <= api_delay_seconds Sample.cfg
   /\ open_wb w (path_join "/out" "batch_results.json") = None)
  /\ Observe.sleeps
       (trace (snd (Batch.generate_images_batch w Sample.cfg "/queue.json" "/out" st)))
     = [Sleep 3; Sleep 3].
Proof.
  intros entries w st. split; [repeat split; try reflexivity; discriminate|].
  exact (a_run_pauses_between_entries_only w Sample.cfg "/queue.json" "/out" st "{}"
           entries eq_refl eq_refl eq_refl ltac:(discriminate)
           ltac:(repeat constructor; eexists; reflexivity) ltac:(discriminate)
           eq_refl).
Defined.

Lemma a_run_sends_at_most_one_request_per_entry_witness :
  let entries := [Sample.broken; Sample.plain; Sample.quick] in
  let w := Sample.world (Some "k") Sample.image entries in
  let st := Sample.state [("/queue.json", "{}")] entries in
  (truthy (GEMINI_API_KEY w) = true
   /\ fs st !! "/queue.json" = Some "{}"
   /\ json_load_prompts w "{}" = Ok entries
   /\ open_wb w (path_join "/out" "batch_results.json") = None)
  /\ (length (posts (trace (snd (Batch.generate_images_batch w Sample.cfg
                                   "/queue.json" "/out" st))))
      <= 0 + 3)%nat.
Proof.
  intros entries w st. split; [repeat split; reflexivity|].
  exact (a_run_sends_at_most_one_request_per_entry w Sample.cfg "/queue.json" "/out"
           st "{}" entries eq_refl eq_refl eq_refl ltac:(discriminate)
           ltac:(repeat constructor; eexists; reflexivity) eq_refl).
Defined.

Lemma a_run_removes_exactly_the_succeeded_entries_witness :
  let entries := [Sample.broken; Sample.plain; Sample.quick] in
  let w := Sample.world (Some "k") Sample.image entries in
  let st := Sample.state [("/queue.json", "{}")] entries in
  (truthy (GEMINI_API_KEY w) = true
   /\ fs st !! "/queue.json" = Some "{}"
   /\ json_load_prompts w "{}" = Ok entries
   /\ 0 <= api_delay_seconds Sample.cfg
   /\ (forall cmd, spawn w cmd = None)
   /\ open_wb w (path_join "/out" "batch_results.json") = None)
  /\ exists results st',
       Batch.generate_images_batch w Sample.cfg "/queue.json" "/out" st
       = (Ok (Batch.Finished results), st')
       /\ manager_runs (trace st')
          = manager_runs (trace st)
              ++ List.map
                   (fun name =>
                      Subprocess ["python3"; batch_manager_script Sample.cfg;
                                  "remove"; name])
                   (Observe.succeeded_names 1 entries results).
Proof.
  intros entries w st. split; [repeat split; try reflexivity; discriminate|].
  exact (a_run_removes_exactly_the_succeeded_entries w Sample.cfg "/queue.json"
           "/out" st "{}" entries eq_refl eq_refl eq_refl ltac:(discriminate)
           ltac:(repeat constructor; eexists; reflexivity) ltac:(discriminate)
           (fun _ => eq_refl) eq_refl).
Defined.

Lemma a_run_writes_only_its_images_and_its_summary_witness :
  let entries := [Sample.plain; Sample.quick] in
  let w := Sample.world (Some "k") Sample.image entries in
  let st :=
    Sample.state [("/img/batch_queue.json", "[circle.png,fox.png]");
                  ("/refs/a.png", "A")] entries in
  let run :=
    Batch.generate_images_batch w Sample.cfg "/img/batch_queue.json" "/out" st in
  (fs st !! "/img/batch_queue.json" = Some "[circle.png,fox.png]"
   /\ json_load_prompts w "[circle.png,fox.png]" = Ok entries
   /\ ~ In "/refs/a.png" (Observe.output_paths "/out" 1 entries)
   /\ "/refs/a.png" <> path_join "/out" "batch_results.json"
   /\ "/refs/a.png" <> manager_queue_file w)
  /\ fs (snd run) !! "/refs/a.png" = Some "A"
  /\ fs (snd run) !! "/img/batch_queue.json" = Some "[]".
Proof.
  intros entries w st run.
  assert (Hout : ~ In "/refs/a.png" (Observe.output_paths "/out" 1 entries)).
  { vm_compute. intros [H|[H|[]]]; discriminate H. }
  split; [repeat split; try reflexivity; [exact Hout | discriminate | discriminate]|].
  split; [|vm_compute; reflexivity].
  subst run.
  rewrite (a_run_writes_only_its_images_and_its_summary w Sample.cfg
             "/img/batch_queue.json" "/out" st "[circle.png,fox.png]" entries
             "/refs/a.png" eq_refl eq_refl Hout ltac:(discriminate)
             ltac:(discriminate)).
  reflexivity.
Defined.



(** X7.  A run that has nothing to do does nothing else: without a
    credential it prints one line and returns, the prompts file unread;
    with an empty list of prompts it prints one line and returns; when
    the prompts file does not exist or cannot be decoded the call raises.
    In all these cases no request is sent, the batch manager is not run and
    no file, the summary included, is written. *)
Theorem a_run_with_nothing_to_do_has_no_effect
    (w : World) (cfg : Config) (prompts_file output_dir : string) (st : State) :
  (truthy (GEMINI_API_KEY w) = false ->
   Batch.generate_images_batch w cfg prompts_file output_dir st
   = (Ok Batch.NoApiKey,
      emit (Print "Error: GEMINI_API_KEY environment variable not set") st))
  /\ (truthy (GEMINI_API_KEY w) = true ->
      forall content,
        fs st !! prompts_file = Some content ->
        json_load_prompts w content = Ok [] ->
        Batch.generate_images_batch w cfg prompts_file output_dir st
        = (Ok Batch.NoPrompts, emit (Print "No prompts found in file") st))
  /\ (truthy (GEMINI_API_KEY w) = true ->
      (fs st !! prompts_file = None
       \/ exists content e,
            fs st !! prompts_file = Some content
            /\ json_load_prompts w content = Raise e) ->
      exists e,
        Batch.generate_images_batch w cfg prompts_file output_dir st = (Raise e, st)).
Proof.
  unfold Batch.generate_images_batch. split; [|split].
  - intros Hkey. rewrite Hkey. reflexivity.
  - intros Hkey content Hfile Hload. rewrite Hkey. cbn [negb].
    unfold bind at 1. unfold Batch.load_prompts. rewrite Hfile, Hload. reflexivity.
  - intros Hkey Hbad. rewrite Hkey. cbn [negb]. unfold bind at 1.
    unfold Batch.load_prompts.
    destruct Hbad as [Hfile|(content & e & Hfile & Hload)]; rewrite Hfile.
    + eexists. reflexivity.
    + rewrite Hload. eexists. reflexivity.
Qed.

Lemma a_run_with_nothing_to_do_has_no_effect_witness :
  let w := Sample.world None Sample.image [Sample.plain] in
  let st := Sample.state [("/queue.json", "{}")] [Sample.plain] in
  truthy (GEMINI_API_KEY w) = false
  /\ Batch.generate_images_batch w Sample.cfg "/queue.json" "/out" st
     = (Ok Batch.NoApiKey,
        emit (Print "Error: GEMINI_API_KEY environment variable not set") st).
Proof.
  intros w st. split; [reflexivity|].
  exact (proj1 (a_run_with_nothing_to_do_has_no_effect w Sample.cfg "/queue.json"
                  "/out" st) eq_refl).
Defined.

(** ** The reference images of a request *)

Lemma encoded_lookup w st paths : forall k p,
  paths !! k = Some p ->
  encoded w st paths !! k
  = Some (InlineData (get_mime_type w (expanduser w p))
            (b64encode w (default "" (fs st !! expanduser w p)))).
Proof.
  induction paths as [|q paths IH]; intros k p Hk; [discriminate|].
  destruct k as [|k]; simpl in Hk |- *.
  - injection Hk as ->. reflexivity.
  - apply IH. exact Hk.
Qed.

(** X8.  When every path exists, both encoders return one inline part per
    path, in the order of the paths: the part at position [k] carries the
    mime type of the [k]-th expanded path and the base64 text of the file
    found there.  The files, the queue and the trace are left as they
    were. *)
Theorem the_encoders_keep_the_order_of_the_paths
    (w : World) (st : State) (paths : list string) :
  Forall (present w st) paths ->
  exists enc,
    Server._encode_reference_images w paths st = (Ok enc, st)
    /\ Batch.encode_reference_images w paths st = (Ok enc, st)
    /\ length enc = length paths
    /\ forall k p,
         paths !! k = Some p ->
         exists content,
           fs st !! expanduser w p = Some content
           /\ enc !! k
              = Some (InlineData (get_mime_type w (expanduser w p))
                        (b64encode w content)).
Proof.
  intros Hpresent. exists (encoded w st paths).
  pose proof (encode_loop_present w paths [] st Hpresent) as Henc. simpl in Henc.
  split; [exact Henc|]. split; [exact Henc|].
  split; [unfold encoded; apply length_map|].
  intros k p Hk.
  assert (Hp : present w st p).
  { rewrite Forall_forall in Hpresent. apply Hpresent.
    eapply list_elem_of_lookup_2. exact Hk. }
  destruct Hp as [content Hcontent]. exists content. split; [exact Hcontent|].
  rewrite (encoded_lookup w st paths k p Hk), Hcontent. reflexivity.
Qed.

Lemma the_encoders_keep_the_order_of_the_paths_witness :
  let w := Sample.world (Some "k") Sample.image [] in
  let st := Sample.state [("/a.png", "A"); ("/b.png", "B")] [] in
  Forall (present w st) ["/b.png"; "/a.png"]
  /\ Batch.encode_reference_images w ["/b.png"; "/a.png"] st
     = (Ok [InlineData "image/png" "B"; InlineData "image/png" "A"], st).
Proof.
  intros w st.
  assert (Hp : Forall (present w st) ["/b.png"; "/a.png"]).
  { repeat constructor; vm_compute; eexists; reflexivity. }
  split; [exact Hp|].
  destruct (the_encoders_keep_the_order_of_the_paths w st ["/b.png"; "/a.png"] Hp)
    as (enc & _ & Henc & _).
  rewrite Henc. vm_compute in Henc. injection Henc as <-. reflexivity.
Defined.

(** [get_mime_type] gives one of four types, whatever the path:
    [image/jpeg] for the extensions [.jpg] and [.jpeg], [image/webp] for
    [.webp], [image/gif] for [.gif], and [image/png] for [.png] and for
    every other extension, none included. *)
Theorem the_mime_type_is_png_unless_the_extension_is_known
    (w : World) (file_path : string) :
  let ext := splitext_lower w file_path in
  In (get_mime_type w file_path) ["image/png"; "image/jpeg"; "image/webp"; "image/gif"]
  /\ (~ In ext [".jpg"; ".jpeg"; ".webp"; ".gif"] ->
      get_mime_type w file_path = "image/png")
  /\ (ext = ".jpg" \/ ext = ".jpeg" -> get_mime_type w file_path = "image/jpeg")
  /\ (ext = ".webp" -> get_mime_type w file_path = "image/webp")
  /\ (ext = ".gif" -> get_mime_type w file_path = "image/gif").
Proof.
  cbv zeta. unfold get_mime_type, mime_map. cbn [dict_get].
  repeat match goal with
  | |- context [String.eqb (splitext_lower w file_path) ?s] =>
      destruct (String.eqb_spec (splitext_lower w file_path) s) as [->|?]
  end; cbn [default from_option id In];
    repeat split; intros; try tauto; try congruence;
    repeat match goal with H : _ \/ _ |- _ => destruct H end; congruence.
Qed.

Lemma the_mime_type_is_png_unless_the_extension_is_known_witness :
  let w :=
    mkWorld None id (fun _ => ".tiff") id Ok (fun _ _ _ => Raise "offline")
      (fun _ => None) "" (fun _ => "") (fun _ => Ok []) (fun _ => "")
      (QueueStore.script Sample.dump_queue) "" (fun _ => None) in
  ~ In (splitext_lower w "/scan.TIFF") [".jpg"; ".jpeg"; ".webp"; ".gif"]
  /\ get_mime_type w "/scan.TIFF" = "image/png".
Proof.
  intros w.
  assert (H : ~ In (splitext_lower w "/scan.TIFF") [".jpg"; ".jpeg"; ".webp"; ".gif"]).
  { vm_compute. intros [H|[H|[H|[H|[]]]]]; discriminate H. }
  split; [exact H|].
  exact (proj1 (proj2 (the_mime_type_is_png_unless_the_extension_is_known w "/scan.TIFF")) H).
Defined.

(** X9.  What [_normalize_reference_images] returns never has more
    entries than the configured limit.  A non-empty [reference_images] is
    what it returns, as it is when it is a list and as a list of one when
    it is a single string, and [reference_image] is then ignored; only
    without it the single [reference_image], if there is one, is
    returned. *)
Theorem normalized_references_are_within_the_limit
    (cfg : Config) (reference_images : Server.RefArg)
    (reference_image : option string) (paths : list string) :
  Server._normalize_reference_images cfg reference_images reference_image = Ok paths ->
  Z.of_nat (length paths) <= Server.MAX_REF_IMAGES cfg
  /\ match reference_images with
     | Server.RefList (p :: l) => paths = p :: l
     | Server.RefStr s =>
         if String.eqb s "" then
           paths = if truthy reference_image then [default "" reference_image] else []
         else paths = [s]
     | _ => paths = if truthy reference_image then [default "" reference_image] else []
     end.
Proof.
  unfold Server._normalize_reference_images. intros Hok.
  match type of Hok with (if Z.gtb ?n ?m then _ else _) = _ =>
    destruct (Z.gtb_spec n m) as [|Hle]; [discriminate|] end.
  injection Hok as <-. split; [exact Hle|].
  destruct reference_images as [|s|[|p l]]; simpl.
  - destruct reference_image; reflexivity.
  - destruct (String.eqb s ""); simpl; [destruct reference_image|]; reflexivity.
  - destruct reference_image; reflexivity.
  - reflexivity.
Qed.

Lemma normalized_references_are_within_the_limit_witness :
  Server._normalize_reference_images Sample.cfg (Server.RefList ["/a.png"; "/b.png"])
    (Some "/c.png") = Ok ["/a.png"; "/b.png"]
  /\ Z.of_nat (length ["/a.png"; "/b.png"]) <= Server.MAX_REF_IMAGES Sample.cfg.
Proof.
  split; [reflexivity|].
  exact (proj1 (normalized_references_are_within_the_limit Sample.cfg
                  (Server.RefList ["/a.png"; "/b.png"]) (Some "/c.png")
                  ["/a.png"; "/b.png"] eq_refl)).
Defined.

(** ** Tiers and requests *)

(** X10.  Both scripts resolve the quality tier the same way: ["fast"]
    stays ["fast"], every other value, ["pro"] included, is ["pro"]; the
    model is [gemini-2.5-flash-image] for the first and
    [gemini-3-pro-image-preview] for the second, and the batch runner
    takes ["pro"] for an entry without a quality. *)
Theorem an_unknown_tier_is_pro_in_both_scripts :
  (forall quality,
     Server.tier quality = (if String.eqb quality "fast" then "fast" else "pro")
     /\ dict_get (Server.tier quality) MODELS
        = Some (if String.eqb quality "fast" then "gemini-2.5-flash-image"
                else "gemini-3-pro-image-preview"))
  /\ (forall i prompt_data,
        let j := Batch.resolve i prompt_data in
        Batch.quality j = Server.tier (default "pro" (pd_quality prompt_data))
        /\ Batch.model j = default "" (dict_get (Batch.quality j) MODELS))
  /\ (forall w cfg prompt aspect_ratio image_size reference_image
             reference_images quality st g st',
        Server.generate_image w cfg prompt aspect_ratio image_size reference_image
          reference_images quality st = (Ok g, st') ->
        Server.g_quality g = Server.tier quality
        /\ Server.model g = default "" (dict_get (Server.tier quality) MODELS)).
Proof.
  split; [|split].
  - intros quality. unfold Server.tier, dict_mem, MODELS. cbn [dict_get].
    destruct (String.eqb_spec quality "pro") as [->|Hpro]; [split; reflexivity|].
    destruct (String.eqb_spec quality "fast") as [->|Hfast]; split; reflexivity.
  - intros i pd j. subst j. unfold Batch.resolve, Server.tier.
    cbn [Batch.quality Batch.model].
    destruct (dict_mem (default "pro" (pd_quality pd)) MODELS); split; reflexivity.
  - intros w cfg prompt aspect_ratio image_size reference_image reference_images
      quality st g st' Hrun.
    destruct (truthy (GEMINI_API_KEY w)) eqn:Hkey.
    2:{ rewrite generate_image_no_key in Hrun by exact Hkey. discriminate. }
    destruct (Server.references cfg (Server.tier quality) reference_images
                reference_image) as [ref_paths|e] eqn:Hrefs.
    2:{ rewrite (generate_image_bad_references w cfg _ _ _ _ _ _ st e Hkey Hrefs) in Hrun.
        discriminate. }
    pose proof (encode_loop_state w ref_paths [] st) as Hst.
    destruct (encode_loop w ref_paths [] st) as [[enc|e] s0] eqn:Henc;
      simpl in Hst; subst s0.
    2:{ rewrite (generate_image_bad_encoding w cfg _ _ _ _ _ _ st ref_paths e Hkey
                   Hrefs Henc) in Hrun. discriminate. }
    rewrite (generate_image_request w cfg prompt aspect_ratio image_size
               reference_image reference_images quality st ref_paths enc Hkey
               Hrefs Henc) in Hrun.
    match type of Hrun with
    | bind (request_image w ?u ?p) (fun d => bind (write_decoded w ?f d) (fun _ => ret (@?k d))) st = _ =>
        destruct (after_request w u p k f st) as (_ & _ & _ & Hok)
    end.
    rewrite Hrun in Hok. destruct (Hok g eq_refl) as [data ->].
    split; reflexivity.
Qed.

Lemma an_unknown_tier_is_pro_in_both_scripts_witness :
  Server.tier "turbo" = "pro"
  /\ Batch.quality (Batch.resolve 1 Sample.turbo) = "pro"
  /\ Batch.model (Batch.resolve 1 Sample.turbo) = "gemini-3-pro-image-preview".
Proof.
  destruct an_unknown_tier_is_pro_in_both_scripts as (Htier & Hbatch & _).
  destruct (Htier "turbo") as [Ht _].
  destruct (Hbatch 1%nat Sample.turbo) as [Hq Hm].
  split; [rewrite Ht; reflexivity|].
  split; [rewrite Hq; reflexivity | rewrite Hm; reflexivity].
Defined.

(** X11.  On the pro tier, with a credential, references within the limit
    and all on disk, [generate_image] sends one request to the pro model
    whose content parts are the encoded references in their order followed
    by the prompt text as the last part, with the looked-up resolution as
    [imageSize]; a success reports the number of these references. *)
Theorem a_pro_request_carries_its_references_before_the_prompt
    (w : World) (cfg : Config) (st : State)
    (prompt aspect_ratio image_size quality : string)
    (reference_image : option string) (reference_images : Server.RefArg)
    (ref_paths : list string) :
  truthy (GEMINI_API_KEY w) = true ->
  Server.tier quality = "pro" ->
  Server._normalize_reference_images cfg reference_images reference_image
  = Ok ref_paths ->
  Forall (present w st) ref_paths ->
  let run :=
    Server.generate_image w cfg prompt aspect_ratio image_size reference_image
      reference_images quality st in
  posts (trace (snd run))
  = posts (trace st)
      ++ [Post (endpoint "gemini-3-pro-image-preview" (default "" (GEMINI_API_KEY w)))
            (mkPayload (encoded w st ref_paths ++ [Text prompt]) aspect_ratio
               (Some (default "2K" (dict_get image_size size_map))))]
  /\ forall g, fst run = Ok g -> Server.reference_images_used g = length ref_paths.
Proof.
  intros Hkey Htier Hnorm Hpresent run. subst run.
  assert (Hrefs : Server.references cfg (Server.tier quality) reference_images
                    reference_image = Ok ref_paths).
  { rewrite Htier. exact Hnorm. }
  rewrite (generate_image_request w cfg prompt aspect_ratio image_size
             reference_image reference_images quality st ref_paths
             (encoded w st ref_paths) Hkey Hrefs
             (encode_loop_present w ref_paths [] st Hpresent)).
  rewrite Htier.
  match goal with |- context [bind (request_image w ?u ?p) (fun d => bind (write_decoded w ?f d) (fun _ => ret (@?k d)))] =>
    destruct (after_request w u p k f st) as (Hposts & _ & _ & Hok) end.
  split; [exact Hposts|].
  intros g Hg. destruct (Hok g Hg) as [data ->]. reflexivity.
Qed.

Lemma a_pro_request_carries_its_references_before_the_prompt_witness :
  let w := Sample.world (Some "k") Sample.image [] in
  let st := Sample.state [("/a.png", "A"); ("/b.png", "B")] [] in
  (truthy (GEMINI_API_KEY w) = true
   /\ Server.tier "pro" = "pro"
   /\ Forall (present w st) ["/b.png"; "/a.png"])
  /\ posts (trace (snd (Server.generate_image w Sample.cfg "a fox" "16:9" "xlarge"
                          None (Server.RefList ["/b.png"; "/a.png"]) "pro" st)))
     = [Post (endpoint "gemini-3-pro-image-preview" "k")
          (mkPayload [InlineData "image/png" "B"; InlineData "image/png" "A";
                      Text "a fox"] "16:9" (Some "4K"))].
Proof.
  intros w st.
  assert (Hp : Forall (present w st) ["/b.png"; "/a.png"]).
  { repeat constructor; vm_compute; eexists; reflexivity. }
  split; [repeat split; try reflexivity; exact Hp|].
  exact (proj1 (a_pro_request_carries_its_references_before_the_prompt w Sample.cfg st
                  "a fox" "16:9" "xlarge" "pro" None
                  (Server.RefList ["/b.png"; "/a.png"]) ["/b.png"; "/a.png"]
                  eq_refl eq_refl eq_refl Hp)).
Defined.

(** ** Files *)

Lemma after_request_files w url payload (k : string -> Server.Generated)
    filename st :
  let run :=
    bind (request_image w url payload)
      (fun image_data =>
         bind (write_decoded w filename image_data)
           (fun _ => ret (k image_data))) st in
  manager_runs (trace (snd run)) = manager_runs (trace st)
  /\ (forall p, p <> filename -> fs (snd run) !! p = fs st !! p)
  /\ (forall g, fst run = Ok g ->
        exists r parts data bytes,
          g = k data
          /\ requests_post w (length (posts (trace st))) url payload = Ok r
          /\ status_code r = 200
          /\ candidate_parts r = Ok parts
          /\ first_inline_data parts = Some data
          /\ b64decode w data = Ok bytes
          /\ fs (snd run) !! filename = Some bytes).
Proof.
  cbv zeta. unfold bind.
  destruct (request_image w url payload st) as [[data|e] s1] eqn:Hrq.
  - apply request_image_ok in Hrq as (r & parts & Hr & Hs & Hparts & Hdata & _ & ->).
    destruct (write_decoded_trace w filename data (emit (Post url payload) st))
      as [Ht _].
    pose proof (fun p => write_decoded_frame w filename data (emit (Post url payload) st) p)
      as Hfs.
    destruct (write_decoded w filename data (emit (Post url payload) st))
      as [[[]|e] s2] eqn:Hw; cbn [fst snd] in Ht, Hfs |- *.
    + apply write_decoded_ok in Hw as (bytes & Hdec & _ & ->).
      unfold ret. cbn [fst snd]. unfold set_fs, emit. cbn [trace fs].
      rewrite manager_runs_snoc. cbn [is_subprocess]. rewrite app_nil_r.
      split; [reflexivity|]. split.
      * intros p Hp. apply lookup_insert_ne. congruence.
      * intros g [= <-]. exists r, parts, data, bytes.
        repeat split; try assumption. apply lookup_insert_eq.
    + rewrite Ht. unfold emit. cbn [trace]. rewrite manager_runs_snoc.
      cbn [is_subprocess]. rewrite app_nil_r.
      split; [reflexivity|]. split; [|discriminate].
      intros p Hp. rewrite (Hfs p Hp). reflexivity.
  - pose proof (request_image_state w url payload st) as Hst. rewrite Hrq in Hst.
    cbn [snd] in Hst. subst s1.
    cbn [fst snd]. unfold emit. cbn [trace fs]. rewrite manager_runs_snoc.
    cbn [is_subprocess]. rewrite app_nil_r.
    split; [reflexivity|]. split; [reflexivity | discriminate].
Qed.

(** X12.  Whatever its arguments and whatever the API answers,
    [generate_image] leaves the queue store alone, never calls the batch
    manager, sends at most one request, and creates or changes no file but
    [<images_dir>/gemini_image_<timestamp>.png]; when it returns, the API
    has answered its request with status 200, that path is the
    [image_path] it reports and the file holds the decoding of the data of
    the first inline part of that answer. *)
Theorem generate_image_touches_one_file_and_no_queue
    (w : World) (cfg : Config) (prompt aspect_ratio image_size : string)
    (reference_image : option string) (reference_images : Server.RefArg)
    (quality : string) (st : State) :
  let run :=
    Server.generate_image w cfg prompt aspect_ratio image_size reference_image
      reference_images quality st in
  let filename := images_dir cfg +:+ "/gemini_image_" +:+ strftime_now w +:+ ".png" in
  queue (snd run) = queue st
  /\ manager_runs (trace (snd run)) = manager_runs (trace st)
  /\ (length (posts (trace (snd run))) <= length (posts (trace st)) + 1)%nat
  /\ (forall p, p <> filename -> fs (snd run) !! p = fs st !! p)
  /\ (forall g, fst run = Ok g ->
        Server.image_path g = filename
        /\ exists ref_paths r parts data bytes,
             Server.references cfg (Server.tier quality) reference_images
               reference_image = Ok ref_paths
             /\ requests_post w (length (posts (trace st))) (Server.url_of w quality)
                  (Server.payload_of prompt aspect_ratio image_size quality
                     (encoded w st ref_paths)) = Ok r
             /\ status_code r = 200
             /\ candidate_parts r = Ok parts
             /\ first_inline_data parts = Some data
             /\ b64decode w data = Ok bytes
             /\ fs (snd run) !! filename = Some bytes).
Proof.
  cbv zeta.
  destruct (Server.generate_image w cfg prompt aspect_ratio image_size
              reference_image reference_images quality st) as [res st'] eqn:Hrun.
  cbn [fst snd].
  assert (Hsame : forall e, (res, st') = (Raise e, st) ->
    queue st' = queue st
    /\ manager_runs (trace st') = manager_runs (trace st)
    /\ (length (posts (trace st')) <= length (posts (trace st)) + 1)%nat
    /\ (forall p, p <> images_dir cfg +:+ "/gemini_image_" +:+ strftime_now w +:+ ".png" ->
                  fs st' !! p = fs st !! p)
    /\ (forall g, res = Ok g ->
          Server.image_path g
          = images_dir cfg +:+ "/gemini_image_" +:+ strftime_now w +:+ ".png"
          /\ exists ref_paths r parts data bytes,
               Server.references cfg (Server.tier quality) reference_images
                 reference_image = Ok ref_paths
               /\ requests_post w (length (posts (trace st))) (Server.url_of w quality)
                    (Server.payload_of prompt aspect_ratio image_size quality
                       (encoded w st ref_paths)) = Ok r
               /\ status_code r = 200
               /\ candidate_parts r = Ok parts
               /\ first_inline_data parts = Some data
               /\ b64decode w data = Ok bytes
               /\ fs st' !! (images_dir cfg +:+ "/gemini_image_"
                               +:+ strftime_now w +:+ ".png") = Some bytes)).
  { intros e [= -> ->]. repeat split; auto; [lia | discriminate | discriminate]. }
  destruct (truthy (GEMINI_API_KEY w)) eqn:Hkey.
  2:{ rewrite (generate_image_no_key w cfg _ _ _ _ _ _ st Hkey) in Hrun.
      apply (Hsame _ (eq_sym Hrun)). }
  destruct (Server.references cfg (Server.tier quality) reference_images
              reference_image) as [ref_paths|e] eqn:Hrefs.
  2:{ rewrite (generate_image_bad_references w cfg _ _ _ _ _ _ st e Hkey Hrefs) in Hrun.
      apply (Hsame _ (eq_sym Hrun)). }
  destruct (encode_loop w ref_paths [] st) as [[enc|e] s0] eqn:Henc.
  2:{ pose proof (encode_loop_state w ref_paths [] st) as Hst. rewrite Henc in Hst.
      cbn [snd] in Hst. subst s0.
      rewrite (generate_image_bad_encoding w cfg _ _ _ _ _ _ st ref_paths e
                 Hkey Hrefs Henc) in Hrun.
      apply (Hsame _ (eq_sym Hrun)). }
  clear Hsame. pose proof Henc as Henc'.
  apply encode_loop_ok in Henc' as (-> & _ & ->). cbn [app] in Henc.
  rewrite (generate_image_request w cfg prompt aspect_ratio image_size
             reference_image reference_images quality st ref_paths _ Hkey
             Hrefs Henc) in Hrun.
  match type of Hrun with
  | bind (request_image w ?u ?p) (fun d => bind (write_decoded w ?f d) (fun _ => ret (@?k d))) st = _ =>
      destruct (after_request w u p k f st) as (Hposts & Hq & _ & _);
      destruct (after_request_files w u p k f st) as (Hm & Hfs & Hok)
  end.
  rewrite Hrun in Hposts, Hq, Hm, Hfs, Hok. cbn [fst snd] in Hposts, Hq, Hm, Hfs, Hok.
  split; [exact Hq|]. split; [exact Hm|].
  split; [rewrite Hposts, length_app; simpl; lia|].
  split; [exact Hfs|].
  intros g Hg.
  destruct (Hok g Hg) as (r & parts & data & bytes & -> & Hr & Hs & Hparts & Hdata
                          & Hdec & Hfile).
  split; [reflexivity|]. exists ref_paths, r, parts, data, bytes.
  repeat split; assumption.
Qed.

Lemma generate_image_touches_one_file_and_no_queue_witness :
  let w := Sample.world (Some "k") Sample.image [] in
  let st := Sample.state [("/img/old.png", "old")] [Sample.plain] in
  let run :=
    Server.generate_image w Sample.cfg "a fox" "16:9" "large" None
      (Server.RefList []) "pro" st in
  "/img/old.png" <> "/img/gemini_image_20260101_120000.png"
  /\ fs (snd run) !! "/img/old.png" = Some "old".
Proof.
  intros w st run. split; [discriminate|].
  exact (proj1 (proj2 (proj2 (proj2
           (generate_image_touches_one_file_and_no_queue w Sample.cfg "a fox" "16:9"
              "large" None (Server.RefList []) "pro" st))))
           "/img/old.png" ltac:(discriminate)).
Defined.

(** X13.  The output file is opened before the image data is decoded:
    when the data of a response does not decode, the entry fails with the
    decoder's message and stays queued, and an empty file is left at its
    output path. *)
Theorem a_decoding_failure_leaves_an_empty_file
    (w : World) (cfg : Config) (api_key output_dir : string) (n i : nat)
    (prompt_data : PromptData) (prompt : string) (st : State)
    (r : Response) (data : list ResponsePart) (e : string) :
  pd_prompt prompt_data = Some prompt ->
  let j := Batch.resolve i prompt_data in
  let output_path := path_join output_dir (Batch.filename j) in
  Forall (present w st) (Batch.reference_images j) ->
  requests_post w (length (posts (trace st))) (endpoint (Batch.model j) api_key)
    (Batch.payload_of j (encoded w st (Batch.reference_images j)) prompt) = Ok r ->
  status_code r = 200 ->
  candidate_parts r = Ok data ->
  truthy (first_inline_data data) = true ->
  open_wb w output_path = None ->
  b64decode w (default "" (first_inline_data data)) = Raise e ->
  let run := Batch.process_entry w cfg api_key output_dir n i prompt_data st in
  fst run = Ok (Error (Batch.filename j) e)
  /\ fs (snd run) !! output_path = Some ""
  /\ queue (snd run) = queue st.
Proof.
  intros Hp j output_path Hpresent Hreply Hs Hparts Hdata Hopen Hdec run.
  destruct (before_try_frame n i prompt_data prompt st) as (Hfs & Hq & Hposts & _).
  set (s0 := Batch.before_try n i prompt_data prompt st) in *.
  assert (Hpresent0 : Forall (present w s0) (Batch.reference_images j)).
  { eapply Forall_impl; [exact Hpresent|]. intros p. apply present_fs. exact Hfs. }
  assert (Ha : Batch.attempt w cfg api_key output_dir j prompt s0
               = (Raise e,
                  set_fs (insert output_path "")
                    (emit (Batch.request_of api_key j
                             (encoded w st (Batch.reference_images j)) prompt) s0))).
  { unfold Batch.attempt, Batch.encode_reference_images.
    rewrite (bind_ok _ _ _ _ _ (encode_loop_present w _ [] s0 Hpresent0)).
    rewrite (encoded_fs w st s0 _ Hfs). cbn [app].
    fold (Batch.payload_of j (encoded w st (Batch.reference_images j)) prompt).
    unfold request_image, bind, post, lift, raise, ret, write_decoded.
    rewrite Hposts, Hreply, Hs, Hparts. cbn [Z.eqb Pos.eqb negb].
    rewrite Hdata. cbn [negb]. fold output_path. rewrite Hopen, Hdec. reflexivity. }
  subst run.
  rewrite (process_entry_run w cfg api_key output_dir n i prompt_data prompt st Hp).
  fold s0. fold j. unfold try_except. rewrite Ha.
  unfold Batch.on_error, bind, print, ret. cbn [fst snd].
  unfold emit, set_fs. cbn [fs queue].
  split; [reflexivity|]. split; [apply lookup_insert_eq | exact Hq].
Qed.

Lemma a_decoding_failure_leaves_an_empty_file_witness :
  let w := Sample.undecodable (Some "k") Sample.image [] in
  let st := Sample.state [] [Sample.plain] in
  let run := Batch.process_entry w Sample.cfg "k" "/out" 1 1 Sample.plain st in
  (pd_prompt Sample.plain = Some "a red circle"
   /\ status_code Sample.image = 200
   /\ b64decode w "aGk=" = Raise "Incorrect padding")
  /\ fst run = Ok (Error "circle.png" "Incorrect padding")
  /\ fs (snd run) !! "/out/circle.png" = Some ""
  /\ queue (snd run) = [Sample.plain].
Proof.
  intros w st run. split; [repeat split; reflexivity|].
  exact (a_decoding_failure_leaves_an_empty_file w Sample.cfg "k" "/out" 1 1
           Sample.plain "a red circle" st Sample.image
           [WithoutInlineData; WithInlineData "aGk="] "Incorrect padding"
           eq_refl ltac:(constructor) eq_refl eq_refl eq_refl eq_refl eq_refl eq_refl).
Defined.

(** ** The response *)

Lemma first_inline_data_app pre d post :
  Forall (fun part => part = WithoutInlineData) pre ->
  first_inline_data (pre ++ WithInlineData d :: post) = Some d.
Proof.
  induction pre as [|part pre IH]; intros Hpre; [reflexivity|].
  inversion Hpre as [|? ? -> Hrest]; subst. simpl. apply IH. exact Hrest.
Qed.

(** X14.  Of the parts of a response with status 200 only the first one
    with inline data counts: its data is the image, whatever follows; and
    when its data is empty the call fails with
    ["No image data in API response"], even if a later part has data. *)
Theorem the_first_inline_part_decides
    (w : World) (url : string) (payload : Payload) (st : State) (r : Response)
    (pre : list ResponsePart) (d : string) (rest : list ResponsePart) :
  requests_post w (length (posts (trace st))) url payload = Ok r ->
  status_code r = 200 ->
  candidate_parts r = Ok (pre ++ WithInlineData d :: rest) ->
  Forall (fun part => part = WithoutInlineData) pre ->
  fst (request_image w url payload st)
  = (if String.eqb d "" then Raise "No image data in API response" else Ok d).
Proof.
  intros Hr Hs Hparts Hpre.
  unfold request_image, bind, post, lift, raise, ret.
  rewrite Hr, Hs, Hparts. cbn [Z.eqb Pos.eqb negb].
  rewrite (first_inline_data_app pre d rest Hpre). cbn [truthy default from_option id].
  destruct (String.eqb d ""); reflexivity.
Qed.

Lemma the_first_inline_part_decides_witness :
  let r := mkResponse 200 "" (Ok [WithoutInlineData; WithInlineData ""; WithInlineData "aGk="]) in
  let w := Sample.world (Some "k") r [] in
  let st := Sample.state [] [] in
  (requests_post w (length (posts (trace st))) "u" (mkPayload [Text "p"] "1:1" None) = Ok r
   /\ status_code r = 200)
  /\ fst (request_image w "u" (mkPayload [Text "p"] "1:1" None) st)
     = Raise "No image data in API response".
Proof.
  intros r w st. split; [split; reflexivity|].
  exact (the_first_inline_part_decides w "u" (mkPayload [Text "p"] "1:1" None) st r
           [WithoutInlineData] "" [WithInlineData "aGk="]
           eq_refl eq_refl eq_refl ltac:(repeat constructor)).
Defined.

(** ** Enqueueing *)

(** X15.  [add_to_batch] never looks at the disk and never calls the
    API: on the pro tier the references, once within the limit, are handed
    to the batch manager as they are, whether the files exist or not, and
    on the fast tier an empty list is handed over.  The batch manager is
    called once, with [add], the prompt, the filename or an empty string, an
    aspect ratio and a size that are never empty, the references and the
    resolved tier; what [add_to_batch] returns is what the manager
    prints, and the state is the one the manager leaves.  When the manager
    cannot be started, [add_to_batch] raises the error of the start and
    nothing else has happened. *)
Theorem add_to_batch_hands_the_request_over_unchecked
    (w : World) (cfg : Config) (prompt : string) (filename : option string)
    (aspect_ratio image_size description : string)
    (reference_image : option string) (reference_images : Server.RefArg)
    (quality : string) (st : State) (ref_paths : list string) :
  Server.references cfg (Server.tier quality) reference_images reference_image
  = Ok ref_paths ->
  let name := if truthy filename then default "" filename else "" in
  let ratio := Server.or_else aspect_ratio "16:9" in
  let size :=
    Server.or_else
      (if String.eqb (Server.tier quality) "fast" && String.eqb image_size "large"
       then "small" else image_size) "large" in
  let refs :=
    if is_nil ref_paths then "[]" else json_dumps w (JArr (JStr <$> ref_paths)) in
  let cmd :=
    ["python3"; batch_manager_script cfg; "add"; prompt; name; ratio; size;
     refs; Server.tier quality] in
  let done := batch_manager w cmd (queue st) in
  Server.add_to_batch w cfg prompt filename aspect_ratio image_size description
    reference_image reference_images quality st
  = match spawn w cmd with
    | None => (stdout_json done, settle w done (emit (Subprocess cmd) st))
    | Some e => (Raise e, emit (Subprocess cmd) st)
    end
  /\ ratio <> "" /\ size <> ""
  /\ (Server.tier quality = "fast" -> refs = "[]").
Proof.
  intros Hrefs name ratio size refs cmd done. split.
  { unfold Server.add_to_batch, bind, lift, subprocess_run. rewrite Hrefs.
    cbn [app]. fold name ratio size refs. fold cmd.
    destruct (spawn w cmd); reflexivity. }
  split.
  { subst ratio. unfold Server.or_else. destruct (String.eqb_spec aspect_ratio "");
      [discriminate | assumption]. }
  split.
  { subst size. unfold Server.or_else.
    destruct (String.eqb (Server.tier quality) "fast" && String.eqb image_size "large");
      [discriminate|].
    destruct (String.eqb_spec image_size ""); [discriminate | assumption]. }
  intros Hfast. subst refs. unfold Server.references in Hrefs. rewrite Hfast in Hrefs.
  simpl in Hrefs. injection Hrefs as <-. reflexivity.
Qed.

Lemma add_to_batch_hands_the_request_over_unchecked_witness :
  let w := Sample.world (Some "k") Sample.image [] in
  let st := Sample.state [] [] in
  Server.references Sample.cfg (Server.tier "pro") (Server.RefList ["/missing.png"]) None
  = Ok ["/missing.png"]
  /\ manager_runs
       (trace (snd (Server.add_to_batch w Sample.cfg "a cat" (Some "cat") "" ""
                      "note" None (Server.RefList ["/missing.png"]) "pro" st)))
     = [Subprocess ["python3"; "/opt/batch_manager.py"; "add"; "a cat"; "cat";
                    "16:9"; "large"; "[...]"; "pro"]].
Proof.
  intros w st. split; [reflexivity|].
  destruct (add_to_batch_hands_the_request_over_unchecked w Sample.cfg "a cat"
              (Some "cat") "" "" "note" None (Server.RefList ["/missing.png"]) "pro"
              st ["/missing.png"] eq_refl)
    as (Hrun & _).
  rewrite Hrun. reflexivity.
Defined.

(** ** More on the dispatcher *)

(** X16.  The operations the catalog lists are exactly the ones
    [handle_tool_call] routes: a name is in the answer to [tools/list] if
    and only if an invocation under it reaches an operation, and a name
    that is no string reaches none.  The answer lists the eight names once
    each. *)
Theorem the_catalog_lists_exactly_the_routed_operations (h : Server.Host) :
  (forall name, In name Server.catalog <-> Server.route (JStr name) <> None)
  /\ (forall v, (forall s, v <> JStr s) -> Server.route v = None)
  /\ (forall request_id c,
        exists response,
          Server.handle_tools_list h request_id c = Server.send_message response c
          /\ Observe.tool_names response = List.map JStr Server.catalog)
  /\ NoDup Server.catalog
  /\ length Server.catalog = 8%nat.
Proof.
  split; [|split; [|split; [|split]]].
  - intros name. pose proof (route_catalog name) as [H1 H2]. split.
    + intros Hin Hroute. apply (H1 Hroute Hin).
    + intros Hroute. destruct (In_dec String.string_dec name Server.catalog) as [|Hnot];
        [assumption | exfalso; apply Hroute, H2, Hnot].
  - intros v Hv. destruct v; try reflexivity. exfalso. apply (Hv s). reflexivity.
  - intros request_id c. eexists. split; [reflexivity|]. reflexivity.
  - apply (bool_decide_unpack _). vm_compute. reflexivity.
  - reflexivity.
Qed.

Lemma the_catalog_lists_exactly_the_routed_operations_witness :
  (forall s, JInt 7 <> JStr s) /\ Server.route (JInt 7) = None.
Proof.
  split; [discriminate|].
  exact (proj1 (proj2 (the_catalog_lists_exactly_the_routed_operations
                         (Sample.host (Ok JNull))))
           (JInt 7) ltac:(discriminate)).
Defined.

Lemma serve_shape h n message c c' :
  Server.serve h n message c = Ok c' ->
  c' = c
  \/ exists response,
       c' = Server.send_message response c
       /\ Observe.member "jsonrpc" response = JStr "2.0"
       /\ Observe.member "id" response = Observe.member "id" message.
Proof.
  unfold Server.serve. destruct message as [| | | | | |kvs]; try discriminate.
  cbn [get and_then Observe.member].
  destruct (eq_str _ "initialize").
  { intros [= <-]. right. eexists. split; [reflexivity|]. split; reflexivity. }
  destruct (eq_str _ "tools/list").
  { intros [= <-]. right. eexists. split; [reflexivity|]. split; reflexivity. }
  destruct (eq_str _ "tools/call").
  2:{ destruct (eq_str _ _); intros [= <-]; left; reflexivity. }
  destruct (default (JObj []) (assoc "params" kvs)) as [| | | | | |params];
    try discriminate.
  cbn [get and_then]. intros [= <-]. right.
  unfold Server.handle_tool_call.
  destruct (Server.invoke _ _ _ _); eexists; (split; [reflexivity|]); split; reflexivity.
Qed.

(** X17.  Serving a message writes at most one response, and a response
    always carries ["jsonrpc": "2.0"] and the [id] of the message it
    answers ([null] when the message has none); when serving raises,
    nothing has been written. *)
Theorem a_response_echoes_the_id_of_its_request
    (h : Server.Host) (n : nat) (message : JSON) (c c' : Server.Console) :
  Server.serve h n message c = Ok c' ->
  Server.stderr c' = Server.stderr c
  /\ (c' = c
      \/ exists response,
           Server.stdout c' = Server.stdout c ++ [response]
           /\ Observe.member "jsonrpc" response = JStr "2.0"
           /\ Observe.member "id" response = Observe.member "id" message).
Proof.
  intros Hserve. destruct (serve_shape h n message c c' Hserve) as [->|(r & -> & H1 & H2)].
  - split; [reflexivity | left; reflexivity].
  - split; [reflexivity|]. right. exists r. split; [reflexivity|]. split; assumption.
Qed.

Lemma a_response_echoes_the_id_of_its_request_witness :
  let c := Server.mkConsole [] [Server.banner] in
  let h := Sample.host (Ok JNull) in
  Server.serve h 0 Sample.call_paint c
  = Ok (Server.send_message (Server.error_response (JInt 7) "Unknown tool: paint") c)
  /\ Server.stderr (Server.send_message
                      (Server.error_response (JInt 7) "Unknown tool: paint") c)
     = Server.stderr c.
Proof.
  intros c h. split; [reflexivity|].
  exact (proj1 (a_response_echoes_the_id_of_its_request h 0 Sample.call_paint c _ eq_refl)).
Defined.

Lemma main_loop_rest_length h stdin : forall n c,
  (length (snd (Server.main_loop h n stdin c)) <= length stdin)%nat.
Proof.
  induction stdin as [|line rest IH]; intros n c; [simpl; lia|].
  destruct (Server.line_eq_dec line) as [->|Hline].
  - simpl. lia.
  - destruct (main_loop_step h n line rest c Hline) as [c' ->].
    specialize (IH (S n) c'). simpl. lia.
Qed.

(** One line that is served: the three ways it can go. *)
Ltac served_line h n c rest Hnext :=
  match goal with
  | |- context [Server.Parsed ?m :: rest] =>
      let c' := fresh "c'" in
      let e := fresh "e" in
      let Hserve := fresh "Hserve" in
      let r := fresh "r" in
      destruct (Server.serve h n m c) as [c'|e] eqn:Hserve;
      [ destruct (serve_shape h n m c c' Hserve) as [->|(r & -> & _)];
        [ apply (Hnext c [] []);
          [ destruct c; simpl; rewrite !app_nil_r; reflexivity
          | simpl; lia
          | cbn [Server.main_loop Server.read_message]; rewrite Hserve; reflexivity ]
        | apply (Hnext (Server.send_message r c) [r] []);
          [ unfold Server.send_message; rewrite app_nil_r; reflexivity
          | simpl; lia
          | cbn [Server.main_loop Server.read_message]; rewrite Hserve; reflexivity ] ]
      | apply (Hnext (Server.report e c) [] [("Error: " +:+ e +:+ newline)%string]);
        [ destruct c; simpl; rewrite app_nil_r; reflexivity
        | simpl; lia
        | cbn [Server.main_loop Server.read_message]; rewrite Hserve; reflexivity ] ]
  end.

(** X18.  Over any input the dispatcher only ever appends to its two
    streams, and for each line it writes at most one thing: a response on
    standard output or a report on standard error, never both.  When no
    line holds the JSON value [null], it reads the input to its end,
    whatever the operations do. *)
Theorem the_dispatcher_answers_each_line_at_most_once
    (h : Server.Host) (stdin : list Server.Line) (n : nat) (c : Server.Console) :
  exists answers reports,
    fst (Server.main_loop h n stdin c)
    = Server.mkConsole (Server.stdout c ++ answers) (Server.stderr c ++ reports)
    /\ (length answers + length reports
        <= length stdin - length (snd (Server.main_loop h n stdin c)))%nat
    /\ (Forall (fun line => line <> Server.Parsed JNull) stdin ->
        snd (Server.main_loop h n stdin c) = []).
Proof.
  revert n c. induction stdin as [|line rest IH]; intros n c.
  - exists [], []. simpl. rewrite !app_nil_r. destruct c. repeat split; auto.
  - assert (Hnext : forall c' answers reports,
      c' = Server.mkConsole (Server.stdout c ++ answers) (Server.stderr c ++ reports) ->
      (length answers + length reports <= 1)%nat ->
      Server.main_loop h n (line :: rest) c = Server.main_loop h (S n) rest c' ->
      exists answers reports,
        fst (Server.main_loop h n (line :: rest) c)
        = Server.mkConsole (Server.stdout c ++ answers) (Server.stderr c ++ reports)
        /\ (length answers + length reports
            <= length (line :: rest)
               - length (snd (Server.main_loop h n (line :: rest) c)))%nat
        /\ (Forall (fun line => line <> Server.Parsed JNull) (line :: rest) ->
            snd (Server.main_loop h n (line :: rest) c) = [])).
    { intros c' answers reports Hc' Hlen Hstep. rewrite Hstep.
      destruct (IH (S n) c') as (answers' & reports' & Hfst & Hbound & Hend).
      exists (answers ++ answers'), (reports ++ reports').
      split.
      { rewrite Hfst, Hc'. cbn [Server.stdout Server.stderr].
        rewrite <- !app_assoc. reflexivity. }
      split.
      { rewrite !length_app. cbn [length].
        pose proof (main_loop_rest_length h rest (S n) c'). lia. }
      intros Hall. inversion Hall; subst. apply Hend. assumption. }
    destruct line as [err|v].
    { apply (Hnext (Server.report err c) [] [("Error: " +:+ err +:+ newline)%string]);
        [destruct c; simpl; rewrite app_nil_r; reflexivity | simpl; lia | reflexivity]. }
    destruct v as [|b|z|lit|s|items|kvs];
      [ exists [], []; cbn [fst snd]; rewrite !app_nil_r; destruct c;
        split; [reflexivity|]; split; [simpl; lia|];
        intros Hall; inversion Hall; subst; contradiction
      | served_line h n c rest Hnext .. ].
Qed.

Lemma the_dispatcher_answers_each_line_at_most_once_witness :
  let stdin :=
    [Server.Malformed "Expecting value"; Server.Parsed Sample.ping;
     Server.Parsed Sample.call_paint] in
  Forall (fun line => line <> Server.Parsed JNull) stdin
  /\ snd (Server.main (Sample.host (Ok JNull)) stdin) = [].
Proof.
  intros stdin.
  assert (H : Forall (fun line => line <> Server.Parsed JNull) stdin).
  { repeat constructor; discriminate. }
  split; [exact H|].
  destruct (the_dispatcher_answers_each_line_at_most_once (Sample.host (Ok JNull))
              stdin 0 (Server.write_stderr Server.banner (Server.mkConsole [] [])))
    as (answers & reports & _ & _ & Hend).
  exact (Hend H).
Defined.

(** X19.  An operation of the catalog gets its arguments by key, in the
    order of its parameters, each missing one replaced by its default;
    keys it does not know are ignored.  When [arguments] is not an object,
    an operation that has parameters is not run and the failure
    ['<type>' object has no attribute 'get'] is what is reported, while an
    operation without parameters is run all the same. *)
Theorem an_operation_gets_its_arguments_with_defaults
    (h : Server.Host) (n : nat) (tool_name arguments : JSON) (t : Server.Tool)
    (keys : list (string * JSON)) :
  Server.route tool_name = Some (t, keys) ->
  (forall kvs,
     arguments = JObj kvs ->
     Server.invoke h n tool_name arguments
     = Server.run_tool h n t (Observe.passed kvs keys))
  /\ (Observe.is_object arguments = false ->
      keys <> [] ->
      Server.invoke h n tool_name arguments
      = Raise ("'" +:+ type_name arguments +:+ "' object has no attribute 'get'"))
  /\ (keys = [] ->
      Server.invoke h n tool_name arguments = Server.run_tool h n t []).
Proof.
  intros Hroute. unfold Server.invoke. rewrite Hroute. split; [|split].
  - intros kvs ->.
    assert (Hall : Server.get_all (JObj kvs) keys = Ok (Observe.passed kvs keys)).
    { clear. induction keys as [|[k d] keys IH]; [reflexivity|].
      cbn [Server.get_all get and_then]. rewrite IH. reflexivity. }
    rewrite Hall. reflexivity.
  - intros Hobj Hkeys. destruct keys as [|[k d] keys]; [contradiction|].
    cbn [Server.get_all]. destruct arguments; try discriminate; reflexivity.
  - intros ->. reflexivity.
Qed.

Lemma an_operation_gets_its_arguments_with_defaults_witness :
  Server.route (JStr "convert_to_webp")
  = Some (Server.convert_to_webp_tool, [("quality", JInt 85); ("force", JBool false)])
  /\ Server.invoke Sample.echo 0 (JStr "convert_to_webp")
       (JObj [("quality", JInt 60); ("colour", JStr "red")])
     = Ok (JArr [JInt 60; JBool false]).
Proof.
  split; [reflexivity|].
  rewrite (proj1 (an_operation_gets_its_arguments_with_defaults Sample.echo 0
                    (JStr "convert_to_webp")
                    (JObj [("quality", JInt 60); ("colour", JStr "red")])
                    Server.convert_to_webp_tool
                    [("quality", JInt 85); ("force", JBool false)] eq_refl)
             [("quality", JInt 60); ("colour", JStr "red")] eq_refl).
  reflexivity.
Defined.

(** ** Running the batch from the server *)

(** X20.  Without a credential [run_batch] runs nothing and returns a
    failure.  With one, it raises the key error when the configuration has
    no [batch_generate_script], and the error of the start when [python3]
    cannot be started.  Otherwise, with the batch script of this repository
    behind [batch_generate_script], its [success] only says that the script
    ran to its end: for a queue file that holds entries with prompts, a
    delay that is not negative and a summary file that can be written it is
    [true] with no [error], whatever the outcomes of the entries, all
    failed included. *)
Theorem run_batch_succeeds_whatever_the_outcomes
    (w : World) (cfg : Config) (paths : Ops.Paths) (default_dir traceback : string)
    (st : State) :
  let script := Ops.batch_script w cfg default_dir traceback in
  let cmd program := ["python3"; program; Ops.queue_file paths; Ops.batch_dir paths] in
  (truthy (GEMINI_API_KEY w) = false ->
   Ops.run_batch w paths script st
   = (Ok (JObj [("success", JBool false); ("error", JStr "GEMINI_API_KEY not set")]),
      st))
  /\ (truthy (GEMINI_API_KEY w) = true ->
      forall sh,
        (Ops.batch_generate_script paths = None ->
         Ops.run_batch w paths sh st = (Raise "'batch_generate_script'", st))
        /\ (forall program e,
              Ops.batch_generate_script paths = Some program ->
              spawn w (cmd program) = Some e ->
              Ops.run_batch w paths sh st
              = (Raise e, emit (Subprocess (cmd program)) st)))
  /\ (truthy (GEMINI_API_KEY w) = true ->
      forall program content prompts,
        Ops.batch_generate_script paths = Some program ->
        spawn w (cmd program) = None ->
        fs st !! Ops.queue_file paths = Some content ->
        json_load_prompts w content = Ok prompts ->
        prompts <> [] ->
        Forall Batch.has_prompt prompts ->
        0 <= api_delay_seconds cfg ->
        open_wb w (path_join (Ops.batch_dir paths) "batch_results.json") = None ->
        exists output st',
          Ops.run_batch w paths script st
          = (Ok (JObj [("success", JBool true); ("output", JStr output);
                       ("error", JNull)]), st')).
Proof.
  cbv zeta. split; [|split].
  - intros Hkey. unfold Ops.run_batch. rewrite Hkey. reflexivity.
  - intros Hkey sh. unfold Ops.run_batch. rewrite Hkey. cbn [negb]. split.
    + intros ->. reflexivity.
    + intros program e -> Hspawn. unfold bind, lift, Ops.configured, Ops.run.
      rewrite Hspawn. reflexivity.
  - intros Hkey program content prompts Hscript Hspawn Hfile Hload Hne Hprompts
      Hdelay Hopen.
    unfold Ops.run_batch. rewrite Hkey, Hscript. cbn [negb].
    destruct (finished_run w cfg (Ops.queue_file paths) (Ops.batch_dir paths)
                (emit (Subprocess ["python3"; program; Ops.queue_file paths;
                                   Ops.batch_dir paths]) st)
                content prompts Hkey Hfile Hload Hne Hprompts Hdelay Hopen)
      as (results & s2 & st' & _ & Hrun & _).
    unfold bind, lift, Ops.configured, Ops.run. rewrite Hspawn.
    unfold Ops.batch_script, Ops.main. cbn [tail].
    rewrite Hrun. eexists _, _. reflexivity.
Qed.

Lemma run_batch_succeeds_whatever_the_outcomes_witness :
  let entries := [Sample.broken; Sample.twin_broken] in
  let w := Sample.world (Some "k") Sample.image entries in
  let st := Sample.state [("/img/batch_queue.json", "{}")] entries in
  let run :=
    Ops.run_batch w Cases.paths (Ops.batch_script w Sample.cfg "/img/batch" "Traceback")
      st in
  (truthy (GEMINI_API_KEY w) = true
   /\ Ops.batch_generate_script Cases.paths = Some "/opt/batch_generate.py"
   /\ fs st !! Ops.queue_file Cases.paths = Some "{}"
   /\ json_load_prompts w "{}" = Ok entries
   /\ 0 <= api_delay_seconds Sample.cfg)
  /\ Observe.member "success" (match fst run with Ok v => v | Raise _ => JNull end)
     = JBool true
  /\ queue (snd run) = entries.
Proof.
  intros entries w st run. split; [repeat split; try reflexivity; discriminate|].
  destruct (proj2 (proj2 (run_batch_succeeds_whatever_the_outcomes w Sample.cfg
                            Cases.paths "/img/batch" "Traceback" st))
              eq_refl "/opt/batch_generate.py" "{}" entries eq_refl eq_refl eq_refl
              eq_refl ltac:(discriminate)
              ltac:(repeat constructor; eexists; reflexivity)
              ltac:(discriminate) eq_refl)
    as (output & st' & Hrun).
  subst run. rewrite Hrun. split; [reflexivity|].
  rewrite <- Hrun. vm_compute. reflexivity.
Defined.

(** X21.  [remove_from_batch] hands [str(identifier)] to the batch
    manager, so an integer and the string of its digits give the same
    command and the same result: the manager cannot tell the position 0
    from a file named [0]. *)
Theorem remove_from_batch_cannot_tell_an_index_from_its_digits
    (w : World) (cfg : Config) (h : Server.Host) (z : Z) (st : State) :
  Ops.remove_from_batch w cfg h (JInt z) st
  = Ops.remove_from_batch w cfg h (JStr (pretty z)) st
  /\ manager_runs (trace (snd (Ops.remove_from_batch w cfg h (JInt z) st)))
     = manager_runs (trace st)
         ++ [Subprocess ["python3"; batch_manager_script cfg; "remove"; pretty z]].
Proof.
  split; [reflexivity|].
  unfold Ops.remove_from_batch, bind, subprocess_run, lift. cbn [Server.str].
  destruct (spawn w _); [|unfold settle; cbv zeta; destruct (rewritten _)];
    cbn [snd]; unfold set_fs, set_queue, emit; cbn [trace];
    rewrite manager_runs_snoc; reflexivity.
Qed.

(** ** Uploading and listing converted images *)

Lemma upto_length {A} (limit : Z) (l : list A) :
  (length (Ops.upto limit l) <= length l)%nat
  /\ (0 <= limit -> length (Ops.upto limit l) = Nat.min (Z.to_nat limit) (length l))
  /\ (limit < 0 -> length (Ops.upto limit l) = (length l - Z.to_nat (- limit))%nat).
Proof.
  unfold Ops.upto. destruct (Z.leb_spec 0 limit); rewrite length_firstn;
    repeat split; intros; lia.
Qed.

Lemma reports_split (reports : list Ops.Report) :
  (length (List.filter Ops.is_uploaded reports)
   + length (List.filter Ops.is_failed reports))%nat = length reports.
Proof.
  induction reports as [|r reports IH]; [reflexivity|].
  destruct r; simpl; lia.
Qed.

(** X22.  [upload_to_wordpress] never raises over a file: every one of
    the newest files it considers, at most [limit] of them for a [limit]
    that is not negative, ends up in [uploaded] or in [failed], so that
    [total] is the number of files considered; [success] is true exactly
    when [failed] is empty.  Only the status 201 counts as an upload: any
    other status, 200 included, is a failure reported as
    ["HTTP <status>: <body>"]. *)
Theorem upload_to_wordpress_accounts_for_every_file
    (cfg : Config) (site : Ops.Site)
    (wp_url wp_user wp_password directory : string) (limit : Z) :
  let u := Ops.upload_to_wordpress cfg site wp_url wp_user wp_password directory limit in
  let batch_dir := path_join (images_dir cfg) directory in
  let files := Ops.upto limit (Ops.newest_webp site batch_dir) in
  Ops.total u = length files
  /\ Ops.total u = (length (Ops.uploaded u) + length (Ops.failed u))%nat
  /\ (0 <= limit -> (Ops.total u <= Z.to_nat limit)%nat)
  /\ (Ops.success u = true <-> Ops.failed u = [])
  /\ (forall r, In r (Ops.uploaded u ++ Ops.failed u) -> In (Ops.report_name r) files)
  /\ (forall filename answer,
        In filename files ->
        Ops.upload site (wp_url +:+ "/wp-json/wp/v2/media") wp_user wp_password
          (path_join batch_dir filename) = Ok answer ->
        Ops.answer_status answer <> 201 ->
        In (Ops.Failed filename
              ("HTTP " +:+ pretty (Ops.answer_status answer) +:+ ": "
                 +:+ Ops.answer_text answer))
           (Ops.failed u)).
Proof.
  cbv zeta. unfold Ops.upload_to_wordpress.
  cbn [Ops.total Ops.uploaded Ops.failed Ops.success].
  set (batch_dir := path_join (images_dir cfg) directory).
  set (files := Ops.upto limit (Ops.newest_webp site batch_dir)).
  set (reports := List.map (Ops.upload_one site wp_url wp_user wp_password batch_dir) files).
  assert (Hname : forall r, In r reports -> In (Ops.report_name r) files).
  { intros r Hr. subst reports. apply in_map_iff in Hr as (f & <- & Hf).
    unfold Ops.upload_one. destruct (Ops.upload _ _ _ _ _) as [a|e]; [|exact Hf].
    destruct (Z.eqb _ 201); [destruct (Ops.answer_media a)|]; exact Hf. }
  split.
  { rewrite reports_split. subst reports. apply length_map. }
  split; [reflexivity|].
  split.
  { intros Hlimit. rewrite reports_split. subst reports. rewrite length_map.
    subst files. destruct (upto_length limit (Ops.newest_webp site batch_dir))
      as (_ & Hmin & _). rewrite (Hmin Hlimit). lia. }
  split.
  { destruct (List.filter Ops.is_failed reports); simpl; split; congruence. }
  split.
  { intros r Hr. apply Hname. apply in_app_or in Hr as [Hr|Hr];
      apply filter_In in Hr as [Hr _]; exact Hr. }
  intros filename answer Hin Hup Hstatus.
  apply filter_In. split; [|reflexivity].
  subst reports. apply in_map_iff. exists filename. split; [|exact Hin].
  unfold Ops.upload_one. rewrite Hup.
  destruct (Z.eqb_spec (Ops.answer_status answer) 201); [contradiction | reflexivity].
Qed.

Lemma upload_to_wordpress_accounts_for_every_file_witness :
  let site := Cases.site ["c.webp"; "b.webp"; "a.webp"] (Ok Cases.plain_ok) in
  let u := Ops.upload_to_wordpress Sample.cfg site "https://blog" "me" "pw" "batch" 2 in
  0 <= 2
  /\ (Ops.total u <= Z.to_nat 2)%nat
  /\ Ops.failed u
     = [Ops.Failed "c.webp" "HTTP 200: OK"; Ops.Failed "b.webp" "HTTP 200: OK"].
Proof.
  intros site u. split; [lia|]. split; [|reflexivity].
  exact (proj1 (proj2 (proj2 (upload_to_wordpress_accounts_for_every_file Sample.cfg
                                site "https://blog" "me" "pw" "batch" 2)))
           ltac:(lia)).
Defined.

Lemma read_images_state w batch_dir names : forall images st,
  snd (Ops.read_images w batch_dir names images st) = st.
Proof.
  induction names as [|name names IH]; intros images st; simpl; [reflexivity|].
  destruct (fs st !! path_join batch_dir name); [apply IH | reflexivity].
Qed.

Lemma read_images_all w batch_dir names : forall images st,
  Forall (fun name => is_Some (fs st !! path_join batch_dir name)) names ->
  exists more,
    Ops.read_images w batch_dir names images st = (Ok (images ++ more), st)
    /\ List.map Ops.image_name more = names.
Proof.
  induction names as [|name names IH]; intros images st Hall; simpl.
  - exists []. rewrite app_nil_r. split; reflexivity.
  - inversion Hall as [|? ? [content Hc] Hrest]; subst. rewrite Hc.
    destruct (IH (images ++ [Ops.mkImage name (b64encode w content)
                               (path_join batch_dir name) (String.length content)])
                st Hrest) as (more & Hrun & Hnames).
    eexists (_ :: more). rewrite Hrun, <- app_assoc. simpl.
    split; [reflexivity | rewrite Hnames; reflexivity].
Qed.

Lemma read_images_missing w batch_dir pre name rest : forall images st,
  Forall (fun name => is_Some (fs st !! path_join batch_dir name)) pre ->
  fs st !! path_join batch_dir name = None ->
  exists e, Ops.read_images w batch_dir (pre ++ name :: rest) images st = (Raise e, st).
Proof.
  induction pre as [|p pre IH]; intros images st Hall Hmiss; simpl.
  - rewrite Hmiss. eexists. reflexivity.
  - inversion Hall as [|? ? [content Hc] Hrest]; subst. rewrite Hc.
    apply IH; assumption.
Qed.

(** X23.  [get_generated_webp_images] is all or nothing: when every one
    of the files it considers can be read, it returns one entry per file,
    in the order of the files (newest first), with [count] their number,
    never more than a [limit] that is not negative; when one of them cannot
    be read the whole call raises and returns no entry at all.  It changes
    nothing. *)
Theorem get_generated_webp_images_is_all_or_nothing
    (w : World) (cfg : Config) (site : Ops.Site) (directory : string)
    (limit : Z) (st : State) :
  let batch_dir := path_join (images_dir cfg) directory in
  let files := Ops.upto limit (Ops.newest_webp site batch_dir) in
  let run := Ops.get_generated_webp_images w cfg site directory limit st in
  snd run = st
  /\ (Forall (fun name => is_Some (fs st !! path_join batch_dir name)) files ->
      exists images,
        fst run = Ok (images, length files)
        /\ List.map Ops.image_name images = files
        /\ (0 <= limit -> (length images <= Z.to_nat limit)%nat))
  /\ (forall pre name rest,
        files = pre ++ name :: rest ->
        Forall (fun name => is_Some (fs st !! path_join batch_dir name)) pre ->
        fs st !! path_join batch_dir name = None ->
        exists e, fst run = Raise e).
Proof.
  cbv zeta. unfold Ops.get_generated_webp_images, bind.
  set (batch_dir := path_join (images_dir cfg) directory).
  set (files := Ops.upto limit (Ops.newest_webp site batch_dir)).
  pose proof (read_images_state w batch_dir files [] st) as Hst.
  split; [|split].
  - destruct (Ops.read_images w batch_dir files [] st) as [[images|e] s1];
      simpl in Hst; subst s1; reflexivity.
  - intros Hall. destruct (read_images_all w batch_dir files [] st Hall)
      as (images & Hrun & Hnames).
    rewrite Hrun. simpl. exists images.
    assert (Hlen : length images = length files).
    { rewrite <- Hnames. symmetry. apply length_map. }
    rewrite Hlen. split; [reflexivity|]. split; [exact Hnames|].
    intros Hlimit. subst files.
    destruct (upto_length limit (Ops.newest_webp site batch_dir)) as (_ & Hmin & _).
    rewrite (Hmin Hlimit). lia.
  - intros pre name rest Hfiles Hpre Hmiss. rewrite Hfiles.
    destruct (read_images_missing w batch_dir pre name rest [] st Hpre Hmiss)
      as [e Hrun].
    rewrite Hrun. exists e. reflexivity.
Qed.

Lemma get_generated_webp_images_is_all_or_nothing_witness :
  let w := Sample.world None Sample.image [] in
  let site := Cases.site ["b.webp"; "gone.webp"; "a.webp"] (Ok Cases.accepted) in
  let st := Sample.state [("/img/batch/a.webp", "A"); ("/img/batch/b.webp", "BB")] [] in
  (Forall (fun name => is_Some (fs st !! path_join "/img/batch" name)) ["b.webp"]
   /\ fs st !! path_join "/img/batch" "gone.webp" = None)
  /\ exists e,
       fst (Ops.get_generated_webp_images w Sample.cfg site "batch" 10 st) = Raise e.
Proof.
  intros w site st.
  assert (H : Forall (fun name => is_Some (fs st !! path_join "/img/batch" name))
                ["b.webp"]).
  { repeat constructor. vm_compute. eexists. reflexivity. }
  split; [split; [exact H | reflexivity]|].
  exact (proj2 (proj2 (get_generated_webp_images_is_all_or_nothing w Sample.cfg site
                         "batch" 10 st))
           ["b.webp"] "gone.webp" ["a.webp"] eq_refl H eq_refl).
Defined.

(** ** The configuration *)

Lemma assoc_dict_set_eq (k : string) (v : JSON) (d : list (string * JSON)) :
  assoc k (Ops.dict_set k v d) = Some v.
Proof.
  induction d as [|[k' v'] d IH]; simpl.
  - rewrite String.eqb_refl. reflexivity.
  - destruct (String.eqb k k') eqn:E; simpl.
    + rewrite String.eqb_refl. reflexivity.
    + rewrite E. exact IH.
Qed.

Lemma assoc_dict_set_ne (k k' : string) (v : JSON) (d : list (string * JSON)) :
  k <> k' -> assoc k' (Ops.dict_set k v d) = assoc k' d.
Proof.
  intros Hne. induction d as [|[k0 v0] d IH]; simpl.
  - destruct (String.eqb_spec k' k); [congruence | reflexivity].
  - destruct (String.eqb_spec k k0) as [->|Hk]; simpl.
    + destruct (String.eqb_spec k' k0); [congruence | reflexivity].
    + destruct (String.eqb k' k0); [reflexivity | exact IH].
Qed.

(** The loop over the path keys, when every path value is a string:
    each listed key that is present is expanded once, nothing is added and
    nothing else is changed. *)
Lemma expand_keys_spec (w : World) (keys : list string) :
  forall cfg,
    NoDup keys ->
    (forall k v, k ∈ keys -> assoc k cfg = Some v -> exists s, v = JStr s) ->
    exists cfg',
      Ops.expand_keys w keys cfg = Ok cfg'
      /\ (forall k s, k ∈ keys -> assoc k cfg = Some (JStr s) ->
                      assoc k cfg' = Some (JStr (expanduser w s)))
      /\ (forall k, assoc k cfg = None -> assoc k cfg' = None)
      /\ (forall k, k ∉ keys -> assoc k cfg' = assoc k cfg).
Proof.
  induction keys as [|key keys IH]; intros cfg Hnodup Hstr.
  - exists cfg. repeat split; auto. intros k s Hk. inversion Hk.
  - apply NoDup_cons in Hnodup as [Hfresh Hnodup]. simpl.
    destruct (assoc key cfg) as [v|] eqn:Hkey.
    + destruct (Hstr key v ltac:(left) Hkey) as [s0 ->]. simpl.
      set (cfg1 := Ops.dict_set key (JStr (expanduser w s0)) cfg).
      assert (Hother : forall k, k <> key -> assoc k cfg1 = assoc k cfg).
      { intros k Hk. apply assoc_dict_set_ne. congruence. }
      destruct (IH cfg1 Hnodup) as (cfg' & Hrun & Hin & Hnone & Hout).
      { intros k v Hk Hv. apply (Hstr k v); [right; exact Hk|].
        rewrite <- Hother; [exact Hv|]. intros ->. contradiction. }
      exists cfg'. split; [exact Hrun|]. split; [|split].
      * intros k s Hk Hs. apply elem_of_cons in Hk as [->|Hk].
        -- rewrite (Hout key Hfresh). subst cfg1. rewrite assoc_dict_set_eq.
           congruence.
        -- apply Hin; [exact Hk|]. rewrite Hother; [exact Hs|].
           intros ->. contradiction.
      * intros k Hk. apply Hnone. rewrite Hother; [exact Hk|]. congruence.
      * intros k Hk. apply not_elem_of_cons in Hk as [Hk Hk'].
        rewrite (Hout k Hk'). apply Hother. exact Hk.
    + destruct (IH cfg Hnodup) as (cfg' & Hrun & Hin & Hnone & Hout).
      { intros k v Hk. apply Hstr. right. exact Hk. }
      exists cfg'. split; [exact Hrun|]. split; [|split].
      * intros k s Hk Hs. apply elem_of_cons in Hk as [->|Hk]; [congruence|].
        apply Hin; assumption.
      * exact Hnone.
      * intros k Hk. apply not_elem_of_cons in Hk as [_ Hk]. apply Hout. exact Hk.
Qed.

Ltac unlisted :=
  let H := fresh in
  intros H; repeat (apply elem_of_cons in H as [H|H]; [discriminate H|]);
  inversion H.

Lemma server_path_keys_nodup : NoDup Ops.server_path_keys.
Proof.
  unfold Ops.server_path_keys.
  repeat (apply NoDup_cons_2; [unlisted|]). apply NoDup_nil_2.
Qed.

Lemma batch_path_keys_nodup : NoDup Ops.batch_path_keys.
Proof.
  unfold Ops.batch_path_keys.
  repeat (apply NoDup_cons_2; [unlisted|]). apply NoDup_nil_2.
Qed.

Lemma batch_path_keys_listed (k : string) :
  k ∈ Ops.batch_path_keys -> k ∈ Ops.server_path_keys.
Proof.
  unfold Ops.batch_path_keys, Ops.server_path_keys. rewrite !elem_of_cons.
  tauto.
Qed.

(** X24.  On a configuration whose [images_dir] and other path values
    are strings, [load_config] of the server succeeds: [images_dir] is
    expanded, [batch_dir] and [queue_file] are [images_dir] joined with
    [batch_subdir] (default ["batch"]) and [queue_filename] (default
    ["batch_queue.json"]), and every key that is neither a path key nor one
    of the two derived keys keeps its value.  The batch script, loading the
    same file, takes the same directory as its default output directory. *)
Theorem load_config_derives_the_batch_paths
    (w : World) (file : list (string * JSON)) (d sub qname : string)
    (Hdir : assoc "images_dir" file = Some (JStr d))
    (Hpaths : forall k v, k ∈ Ops.server_path_keys -> assoc k file = Some v ->
                          exists s, v = JStr s)
    (Hsub : default (JStr "batch") (assoc "batch_subdir" file) = JStr sub)
    (Hqueue : default (JStr "batch_queue.json") (assoc "queue_filename" file)
              = JStr qname) :
  exists cfg,
    Ops.load_config w file = Ok cfg
    /\ assoc "images_dir" cfg = Some (JStr (expanduser w d))
    /\ assoc "batch_dir" cfg = Some (JStr (path_join (expanduser w d) sub))
    /\ assoc "queue_file" cfg = Some (JStr (path_join (expanduser w d) qname))
    /\ (forall k, k ∉ Ops.server_path_keys -> k <> "batch_dir" -> k <> "queue_file" ->
                  assoc k cfg = assoc k file)
    /\ exists bcfg,
         Ops.batch_load_config w file = Ok bcfg
         /\ Ops.default_output_dir bcfg = Ok (JStr (path_join (expanduser w d) sub)).
Proof.
  destruct (expand_keys_spec w Ops.server_path_keys file server_path_keys_nodup Hpaths)
    as (cfg1 & Hrun & Hin & _ & Hout).
  assert (Hdir1 : assoc "images_dir" cfg1 = Some (JStr (expanduser w d))).
  { apply Hin; [|exact Hdir]. left. }
  assert (Hsub1 : assoc "batch_subdir" cfg1 = assoc "batch_subdir" file).
  { apply Hout. unfold Ops.server_path_keys. unlisted. }
  assert (Hqueue1 : assoc "queue_filename" cfg1 = assoc "queue_filename" file).
  { apply Hout. unfold Ops.server_path_keys. unlisted. }
  set (cfg2 := Ops.dict_set "batch_dir" (JStr (path_join (expanduser w d) sub)) cfg1).
  set (cfg3 := Ops.dict_set "queue_file" (JStr (path_join (expanduser w d) qname)) cfg2).
  assert (Hdir2 : assoc "images_dir" cfg2 = Some (JStr (expanduser w d))).
  { subst cfg2. rewrite assoc_dict_set_ne by discriminate. exact Hdir1. }
  assert (Hqueue2 : assoc "queue_filename" cfg2 = assoc "queue_filename" file).
  { subst cfg2. rewrite assoc_dict_set_ne by discriminate. exact Hqueue1. }
  exists cfg3. split.
  { unfold Ops.load_config. rewrite Hrun. cbn [and_then].
    unfold Ops.item. rewrite Hdir1. cbn [and_then].
    rewrite Hsub1, Hsub. cbn [Ops.join_values and_then]. fold cfg2.
    rewrite Hdir2. cbn [and_then]. rewrite Hqueue2, Hqueue.
    cbn [Ops.join_values and_then]. reflexivity. }
  split.
  { subst cfg3. rewrite assoc_dict_set_ne by discriminate. exact Hdir2. }
  split.
  { subst cfg3 cfg2. rewrite assoc_dict_set_ne by discriminate.
    apply assoc_dict_set_eq. }
  split; [apply assoc_dict_set_eq|].
  split.
  { intros k Hk Hb Hq. subst cfg3 cfg2.
    rewrite !assoc_dict_set_ne by congruence. apply Hout. exact Hk. }
  destruct (expand_keys_spec w Ops.batch_path_keys file batch_path_keys_nodup)
    as (bcfg & Hbrun & Hbin & _ & Hbout).
  { intros k v Hk. apply Hpaths, batch_path_keys_listed, Hk. }
  exists bcfg. split; [exact Hbrun|].
  unfold Ops.default_output_dir, Ops.item.
  rewrite (Hbin "images_dir" d ltac:(left) Hdir). cbn [and_then].
  rewrite (Hbout "batch_subdir") by (unfold Ops.batch_path_keys; unlisted).
  rewrite Hsub. reflexivity.
Qed.

Lemma load_config_derives_the_batch_paths_witness :
  let w := Sample.world None Sample.image [] in
  let file := [("images_dir", JStr "~/img"); ("api_delay_seconds", JInt 5);
               ("batch_subdir", JStr "today");
               ("batch_manager_script", JStr "~/bin/manager.py")] in
  (assoc "images_dir" file = Some (JStr "~/img")
   /\ default (JStr "batch") (assoc "batch_subdir" file) = JStr "today"
   /\ default (JStr "batch_queue.json") (assoc "queue_filename" file)
      = JStr "batch_queue.json")
  /\ exists cfg,
       Ops.load_config w file = Ok cfg
       /\ assoc "batch_dir" cfg
          = Some (JStr (path_join (expanduser w "~/img") "today"))
       /\ assoc "queue_file" cfg
          = Some (JStr (path_join (expanduser w "~/img") "batch_queue.json")).
Proof.
  intros w file.
  split; [repeat split|].
  assert (Hpaths : forall k v, k ∈ Ops.server_path_keys -> assoc k file = Some v ->
                               exists s, v = JStr s).
  { intros k v Hk. unfold Ops.server_path_keys in Hk.
    repeat (apply elem_of_cons in Hk as [->|Hk]);
      [| | | | inversion Hk]; vm_compute; intros Hv;
      try discriminate Hv; injection Hv as <-; eexists; reflexivity. }
  destruct (load_config_derives_the_batch_paths w file "~/img" "today"
              "batch_queue.json" eq_refl Hpaths eq_refl eq_refl)
    as (cfg & Hrun & _ & Hbatch & Hqueue & _).
  exists cfg. repeat split; assumption.
Defined.

(** X25.  A configuration without [images_dir] stops the server when it
    loads it, with the key error ['images_dir'], whatever else the file
    holds; the batch script loads the same file without complaint, and
    fails with that key error only where it needs its default output
    directory. *)
Theorem a_configuration_without_images_dir_stops_the_server
    (w : World) (file : list (string * JSON))
    (Hdir : assoc "images_dir" file = None)
    (Hpaths : forall k v, k ∈ Ops.server_path_keys -> assoc k file = Some v ->
                          exists s, v = JStr s) :
  Ops.load_config w file = Raise "'images_dir'"
  /\ exists bcfg,
       Ops.batch_load_config w file = Ok bcfg
       /\ Ops.default_output_dir bcfg = Raise "'images_dir'".
Proof.
  destruct (expand_keys_spec w Ops.server_path_keys file server_path_keys_nodup Hpaths)
    as (cfg1 & Hrun & _ & Hnone & _).
  split.
  { unfold Ops.load_config. rewrite Hrun. cbn [and_then]. unfold Ops.item.
    rewrite (Hnone _ Hdir). reflexivity. }
  destruct (expand_keys_spec w Ops.batch_path_keys file batch_path_keys_nodup)
    as (bcfg & Hbrun & _ & Hbnone & _).
  { intros k v Hk. apply Hpaths, batch_path_keys_listed, Hk. }
  exists bcfg. split; [exact Hbrun|].
  unfold Ops.default_output_dir, Ops.item. rewrite (Hbnone _ Hdir). reflexivity.
Qed.

Lemma a_configuration_without_images_dir_stops_the_server_witness :
  let w := Sample.world None Sample.image [] in
  let file := [("api_delay_seconds", JInt 5);
               ("batch_manager_script", JStr "~/bin/manager.py")] in
  assoc "images_dir" file = None
  /\ Ops.load_config w file = Raise "'images_dir'".
Proof.
  intros w file. split; [reflexivity|].
  refine (proj1 (a_configuration_without_images_dir_stops_the_server w file
                   eq_refl _)).
  intros k v Hk. unfold Ops.server_path_keys in Hk.
  repeat (apply elem_of_cons in Hk as [->|Hk]);
    [| | | | inversion Hk]; vm_compute; intros Hv;
    try discriminate Hv; injection Hv as <-; eexists; reflexivity.
Defined.

(** ** When the environment refuses *)

Lemma first_missing_present (w : World) (st : State) (paths : list string) :
  Forall (present w st) paths -> Observe.first_missing w (fs st) paths = None.
Proof.
  induction 1 as [|p paths [content Hp] _ IH]; [reflexivity|].
  simpl. rewrite Hp. exact IH.
Qed.

(** X26.  The removal from the queue is the last statement of the [try]:
    when the image of an entry has been received, decoded and written
    but the batch manager cannot be started, the entry is recorded as
    failed, with the error of the start, although its image is in the
    output directory; the queue store is left as it was, so the entry will
    be generated again by the next run. *)
Theorem a_removal_that_cannot_start_fails_the_entry
    (w : World) (cfg : Config) (api_key output_dir : string) (n i : nat)
    (prompt_data : PromptData) (prompt : string) (st : State)
    (r : Response) (parts : list ResponsePart) (data bytes e : string) :
  pd_prompt prompt_data = Some prompt ->
  let j := Batch.resolve i prompt_data in
  let output_path := path_join output_dir (Batch.filename j) in
  Forall (present w st) (Batch.reference_images j) ->
  requests_post w (length (posts (trace st))) (endpoint (Batch.model j) api_key)
    (Batch.payload_of j (encoded w st (Batch.reference_images j)) prompt) = Ok r ->
  status_code r = 200 ->
  candidate_parts r = Ok parts ->
  first_inline_data parts = Some data ->
  data <> "" ->
  open_wb w output_path = None ->
  b64decode w data = Ok bytes ->
  spawn w ["python3"; batch_manager_script cfg; "remove"; Batch.queue_filename j]
  = Some e ->
  let run := Batch.process_entry w cfg api_key output_dir n i prompt_data st in
  fst run = Ok (Error (Batch.filename j) e)
  /\ fs (snd run) !! output_path = Some bytes
  /\ queue (snd run) = queue st
  /\ length (posts (trace (snd run))) = S (length (posts (trace st))).
Proof.
  intros Hp j output_path Hpresent Hr Hs Hparts Hdata Hne Hopen Hdec Hspawn run.
  destruct (process_entry_told w cfg api_key output_dir n i prompt_data st
              (ex_intro _ prompt Hp)) as (st' & Hrun & Hled).
  subst run. rewrite Hrun. cbn [fst snd].
  assert (Hturn : Observe.turn w cfg api_key output_dir i prompt_data (Observe.ledger st)
                  = (Error (Batch.filename j) e,
                     Observe.mkLedger (<[output_path := bytes]> (fs st)) (queue st)
                       (S (length (posts (trace st)))))).
  { unfold Observe.turn, Observe.ledger.
    cbn [Observe.files Observe.entries Observe.sent].
    rewrite Hp. cbn [default from_option id]. fold j. fold output_path.
    rewrite (first_missing_present w st _ Hpresent).
    change (Observe.parts_of w (fs st) (Batch.reference_images j))
      with (encoded w st (Batch.reference_images j)).
    rewrite Hr, Hs, Hparts, Hdata. cbn [Z.eqb Pos.eqb negb truthy].
    destruct (String.eqb_spec data ""); [contradiction|]. cbn [negb].
    rewrite Hopen. cbn [default from_option id]. rewrite Hdec.
    unfold Batch.remove_cmd. rewrite Hspawn. reflexivity. }
  rewrite Hturn in Hled |- *. cbn [fst snd] in Hled |- *.
  unfold Observe.ledger in Hled. injection Hled as Hfs Hq Hposts.
  rewrite Hfs, Hq, Hposts. repeat split; try reflexivity. apply lookup_insert_eq.
Qed.

Lemma a_removal_that_cannot_start_fails_the_entry_witness :
  let w :=
    mkWorld (Some "k") id (fun _ => ".png") id Ok (fun _ _ _ => Ok Sample.image)
      (fun _ => None) "20260101_120000" (fun _ => "[...]") (fun _ => Ok [])
      (fun _ => "[results]") (QueueStore.script Sample.dump_queue)
      "/img/batch_queue.json"
      (fun _ => Some "[Errno 2] No such file or directory: 'python3'") in
  let st := Sample.state [] [Sample.plain] in
  let run := Batch.process_entry w Sample.cfg "k" "/out" 1 1 Sample.plain st in
  (pd_prompt Sample.plain = Some "a red circle"
   /\ status_code Sample.image = 200
   /\ b64decode w "aGk=" = Ok "aGk="
   /\ spawn w ["python3"; "/opt/batch_manager.py"; "remove"; "circle.png"]
      = Some "[Errno 2] No such file or directory: 'python3'")
  /\ fst run
     = Ok (Error "circle.png" "[Errno 2] No such file or directory: 'python3'")
  /\ fs (snd run) !! "/out/circle.png" = Some "aGk="
  /\ queue (snd run) = [Sample.plain].
Proof.
  intros w st run. split; [repeat split; reflexivity|].
  destruct (a_removal_that_cannot_start_fails_the_entry w Sample.cfg "k" "/out" 1 1
              Sample.plain "a red circle" st Sample.image
              [WithoutInlineData; WithInlineData "aGk="] "aGk=" "aGk="
              "[Errno 2] No such file or directory: 'python3'"
              eq_refl ltac:(constructor) eq_refl eq_refl eq_refl eq_refl
              ltac:(discriminate) eq_refl eq_refl eq_refl)
    as (Hres & Hfile & Hq & _).
  split; [exact Hres|]. split; [exact Hfile | exact Hq].
Defined.

(** X27.  The delay is taken from the configuration as it is: with a
    negative [api_delay_seconds] a run over two entries or more raises at
    its first pause, which stands outside the [try].  The first entry has
    then been handled, with the outcome and the effects told for it, the
    other entries are not attempted, and no summary is written. *)
Theorem a_negative_delay_aborts_the_run_at_the_first_pause
    (w : World) (cfg : Config) (prompts_file output_dir : string) (st : State)
    (content : string) (first : PromptData) (rest : list PromptData) :
  truthy (GEMINI_API_KEY w) = true ->
  fs st !! prompts_file = Some content ->
  json_load_prompts w content = Ok (first :: rest) ->
  rest <> [] ->
  Batch.has_prompt first ->
  api_delay_seconds cfg < 0 ->
  let run := Batch.generate_images_batch w cfg prompts_file output_dir st in
  fst run = Raise "sleep length must be non-negative"
  /\ Observe.ledger (snd run)
     = snd (Observe.turn w cfg (default "" (GEMINI_API_KEY w)) output_dir 1 first
              (Observe.ledger st))
  /\ Observe.sleeps (trace (snd run)) = Observe.sleeps (trace st).
Proof.
  intros Hkey Hfile Hload Hrest Hfirst Hdelay. cbv zeta.
  set (n := length (first :: rest)).
  set (s0 := emit (Print ("Generating " +:+ pretty n +:+ " images...")) st).
  destruct (process_entry_told w cfg (default "" (GEMINI_API_KEY w)) output_dir
              n 1 first s0 Hfirst) as (s1 & Hstep & Hled).
  subst s0. rewrite ledger_emit_print in Hstep, Hled.
  destruct (process_entry_frame w cfg (default "" (GEMINI_API_KEY w)) output_dir
              n 1 first
              (emit (Print ("Generating " +:+ pretty n +:+ " images...")) st))
    as (Hs1 & _).
  rewrite Hstep in Hs1. cbn [snd] in Hs1.
  assert (Hn : (1 < n)%nat).
  { subst n. destruct rest; [contradiction | simpl; lia]. }
  assert (Hrun : Batch.generate_images_batch w cfg prompts_file output_dir st
                 = (Raise "sleep length must be non-negative",
                    emit (Print ("Waiting " +:+ pretty (api_delay_seconds cfg)
                                   +:+ " seconds...")) s1)).
  { unfold Batch.generate_images_batch. rewrite Hkey. cbn [negb].
    unfold bind at 1. unfold Batch.load_prompts at 1. rewrite Hfile, Hload.
    cbn [is_nil]. unfold bind at 1. unfold print at 1. unfold bind at 1.
    fold n. cbn [Batch.batch_loop]. unfold bind at 1. rewrite Hstep.
    unfold bind at 1. rewrite (pause_refused cfg n 1 s1 Hdelay Hn). reflexivity. }
  rewrite Hrun. cbn [fst snd]. rewrite ledger_emit_print.
  split; [reflexivity|]. split; [exact Hled|].
  unfold emit. cbn [trace]. rewrite sleeps_snoc. cbn [Observe.is_sleep].
  rewrite app_nil_r, Hs1. unfold emit. cbn [trace]. rewrite sleeps_snoc.
  cbn [Observe.is_sleep]. apply app_nil_r.
Qed.

Lemma a_negative_delay_aborts_the_run_at_the_first_pause_witness :
  let entries := [Sample.plain; Sample.quick] in
  let w := Sample.world (Some "k") Sample.image entries in
  let st := Sample.state [("/queue.json", "{}")] entries in
  let run := Batch.generate_images_batch w Sample.hasty "/queue.json" "/out" st in
  (truthy (GEMINI_API_KEY w) = true
   /\ fs st !! "/queue.json" = Some "{}"
   /\ json_load_prompts w "{}" = Ok (Sample.plain :: [Sample.quick])
   /\ api_delay_seconds Sample.hasty < 0)
  /\ fst run = Raise "sleep length must be non-negative"
  /\ queue (snd run) = [Sample.quick]
  /\ fs (snd run) !! "/out/batch_results.json" = None.
Proof.
  intros entries w st run. split; [repeat split; reflexivity|].
  destruct (a_negative_delay_aborts_the_run_at_the_first_pause w Sample.hasty
              "/queue.json" "/out" st "{}" Sample.plain [Sample.quick]
              eq_refl eq_refl eq_refl ltac:(discriminate)
              ltac:(eexists; reflexivity) eq_refl)
    as (Hres & Hled & _).
  fold run in Hres, Hled. split; [exact Hres|].
  assert (Hq : Observe.entries (Observe.ledger (snd run)) = [Sample.quick])
    by (rewrite Hled; vm_compute; reflexivity).
  assert (Hf : Observe.files (Observe.ledger (snd run)) !! "/out/batch_results.json"
               = None)
    by (rewrite Hled; vm_compute; reflexivity).
  split; [exact Hq | exact Hf].
Defined.
